(* ===== verification/_CoqProject ===== *)
-Q . S2P
Prelude.v
Regex.v
Extern.v
Descriptor.v
Sink.v
Encoding.v
Normalizer.v
Composer.v
Emitter.v
Generator.v
Raw.v
Script.v
Interp.v
Machine.v
WrapperSpec.v
Top.v
Conformance.v
