(* ===== verification/Prelude.v ===== *)
(** * pyfred wrapper generator: a verification development

    The program verified here is [src/pyfred/script03_apiwrapgen.py], the
    third script of pyfred's API generation.  It reads a store of command
    descriptors ([apidat]) and a store of documentation blocks ([docdat]) and
    writes one Python source file: a fixed class header followed by one
    wrapper method per command whose kind is not ['unknown'].

    ** Parts of the program and the files that model them

    - [Prelude] (this file): what the components share.  Python's [str]
      operations the script uses ([+], [*], [.upper()], [.join]), the
      exceptions the script can raise ([exn]) and the result monad
      ([result]) that carries them, the rewrite database [pystr], the hint
      database [pyfred] and the tactics of the development.
    - [Regex]: the compiled pattern [PARMAT] (line 41) with the two methods
      the script calls on it, [PARMAT.search] and [PARMAT.sub('', _)], as
      executable functions on strings, and a small regular-expression
      syntax with its language, against which the matcher is proved.
      The characters [\s] matches are a parameter, the class [Blank],
      with one instance per interpreter.
    - [Extern]: the collaborators that are not under [src/]: the module
      [utils_parse] ([vb2pytype], [wrap_longlines], [fmt_docstr]),
      [glovars.STUBDIR] and [os.path.join], as the class [Utils]; their
      laws as the class [UtilsLaws]; a reference instance that satisfies
      the laws and evaluates.
    - [Descriptor]: the data model. [ApiEntry] is one value of [apidat]
      (keys [cmdtype], [descr], [returns], [sig]), kept as loosely typed as
      the YAML the script reads: [sig] is a list of lists and [returns] a
      list, so that a descriptor of the wrong arity is a value of the
      model.  The decidable well-formedness predicate [wf_entry].
    - [Sink]: the output file [fid] and the status stream of [print], as
      the state [Sink] of the monad [M], which keeps the state when an
      exception is raised (text written before a failure stays written).
    - [Encoding]: the bytes the writes leave on disk ([fid_bytes]),
      through the utf-8 encoder that line 129 names, and its decoder.
      The encoder is that of Python's [codecs], written from the
      definition of UTF-8.
    - [Normalizer]: lines 149-160 and 207-209, the loop that fills the
      dicts [newparams] and [annots], as folds over [gmap string string].
    - [Composer]: lines 138-147 ([descstr]), 163-205 ([retstr]) and
      210-217 ([arglist]).
    - [Emitter]: lines 206 and 219-264, the [fid.write] calls of one
      command, in order.
    - [Generator]: the body of the loop (lines 133-264) composed from the
      above, the loop (line 132), [CLASTR] (lines 44-97) and the
      statements of [main] on the open file (lines 130-264).
    - [Raw]: the same body, loop and statements on descriptors as the
      dicts the YAML reader returns, in which each of the four keys may
      be missing; the lookups [cmdtype], [descr], [sig] and [returns]
      stand where the script has them (lines 133, 147, 148, 168) and
      raise [KeyError].
    - [Script]: [main] as a whole (lines 99-265) and the module around it
      (lines 38 and 267-269), on a [World] that holds the two input
      files, the output file, whether [fid] is open, the status stream
      and the clock: [readyaml], [keys], [codecs_open], [fid_close],
      [run_main], [TIMENOW], [script].
    - [Interp]: two runs of the script that differ in the interpreter,
      that is in the instance of [Blank].
    - [Machine]: the loop of line 132 as a transition system, the
      relation [step] on configurations [Config] (running, done or
      failed; the names left; the sink), with the function [step_fun]
      and its iteration [run].
    - [WrapperSpec]: the specification.  Command kinds as the enumeration
      [Kind], a descriptor of the stated arity as a typed [Command], the
      wrapper of a command as the structured value [Wrapper] (arguments of
      the header with their default policy, normalized parameters, shape
      of the return value, body template) built by [wrapper_of], and its
      text [render].  Nothing of this exists in the script, which builds
      and writes strings: it is what the script is proved to implement.
    - [Top]: the composition: the program started on its input files,
      against the specification.
    - [Conformance]: runs of the script itself, of [main] on stores that
      cover its branches and failures and of the whole file through its
      entry guard on readable, unreadable and incomplete inputs,
      recorded, with the examples that the model computes the same
      outcome, file, status lines and open flag.

    The files depend on one another in this order.  [Extern] is the only
    interface between the script and code outside the repository: every
    theorem about the composer, the emitter and the generator is proved in
    a section over an arbitrary instance of [Utils] (and of [UtilsLaws]
    where the behaviour of [wrap_longlines] on the empty string matters),
    and the witnesses instantiate them with [ref_utils].  [Sink] states
    what a statement promises about the two streams as the class
    [Appends], with one instance per operation of the emitter and the
    generator, and that a statement prints nothing as the class [Quiet].
    [Script] takes the paths of [glovars] from the class [Glovars].
    [Regex] takes what the interpreter decides from the class [Blank]:
    every definition that calls the matcher, up to [script], and every
    theorem about it, is stated for an arbitrary instance; the witnesses
    and the recorded runs use [py3_blank].

    ** Modelling decisions

    - A Python [str] is a [string] whose characters are the code points
      below 256; text with a code point above 255 is outside the model.
      [.upper()] is that of text ([a-z] and the letters U+00E0 to U+00FE
      go 32 down, the sharp s becomes [SS]), except on U+00B5 and U+00FF,
      whose upper case lies above 255: a kind that holds one of the two
      is outside the model.
    - [\s] is a class of characters that holds neither parenthesis
      ([Regex.Blank]).  Python 3 matches a [str] pattern against the
      blanks of Unicode ([unicode_space], twelve characters below 256),
      Python 2 against those of ASCII ([ascii_space], six); the script
      runs under both and does not say which.
    - A dict is a [gmap]; [d[k]] on a missing key raises [KeyError k].
      In [Generator] and [Raw] the iteration order of [apidat.keys()] is
      an input (the list [cmdnames]); in [Script] the dict read from the
      file is a [pydict], the list of its items in the order in which
      the dict is iterated with no key twice, and [keys] its first
      components.
    - A value of [apidat] has two models.  The record [ApiEntry] has the
      four keys, so that its lookups cannot fail; the dict [RawEntry] may
      lack any of them.  [Raw.runM_main_raw_of] shows that the runs
      agree on complete dicts, so that the theorems about records hold of
      the script on the inputs it is meant for, and [Raw] adds what
      happens on the others.
    - Files.  An input file is its parsed contents, or [None] when it
      cannot be read, in which case [readyaml] raises [IOError] with the
      path: an assumption on [utils.readyaml], which is not under
      [src/].  The output file is the list of the chunks written to it;
      [codecs.open] with mode ['w'] empties it and raises [IOError] when
      the path cannot be opened.  A write appends its chunk at once:
      buffering is not modelled, so that after an exception the file of
      the model holds all that was passed to [fid.write], which the
      real file holds once the interpreter has flushed it.  The chunks
      are text; the bytes on disk are their utf-8 encoding
      ([Encoding.fid_bytes]), one byte for a character below 128 and two
      for the others.  [fid.close()] is the last statement of [main]:
      an exception leaves the file open.
    - The laws of [wrap_longlines] ([Extern.UtilsLaws]) are assumed.
      The test of line 258 is written for the first (the empty text
      stays empty); the second (a text that is not empty does not become
      empty) is not implied by the script, and a wrapper that returns
      the empty string on text of blanks only does not satisfy it.  The
      theorems that take [UtilsLaws] ([WrapperSpec], [Top], the second
      half of [Emitter.paramstr_of_spec]) say nothing of a run with
      such a wrapper.
    - Tuple unpacking [a, b = v] raises [ValueError (length v)] unless [v]
      has two elements; [v[0]] raises [IndexError] on an empty list.
    - Fuel.  [Regex.sub_fuel] takes fuel and returns [None] when it
      runs out; the entry point [PARMAT_sub] passes the length of the
      subject plus one, and [Regex.sub_fuel_terminates] shows that with
      this much or more the scan returns, and returns the substitution.
      [Machine.run] takes fuel and stops in a running configuration
      when it runs out; [loop_run] passes the number of command names
      plus one, one step per command and the step that leaves the loop,
      and [Machine.loop_ends] shows that the configuration reached is
      not running and is the only one in which the loop is over.
    - The timestamp [TIMENOW] is an argument of [CLASTR], [main] and
      [run_main]; [script] reads it from the clock of the world.

    ** What the theorems show

    - [Top]: on input files that hold what the specification expects,
      the program returns, closes the output and leaves in it the header
      and the renderings of the wrappers of the specification, each
      with a name of its own ([script_refines]).
    - [Script]: the run on inputs where nothing raises ([run_main_ok]);
      a file that cannot be read or opened stops the run with the world
      unchanged ([run_main_io_failure]); otherwise the output is
      replaced, and closed exactly when nothing raised
      ([run_main_replaces]).
    - [Interp]: on inputs in whose parameter names two classes of
      blanks agree, the runs under the two classes are the same run
      ([script_agree]); [nbsp_world_differs] shows a name on which
      Python 2 and Python 3 write different files.
    - [Encoding]: the decoder accepts exactly the encodings and inverts
      the encoder ([utf8_roundtrip]); the encoding has one byte more per
      character above 127 and is the text itself on ASCII
      ([utf8_encode_bounds]); both with what they say of the bytes the
      writes of the script leave.  [Top.script_bytes] is the file on
      disk after a run the specification covers.
    - [Raw]: the run on complete dicts is the run on records
      ([runM_main_raw_of], a lemma the theorems of [Script] and [Top]
      go through); a missing key raises before anything of the command
      is written ([wrap_command_raw_missing]).
    - [Machine]: the loop ends in one configuration, finished exactly
      when every command can be wrapped or skipped and otherwise failed
      at the first command that cannot, the later ones never taken
      ([loop_ends]); in every configuration reached the status stream
      holds one progress line per command taken ([loop_progress_log]).
    - [Regex]: the matcher accepts exactly the prefixes of the subject in
      the language of the pattern and consumes the longest one
      ([PARMAT_match_longest]); [search] finds exactly the subjects with a
      substring in the language ([PARMAT_search_spec]); [sub] is the
      function of the relation that drops leftmost longest matches
      ([PARMAT_sub_spec]), changes the subject exactly when [search]
      succeeds ([PARMAT_sub_fixed_iff]), keeps every character that is
      neither blank nor parenthesis, and strips a trailing marker from a
      plain name; the scan ends ([sub_fuel_terminates]); the length of
      the result is bounded from both sides ([PARMAT_sub_bounds]); two
      classes of blanks that agree on the characters of a subject give
      the same [search] and the same [sub] ([PARMAT_agree]).
    - [Normalizer]: the dicts are well formed at every point of the run
      ([dicts_wf_invariant]); after the loop they hold, for every
      parameter and no other key, the values of the pure functions
      [PARMAT_sub] and [annot_of]; the lookups of lines 209 and 232 never
      raise.
    - [Composer]: on which descriptors composing the return section
      raises ([retstr_of_is_Ok], [retstr_function_bad_arity]); the
      argument list with and without defaults.
    - [Emitter]: the parameter section on well-formed signatures and the
      partial output when an item is not a pair; the body of a data
      structure; the argument text of the stub call.
    - [Generator]: the run of one command on every branch: skipped
      ([wrap_command_unknown]), wrapped ([wrap_command_ok]), failing on a
      missing documentation block ([wrap_command_no_doc]), and the exact
      set of commands on which it returns ([wrap_command_Ok_iff]); the
      run of [main]: its output on stores where nothing raises
      ([main_ok]), the state at the first failure
      ([main_first_failure]), append-only output, independence of the
      timestamp.
    - [WrapperSpec]: refinement.  The return section is the rendering of
      the return shape ([retstr_of_refines]); the text a command appends
      is the rendering of its wrapper ([wrap_command_refines]); the file
      [main] leaves is the header followed by the renderings
      ([main_refines]).  The refinement needs the stripped names to be
      safe ([safe_names]); [SelfField_not_safe] and [EmptyName_not_safe]
      show the two inputs on which script and specification differ.
      The wrappers of a run over the keys of the store have names of
      their own ([wrappers_unique]).
    - [Conformance]: on five recorded runs of [main] and eighteen of the
      whole file under Python 3, the model computes what the script did:
      outcome, text and bytes of the file, status lines, open flag, and
      the arguments of every call of a collaborator.

    ** Not modelled

    - Parsing YAML text: the work of the [yaml] library behind
      [utils.readyaml]; the model starts from the parsed dicts.
    - Values of the wrong shape in a descriptor (a number where the
      script expects a string, a string where it expects a list):
      Python's behaviour on them depends on the operation that meets
      them first, and neither model of the descriptors holds them.
    - The bodies of [utils_parse] ([vb2pytype], [wrap_longlines],
      [fmt_docstr]), which are not under [src/]: the theorems hold for
      every instance of [Utils]; a line-breaking [wrap_longlines] would be
      one more instance.
    - The IPython debugger hook of lines 30-31, which the script binds
      and never calls, and the imports of lines 20-27: loading modules
      that are not under [src/].
    - Text with code points above 255.  The strings of the model are
      8-bit; the encoder, the classes of blanks and [str.upper] are
      those of Python on the code points below 256.
    - What the generated wrappers do when they are called: they are the
      output of this program, not a part of it. *)

From Corelib Require Export ssreflect_rw.
From Stdlib Require Export Ascii String.
From stdpp Require Export base tactics option list strings gmap.

#[export] Set Warnings "-clear-no-such-hyp".

(** ** The scope of the development's notations *)

Declare Scope py_scope.
Delimit Scope py_scope with py.
Open Scope py_scope.

(** ** Characters the script's literals need and Rocq's cannot spell *)

(** The newline of ['\n']. *)
Definition nl : string := String "010"%char EmptyString.

(** The double quote. *)
Definition dq : string := String "034"%char EmptyString.

(** ** Python's [str] operations *)

(** [s * n]. *)
Fixpoint str_mul (s : string) (n : nat) : string :=
  match n with
  | O => EmptyString
  | S n' => s +:+ str_mul s n'
  end.

Notation "s *: n" := (str_mul s n) (at level 40, no associativity) : py_scope.

(** [sep.join(ls)]. *)
Fixpoint str_join (sep : string) (ls : list string) : string :=
  match ls with
  | [] => EmptyString
  | [x] => x
  | x :: xs => x +:+ sep +:+ str_join sep xs
  end.

(** The text of a file after the chunks [ls] were written to it in order. *)
Definition str_concat (ls : list string) : string :=
  foldr String.append EmptyString ls.

(** [c.upper()] on one character of text, for the code points below 256:
    [a-z] and the letters U+00E0 to U+00FE (the division sign U+00F7 is
    none) go 32 down, the sharp s U+00DF becomes [SS], every other
    character stays.  The upper case of U+00B5 and of U+00FF lies above
    255, outside the strings of the model. *)
Definition char_upper (c : ascii) : string :=
  let n := nat_of_ascii c in
  if ((97 <=? n) && (n <=? 122)
      || (224 <=? n) && (n <=? 254) && negb (n =? 247))%nat
  then String (ascii_of_nat (n - 32)) ""
  else if (n =? 223)%nat then "SS" else String c "".

(** [s.upper()]. *)
Fixpoint str_upper (s : string) : string :=
  match s with
  | EmptyString => EmptyString
  | String c s' => char_upper c +:+ str_upper s'
  end.

(** [c in s]. *)
(** Every character of [s] satisfies [p]. *)
Fixpoint str_forall (p : ascii → bool) (s : string) : bool :=
  match s with
  | EmptyString => true
  | String c s' => p c && str_forall p s'
  end.

Fixpoint str_mem (c : ascii) (s : string) : bool :=
  match s with
  | EmptyString => false
  | String c' s' => Ascii.eqb c c' || str_mem c s'
  end.

(** ** Exceptions and the result monad *)

(** The exceptions the script can raise on the values of the model:
    [d[k]] on a missing key, [v[0]] on an empty list, unpacking a
    sequence of [n] elements into two names, and a file at [path] that
    cannot be read. *)
Inductive exn : Type :=
| KeyError (key : string)
| IndexError
| ValueError (n : nat)
| IOError (path : string).

Inductive result (A : Type) : Type :=
| Ok (a : A)
| Raise (e : exn).
Arguments Ok {A} a.
Arguments Raise {A} e.

#[global] Instance exn_eq_dec : EqDecision exn.
Proof. solve_decision. Defined.

#[global] Instance result_eq_dec `{EqDecision A} : EqDecision (result A).
Proof. solve_decision. Defined.

#[global] Instance result_ret : MRet result := λ A a, Ok a.

#[global] Instance result_bind : MBind result := λ A B f m,
  match m with
  | Ok a => f a
  | Raise e => Raise e
  end.

#[global] Instance result_fmap : FMap result := λ A B f m,
  match m with
  | Ok a => Ok (f a)
  | Raise e => Raise e
  end.

Definition is_Ok {A} (m : result A) : Prop := ∃ a, m = Ok a.

Definition is_Okb {A} (m : result A) : bool :=
  match m with Ok _ => true | Raise _ => false end.

(** [d[k]]. *)
Definition dict_get {V} (d : gmap string V) (k : string) : result V :=
  match d !! k with
  | Some v => Ok v
  | None => Raise (KeyError k)
  end.

(** [a, b = v]. *)
Definition unpack2 {A} (v : list A) : result (A * A) :=
  match v with
  | [a; b] => Ok (a, b)
  | _ => Raise (ValueError (length v))
  end.

(** [v[0]]. *)
Definition index0 {A} (v : list A) : result A :=
  match v with
  | a :: _ => Ok a
  | [] => Raise IndexError
  end.

(** ** Databases and tactics *)

Create HintDb pyfred discriminated.
Create Rewrite HintDb pystr.
Create Rewrite HintDb pyres.

(** Case analysis on the boolean string tests of the goal. *)
Ltac case_str_eqb :=
  repeat match goal with
  | |- context [String.eqb ?a ?b] => destruct (String.eqb_spec a b); simplify_eq/=
  end.

(** Bring strings to a normal form: appends to the right, no empty string. *)
Ltac str_norm := autorewrite with pystr in *.
Ltac str_simpl := autorewrite with pystr.

(** Case analysis on a [result] met in a bind. *)
Ltac case_result :=
  repeat match goal with
  | H : context [mbind _ ?m] |- _ => destruct m eqn:?; simplify_eq/=
  | |- context [mbind _ ?m] => destruct m eqn:?; simplify_eq/=
  end.

(** Goals [is_Ok _] and implications between them, once the results are
    constructors. *)
Ltac solve_is_Ok :=
  solve [ by eexists | by intros [? ?] | intros; by eexists ].

(** ** Lemmas on strings *)

Section strings.
Implicit Types s t u : string.
Implicit Types ls : list string.

Lemma str_app_nil_l s : "" +:+ s = s.
Proof. done. Qed.

Lemma str_app_cons c s t : String c s +:+ t = String c (s +:+ t).
Proof. done. Qed.

Lemma str_app_nil_r s : s +:+ "" = s.
Proof. induction s as [|c s IH]; [done|]. by rw str_app_cons IH. Qed.

Lemma str_app_assoc s t u : (s +:+ t) +:+ u = s +:+ t +:+ u.
Proof. induction s as [|c s IH]; [done|]. by rw !str_app_cons IH. Qed.

Lemma str_length_app s t :
  String.length (s +:+ t) = String.length s + String.length t.
Proof. induction s as [|c s IH]; [done|]. by rw str_app_cons /= IH. Qed.

Lemma str_length_nil s : String.length s = 0 ↔ s = "".
Proof. by destruct s. Qed.

Lemma str_app_eq_nil s t : s +:+ t = "" ↔ s = "" ∧ t = "".
Proof. destruct s; [naive_solver|]. rewrite str_app_cons. naive_solver. Qed.

Lemma str_app_inv_tail s t u : s +:+ u = t +:+ u → s = t.
Proof.
  revert t. induction s as [|c s IH]; intros [|d t] Heq;
    rw ?str_app_cons ?str_app_nil_l in Heq; simplify_eq; auto.
  - apply (f_equal String.length) in Heq.
    simpl in Heq. rewrite str_length_app in Heq. lia.
  - apply (f_equal String.length) in Heq.
    simpl in Heq. rewrite str_length_app in Heq. lia.
  - f_equal. by apply IH.
Qed.

(** Induction on the length of a string. *)
Lemma str_length_ind (P : string → Prop) :
  (∀ s, (∀ t, String.length t < String.length s → P t) → P s) → ∀ s, P s.
Proof.
  intros IH s. remember (String.length s) as n eqn:Hn.
  revert s Hn. induction (lt_wf n) as [n _ IHn]. intros s ->.
  apply IH. intros t Ht. by apply (IHn _ Ht).
Qed.

Lemma str_mul_0 s : s *: 0 = "".
Proof. done. Qed.

Lemma str_mul_S s n : s *: S n = s +:+ s *: n.
Proof. done. Qed.

Lemma str_mul_length s n : String.length (s *: n) = n * String.length s.
Proof. induction n; simpl; rw ?str_length_app; lia. Qed.

Lemma str_mul_add s n m : s *: (n + m) = s *: n +:+ s *: m.
Proof. induction n; simpl; by rw ?str_app_assoc ?IHn. Qed.

Lemma str_join_nil sep : str_join sep [] = "".
Proof. done. Qed.

Lemma str_join_singleton sep s : str_join sep [s] = s.
Proof. done. Qed.

Lemma str_join_cons sep s t ls :
  str_join sep (s :: t :: ls) = s +:+ sep +:+ str_join sep (t :: ls).
Proof. done. Qed.

Lemma str_join_eq_nil sep ls :
  sep ≠ "" → str_join sep ls = "" ↔ ls = [] ∨ ls = [""].
Proof.
  intros Hsep. destruct ls as [|s [|t ls]]; [naive_solver..|].
  rw str_join_cons !str_app_eq_nil. naive_solver.
Qed.

Lemma str_join_app sep ls1 ls2 :
  ls1 ≠ [] → ls2 ≠ [] →
  str_join sep (ls1 ++ ls2) = str_join sep ls1 +:+ sep +:+ str_join sep ls2.
Proof.
  intros H1 H2. induction ls1 as [|s [|t ls1] IH]; [done|..].
  - by destruct ls2.
  - rw -!app_comm_cons !str_join_cons app_comm_cons IH //.
    by rw !str_app_assoc.
Qed.

Lemma str_forall_app p s t :
  str_forall p (s +:+ t) = str_forall p s && str_forall p t.
Proof.
  induction s as [|c s IH]; [done|]. by rw str_app_cons /= IH andb_assoc.
Qed.

Lemma str_concat_nil : str_concat [] = "".
Proof. done. Qed.

Lemma str_concat_cons s ls : str_concat (s :: ls) = s +:+ str_concat ls.
Proof. done. Qed.

Lemma str_concat_app ls1 ls2 :
  str_concat (ls1 ++ ls2) = str_concat ls1 +:+ str_concat ls2.
Proof.
  induction ls1 as [|s ls1 IH]; [done|].
  by rw -app_comm_cons !str_concat_cons IH str_app_assoc.
Qed.

Lemma str_concat_singleton s : str_concat [s] = s.
Proof. apply str_app_nil_r. Qed.

Lemma str_upper_app s t : str_upper (s +:+ t) = str_upper s +:+ str_upper t.
Proof.
  induction s as [|c s IH]; [done|]. by rw !str_app_cons /= IH str_app_assoc.
Qed.

Lemma char_upper_length c : 1 ≤ String.length (char_upper c) ≤ 2.
Proof. destruct c as [[] [] [] [] [] [] [] []]; vm_compute; lia. Qed.

(** Only the sharp s makes the upper case longer. *)
Lemma str_upper_length s :
  String.length s ≤ String.length (str_upper s) ≤ 2 * String.length s.
Proof.
  induction s as [|c s IH]; simpl; [lia|].
  pose proof (char_upper_length c). rw str_length_app. lia.
Qed.

Lemma char_upper_idemp c : str_upper (char_upper c) = char_upper c.
Proof. by destruct c as [[] [] [] [] [] [] [] []]. Qed.

Lemma str_upper_idemp s : str_upper (str_upper s) = str_upper s.
Proof. induction s; simpl; by rw ?str_upper_app ?char_upper_idemp ?IHs. Qed.

Lemma str_mem_app c s t : str_mem c (s +:+ t) = str_mem c s || str_mem c t.
Proof.
  induction s as [|d s IH]; [done|]. by rw str_app_cons /= IH orb_assoc.
Qed.

End strings.

#[export] Hint Rewrite str_app_nil_l str_app_nil_r str_app_assoc str_app_cons
  str_concat_nil str_concat_cons str_concat_app str_concat_singleton : pystr.
#[export] Hint Rewrite str_length_app str_mul_length : pystr.

(** ** Lemmas on lists *)

Lemma forallb_Forall {A} (f : A → bool) (l : list A) :
  forallb f l = true ↔ Forall (λ x, f x = true) l.
Proof.
  induction l as [|x l IH]; simpl; [done|].
  by rw andb_true_iff Forall_cons IH.
Qed.

Lemma forallb_elem_of {A} (f : A → bool) (l : list A) x :
  forallb f l = true → x ∈ l → f x = true.
Proof. rw forallb_Forall Forall_forall. auto. Qed.

Lemma forallb_false_split {A} (f : A → bool) (l : list A) :
  forallb f l = false →
  ∃ l1 x l2, l = l1 ++ x :: l2 ∧ forallb f l1 = true ∧ f x = false.
Proof.
  induction l as [|y l IH]; simpl; [done|].
  destruct (f y) eqn:Hy; simpl.
  - intros (l1 & x & l2 & -> & H1 & Hx)%IH.
    exists (y :: l1), x, l2. by rw /= Hy H1.
  - intros _. by exists [], y, l.
Qed.

Lemma flat_map_singleton {A B} (f : A → B) (l : list A) :
  flat_map (λ x, [f x]) l = f <$> l.
Proof. induction l; by f_equal/=. Qed.

(** ** Lemmas on the result monad *)

Section result.
Context {A B : Type}.
Implicit Types (m : result A) (f : A → result B).

Lemma is_Ok_Ok (a : A) : is_Ok (Ok a).
Proof. by exists a. Qed.

Lemma is_Ok_Raise (e : exn) : ¬ is_Ok (@Raise A e).
Proof. by intros [a ?]. Qed.

Lemma is_Okb_spec m : is_Okb m = true ↔ is_Ok m.
Proof. destruct m; split; try done; by intros [? ?] || eexists. Qed.

Lemma is_Okb_iff m (b : bool) : (is_Ok m ↔ b = true) → is_Okb m = b.
Proof.
  intros H. destruct (is_Okb m) eqn:Hm.
  - symmetry. by apply H, is_Okb_spec.
  - destruct b; [|done]. by rw -Hm is_Okb_spec H.
Qed.

Lemma result_bind_Ok m f b :
  m ≫= f = Ok b ↔ ∃ a, m = Ok a ∧ f a = Ok b.
Proof. destruct m; naive_solver. Qed.

Lemma result_bind_Raise m f e :
  m ≫= f = Raise e ↔ m = Raise e ∨ ∃ a, m = Ok a ∧ f a = Raise e.
Proof. destruct m; naive_solver. Qed.

Lemma result_fmap_Ok m (g : A → B) b :
  g <$> m = Ok b ↔ ∃ a, m = Ok a ∧ b = g a.
Proof. destruct m; naive_solver. Qed.

Lemma result_mapM_Ok f (l : list A) (k : list B) :
  mapM f l = Ok k ↔ Forall2 (λ x y, f x = Ok y) l k.
Proof.
  revert k. induction l as [|x l IH]; intros k; simpl.
  - split; [by intros [= <-]|by inversion 1].
  - split.
    + destruct (f x) as [y|] eqn:Hy; simpl; [|done].
      destruct (mapM f l) as [k'|] eqn:Hk'; simpl; [|done].
      intros [= <-]. constructor; [done|]. by apply IH.
    + inversion 1 as [|? y ? k' Hy Hk']; simplify_eq.
      apply IH in Hk'. by rw Hy Hk'.
Qed.

Lemma result_mapM_total f (g : A → B) (l : list A) :
  Forall (λ x, f x = Ok (g x)) l → mapM f l = Ok (g <$> l).
Proof.
  intros Hl. apply result_mapM_Ok. induction Hl; constructor; auto.
Qed.

Lemma result_mapM_length f (l : list A) (k : list B) :
  mapM f l = Ok k → length k = length l.
Proof. intros ?%result_mapM_Ok. symmetry. by eapply Forall2_length. Qed.

Lemma result_mapM_app f (l1 l2 : list A) :
  mapM f (l1 ++ l2) = k1 ← mapM f l1; k2 ← mapM f l2; mret (k1 ++ k2).
Proof.
  induction l1 as [|x l1 IH]; simpl.
  - by destruct (mapM f l2).
  - destruct (f x); simpl; [|done]. rewrite IH.
    destruct (mapM f l1); simpl; [|done]. by destruct (mapM f l2).
Qed.

End result.

Lemma dict_get_Ok {V} (d : gmap string V) k v :
  dict_get d k = Ok v ↔ d !! k = Some v.
Proof. unfold dict_get. destruct (d !! k); naive_solver. Qed.

Lemma dict_get_Raise {V} (d : gmap string V) k e :
  dict_get d k = Raise e ↔ d !! k = None ∧ e = KeyError k.
Proof. unfold dict_get. destruct (d !! k); naive_solver. Qed.

Lemma unpack2_Ok {A} (v : list A) a b : unpack2 v = Ok (a, b) ↔ v = [a; b].
Proof. destruct v as [|? [|? [|? ?]]]; naive_solver. Qed.

Lemma unpack2_is_Ok {A} (v : list A) : is_Ok (unpack2 v) ↔ length v = 2.
Proof.
  destruct v as [|? [|? [|? ?]]]; split; try done;
    by intros [? ?] || eexists.
Qed.

Lemma unpack2_Raise {A} (v : list A) e :
  unpack2 v = Raise e ↔ length v ≠ 2 ∧ e = ValueError (length v).
Proof. destruct v as [|? [|? [|? ?]]]; naive_solver. Qed.

Lemma unpack2_bad {A} (v : list A) :
  length v ≠ 2 → unpack2 v = Raise (ValueError (length v)).
Proof. intros. by apply unpack2_Raise. Qed.

Lemma index0_Ok {A} (v : list A) a : index0 v = Ok a ↔ head v = Some a.
Proof. destruct v; naive_solver. Qed.

#[export] Hint Resolve is_Ok_Ok : pyfred.
#[export] Hint Rewrite @dict_get_Ok @unpack2_Ok @index0_Ok : pyres.
