(* ===== verification/Regex.v ===== *)
(** * The pattern [PARMAT] and its two methods

    Line 41 of the script compiles the pattern [\s*\(\s*\)\s*]; line 155
    calls [PARMAT.search(p)] and line 156 [PARMAT.sub('', p)].  This file
    holds a regular-expression syntax with its language ([matches]), the
    pattern as a value of it ([PARMAT]), the executable matcher
    ([PARMAT_match], [PARMAT_search], [PARMAT_sub]) and the proofs that the
    matcher computes the leftmost, longest, non-overlapping matches of the
    pattern.

    The characters [\s] matches are not fixed by the script but by the
    interpreter that runs it.  They are the class [Blank], a parameter of
    the pattern, the matcher and the theorems, with the instances
    [py3_blank] and [py2_blank]; the last section compares the matcher
    under two classes. *)

From S2P Require Import Prelude.

(** ** Regular expressions and their language *)

Inductive regex : Type :=
| Chr (c : ascii)
| Cls (p : ascii → bool)
| Cat (r1 r2 : regex)
| Star (r : regex).

Inductive matches : regex → string → Prop :=
| matches_chr c : matches (Chr c) (String c "")
| matches_cls (p : ascii → bool) c : p c = true → matches (Cls p) (String c "")
| matches_cat r1 r2 s1 s2 :
    matches r1 s1 → matches r2 s2 → matches (Cat r1 r2) (s1 +:+ s2)
| matches_star_nil r : matches (Star r) ""
| matches_star_cons r s1 s2 :
    matches r s1 → matches (Star r) s2 → matches (Star r) (s1 +:+ s2).

(** [m] is the longest prefix of [s] in the language of [r], and [rest]
    what follows it: what a greedy match of [r] at the start of [s]
    consumes when, as for [PARMAT], greedy and longest coincide. *)
Definition longest_match (r : regex) (s m rest : string) : Prop :=
  s = m +:+ rest ∧ matches r m ∧
  ∀ m' rest', s = m' +:+ rest' → matches r m' →
    String.length m' ≤ String.length m.

(** ** The pattern *)

Definition lparen : ascii := "("%char.
Definition rparen : ascii := ")"%char.

(** What [\s] matches is decided by the interpreter, not by the script:
    the class of a byte pattern, which is also the class of Python 2 on
    text, or the class of Python 3 on text.  [Blank] is a class of
    characters that holds neither parenthesis; the matcher and its
    theorems are stated for any such class. *)
Class Blank : Type := {
  is_space : ascii → bool;
  lparen_not_space : is_space lparen = false;
  rparen_not_space : is_space rparen = false;
}.

(** [\s] on bytes, and on text before Python 3: blank, [\t], [\n], [\v],
    [\f], [\r]. *)
Definition ascii_space (c : ascii) : bool :=
  match c with
  | " " | "009" | "010" | "011" | "012" | "013" => true
  | _ => false
  end%char.

(** [\s] on text in Python 3, for the code points below 256: the six
    above, the separators U+001C to U+001F, the next-line control U+0085
    and the no-break space U+00A0. *)
Definition unicode_space (c : ascii) : bool :=
  match c with
  | " " | "009" | "010" | "011" | "012" | "013"
  | "028" | "029" | "030" | "031" | "133" | "160" => true
  | _ => false
  end%char.

(** The class of the recorded runs, which are of Python 3. *)
#[export] Instance py3_blank : Blank :=
  {| is_space := unicode_space;
     lparen_not_space := eq_refl; rparen_not_space := eq_refl |}.

Definition py2_blank : Blank :=
  {| is_space := ascii_space;
     lparen_not_space := eq_refl; rparen_not_space := eq_refl |}.

Section pattern.
Context `{B : Blank}.

(** [re.compile('\s*\(\s*\)\s*')]. *)
Definition PARMAT : regex :=
  Cat (Star (Cls is_space))
    (Cat (Chr lparen)
       (Cat (Star (Cls is_space))
          (Cat (Chr rparen) (Star (Cls is_space))))).

(** ** The matcher *)

(** Every character of [s] is blank. *)
Fixpoint all_space (s : string) : bool :=
  match s with
  | EmptyString => true
  | String c s' => is_space c && all_space s'
  end.

(** A greedy [\s*]: what is left of [s] after its leading blanks. *)
Fixpoint skip_spaces (s : string) : string :=
  match s with
  | EmptyString => EmptyString
  | String c s' => if is_space c then skip_spaces s' else s
  end.

(** The leading blanks that [skip_spaces] drops. *)
Fixpoint lead_spaces (s : string) : string :=
  match s with
  | EmptyString => EmptyString
  | String c s' => if is_space c then String c (lead_spaces s') else EmptyString
  end.

(** [s] starts with a blank. *)
Definition starts_blank (s : string) : bool :=
  match s with
  | EmptyString => false
  | String c _ => is_space c
  end.

(** One literal character. *)
Definition expect (c : ascii) (s : string) : option string :=
  match s with
  | EmptyString => None
  | String c' s' => if Ascii.eqb c c' then Some s' else None
  end.

(** A match of the pattern anchored at the start of [s]: what follows the
    match, or [None]. *)
Definition PARMAT_match (s : string) : option string :=
  s1 ← expect lparen (skip_spaces s);
  s2 ← expect rparen (skip_spaces s1);
  Some (skip_spaces s2).

(** [PARMAT.search(s) is not None]: the pattern matches at some position. *)
Fixpoint PARMAT_search (s : string) : bool :=
  match PARMAT_match s with
  | Some _ => true
  | None =>
      match s with
      | EmptyString => false
      | String _ s' => PARMAT_search s'
      end
  end.

(** [PARMAT.sub('', s)] with fuel: at each position, a match is dropped
    and the scan resumes after it; otherwise the character is copied.
    One unit of fuel is spent per position visited; a scan that runs out
    of fuel has no result. *)
Fixpoint sub_fuel (fuel : nat) (s : string) : option string :=
  match fuel with
  | O => None
  | S fuel' =>
      match PARMAT_match s with
      | Some rest => sub_fuel fuel' rest
      | None =>
          match s with
          | EmptyString => Some EmptyString
          | String c s' => String c <$> sub_fuel fuel' s'
          end
      end
  end.

(** [PARMAT.sub('', s)]: the scan with one unit of fuel per character
    and one for the end of the subject, which [sub_fuel_terminates] shows
    is never used up. *)
Definition PARMAT_sub (s : string) : string :=
  default s (sub_fuel (S (String.length s)) s).

(** The specification of [sub]: the leftmost longest matches are dropped
    from left to right, without overlap. *)
Inductive sub_rel : string → string → Prop :=
| sub_rel_nil : sub_rel "" ""
| sub_rel_match s m rest r :
    longest_match PARMAT s m rest → sub_rel rest r → sub_rel s r
| sub_rel_copy c s r :
    (∀ m rest, String c s = m +:+ rest → ¬ matches PARMAT m) →
    sub_rel s r → sub_rel (String c s) (String c r).

(** The characters [sub] never touches. *)
Definition is_plain (c : ascii) : bool :=
  negb (is_space c) && negb (Ascii.eqb c lparen) && negb (Ascii.eqb c rparen).

Fixpoint str_filter (p : ascii → bool) (s : string) : string :=
  match s with
  | EmptyString => EmptyString
  | String c s' => if p c then String c (str_filter p s') else str_filter p s'
  end.

Fixpoint all_plain (s : string) : bool :=
  match s with
  | EmptyString => true
  | String c s' => is_plain c && all_plain s'
  end.

End pattern.

(** The characters on which two classes of blanks agree, and the subjects
    made of such characters. *)
Definition same_blank (B1 B2 : Blank) (c : ascii) : bool :=
  Bool.eqb (is_space (Blank := B1) c) (is_space (Blank := B2) c).

Definition agree_on (B1 B2 : Blank) (s : string) : bool :=
  str_forall (same_blank B1 B2) s.

(** The no-break space, a blank of Python 3 only. *)
Definition nbsp : string := String "160"%char "".

(** ** Concrete runs *)

Example PARMAT_sub_coords : PARMAT_sub "coords()" = "coords".
Proof. reflexivity. Qed.

Example PARMAT_sub_coords_blank : PARMAT_sub "coords ( )" = "coords".
Proof. reflexivity. Qed.

Example PARMAT_sub_two : PARMAT_sub "a () b( )c" = "abc".
Proof. reflexivity. Qed.

Example PARMAT_search_coords : PARMAT_search "coords ( )" = true.
Proof. reflexivity. Qed.

Example PARMAT_search_plain : PARMAT_search "Units" = false.
Proof. reflexivity. Qed.

(** ** Blanks *)

Section blanks.
Context `{B : Blank}.
Implicit Types s t w : string.

Lemma lead_skip_spaces s : lead_spaces s +:+ skip_spaces s = s.
Proof.
  induction s as [|c s IH]; [done|]. simpl.
  destruct (is_space c); [|done]. by rw str_app_cons IH.
Qed.

Lemma all_space_lead s : all_space (lead_spaces s) = true.
Proof.
  induction s as [|c s IH]; [done|]. simpl.
  destruct (is_space c) eqn:Hc; [|done]. by rw /= Hc IH.
Qed.

Lemma all_space_app s t : all_space (s +:+ t) = all_space s && all_space t.
Proof.
  induction s as [|c s IH]; [done|]. by rw str_app_cons /= IH andb_assoc.
Qed.

Lemma skip_spaces_no_lead s : starts_blank (skip_spaces s) = false.
Proof.
  induction s as [|c s IH]; [done|]. simpl.
  by destruct (is_space c) eqn:Hc.
Qed.

Lemma skip_spaces_id s : starts_blank s = false → skip_spaces s = s.
Proof. destruct s as [|c s]; [done|]. simpl. by intros ->. Qed.

Lemma skip_spaces_app w s :
  all_space w = true → skip_spaces (w +:+ s) = skip_spaces s.
Proof.
  induction w as [|c w IH]; [done|]. rw str_app_cons /=.
  intros [-> ?]%andb_true_iff. auto.
Qed.

Lemma skip_spaces_all_space w : all_space w = true → skip_spaces w = "".
Proof.
  intros Hw. by rw -(str_app_nil_r w) (skip_spaces_app _ _ Hw).
Qed.

Lemma skip_spaces_length s :
  String.length (skip_spaces s) ≤ String.length s.
Proof.
  induction s as [|c s IH]; [done|]. simpl.
  destruct (is_space c); simpl; lia.
Qed.

Lemma skip_spaces_idemp s : skip_spaces (skip_spaces s) = skip_spaces s.
Proof. apply skip_spaces_id, skip_spaces_no_lead. Qed.

(** A string splits in one way into blanks followed by a string that does
    not start with a blank. *)
Lemma skip_spaces_unique w s t :
  all_space w = true → starts_blank t = false → s = w +:+ t →
  skip_spaces s = t ∧ lead_spaces s = w.
Proof.
  intros Hw Ht ->. split.
  - by rw skip_spaces_app // skip_spaces_id.
  - induction w as [|c w IH]; simpl.
    + destruct t as [|c t]; [done|]. simpl in *. by rw Ht.
    + apply andb_true_iff in Hw as [Hc Hw].
      by rw Hc IH.
Qed.

Lemma expect_Some c s s' : expect c s = Some s' ↔ s = String c s'.
Proof.
  destruct s as [|c' s0]; simpl; [done|].
  destruct (Ascii.eqb_spec c c'); naive_solver.
Qed.

Lemma expect_cons c c' s :
  expect c (String c' s) = if Ascii.eqb c c' then Some s else None.
Proof. done. Qed.

Lemma expect_length c s s' :
  expect c s = Some s' → String.length s = S (String.length s').
Proof. by intros ->%expect_Some. Qed.

End blanks.

#[export] Hint Rewrite @all_space_app @all_space_lead @skip_spaces_no_lead
  @skip_spaces_idemp @lead_skip_spaces : pystr.
#[export] Hint Resolve all_space_lead skip_spaces_no_lead : pyfred.

(** ** The language of the pattern *)

Section language.
Context `{B : Blank}.
Implicit Types s t w m rest : string.

Lemma matches_chr_inv c s : matches (Chr c) s ↔ s = String c "".
Proof. split; [by inversion 1|intros ->; constructor]. Qed.

Lemma matches_cat_inv r1 r2 s :
  matches (Cat r1 r2) s ↔
  ∃ s1 s2, s = s1 +:+ s2 ∧ matches r1 s1 ∧ matches r2 s2.
Proof.
  split; [inversion 1; naive_solver|].
  intros (s1 & s2 & -> & ? & ?). by constructor.
Qed.

Lemma matches_star_space s :
  matches (Star (Cls is_space)) s ↔ all_space s = true.
Proof.
  split.
  - intros H. remember (Star (Cls is_space)) as r eqn:Hr.
    induction H as [| | | |r s1 s2 H1 _ _ IH]; simplify_eq; [done|].
    inversion H1; simplify_eq. rw str_app_cons /=. by rw IH // andb_true_r.
  - induction s as [|c s IH]; simpl; [constructor|].
    intros [Hc Hs]%andb_true_iff.
    change (String c s) with (String c "" +:+ s).
    constructor; [by constructor|auto].
Qed.

(** The words of the pattern: blanks, [(], blanks, [)], blanks. *)
Lemma matches_PARMAT m :
  matches PARMAT m ↔
  ∃ w1 w2 w3, all_space w1 = true ∧ all_space w2 = true ∧
    all_space w3 = true ∧ m = w1 +:+ String lparen (w2 +:+ String rparen w3).
Proof.
  unfold PARMAT. split.
  - intros (w1 & ? & -> & Hw1%matches_star_space
      & (? & ? & -> & ->%matches_chr_inv
      & (w2 & ? & -> & Hw2%matches_star_space
      & (? & w3 & -> & ->%matches_chr_inv & Hw3%matches_star_space
        )%matches_cat_inv)%matches_cat_inv)%matches_cat_inv)%matches_cat_inv.
    by exists w1, w2, w3.
  - intros (w1 & w2 & w3 & Hw1%matches_star_space & Hw2%matches_star_space
      & Hw3%matches_star_space & ->).
    constructor; [done|].
    apply (matches_cat _ _ (String lparen "")); [constructor|].
    constructor; [done|].
    apply (matches_cat _ _ (String rparen "")); [constructor|done].
Qed.

Lemma lead_spaces_longest w s t :
  all_space w = true → s = w +:+ t →
  String.length w ≤ String.length (lead_spaces s).
Proof.
  intros Hw ->. induction w as [|c w IH]; simpl; [lia|].
  apply andb_true_iff in Hw as [-> Hw]. simpl. by apply le_n_S, IH.
Qed.

(** The matcher succeeds on exactly the strings that start with a word of
    the pattern, and what it leaves does not start with a blank. *)
Lemma PARMAT_match_Some s rest :
  PARMAT_match s = Some rest ↔
  ∃ w1 w2 w3, all_space w1 = true ∧ all_space w2 = true ∧
    all_space w3 = true ∧ starts_blank rest = false ∧
    s = w1 +:+ String lparen (w2 +:+ String rparen (w3 +:+ rest)).
Proof.
  unfold PARMAT_match. split.
  - destruct (expect _ (skip_spaces s)) as [s1|] eqn:H1; simpl; [|done].
    destruct (expect _ (skip_spaces s1)) as [s2|] eqn:H2; simpl; [|done].
    intros [= <-]. apply expect_Some in H1, H2.
    exists (lead_spaces s), (lead_spaces s1), (lead_spaces s2).
    split_and!; auto with pyfred.
    by rw lead_skip_spaces -H2 lead_skip_spaces -H1 lead_skip_spaces.
  - intros (w1 & w2 & w3 & Hw1 & Hw2 & Hw3 & Hr & ->).
    rw skip_spaces_app //= lparen_not_space /= skip_spaces_app //=.
    by rw rparen_not_space /= skip_spaces_app // skip_spaces_id.
Qed.

Lemma PARMAT_match_None s :
  PARMAT_match s = None ↔ ∀ m rest, s = m +:+ rest → ¬ matches PARMAT m.
Proof.
  split.
  - intros Hs m rest -> (w1 & w2 & w3 & ? & ? & ? & ->)%matches_PARMAT.
    enough (PARMAT_match ((w1 +:+ String lparen (w2 +:+ String rparen w3))
      +:+ rest) = Some (skip_spaces rest)) by congruence.
    apply PARMAT_match_Some.
    exists w1, w2, (w3 +:+ lead_spaces rest).
    str_simpl. split_and!; auto using andb_true_intro.
  - intros Hs. destruct (PARMAT_match s) as [rest|] eqn:Hm; [|done].
    apply PARMAT_match_Some in Hm
      as (w1 & w2 & w3 & ? & ? & ? & ? & ->).
    destruct (Hs (w1 +:+ String lparen (w2 +:+ String rparen w3)) rest).
    + by str_simpl.
    + apply matches_PARMAT. by exists w1, w2, w3.
Qed.

End language.

(** ** The anchored match *)

Section anchored.
Context `{B : Blank}.
Implicit Types s t w m rest : string.

Lemma PARMAT_match_app m rest :
  matches PARMAT m → PARMAT_match (m +:+ rest) = Some (skip_spaces rest).
Proof.
  intros (w1 & w2 & w3 & ? & ? & ? & ->)%matches_PARMAT.
  apply PARMAT_match_Some. exists w1, w2, (w3 +:+ lead_spaces rest).
  str_simpl. split_and!; auto using andb_true_intro.
Qed.

Lemma PARMAT_match_length s rest :
  PARMAT_match s = Some rest → String.length rest + 2 ≤ String.length s.
Proof.
  intros (w1 & w2 & w3 & _ & _ & _ & _ & ->)%PARMAT_match_Some.
  str_simpl. simpl. str_simpl. simpl. str_simpl. lia.
Qed.

Lemma matches_PARMAT_snoc m c :
  matches PARMAT m → is_space c = true → matches PARMAT (m +:+ String c "").
Proof.
  intros (w1 & w2 & w3 & ? & ? & ? & ->)%matches_PARMAT Hc.
  apply matches_PARMAT. exists w1, w2, (w3 +:+ String c "").
  str_simpl. simpl. rw Hc. split_and!; auto using andb_true_intro.
Qed.

Lemma matches_PARMAT_length m : matches PARMAT m → 2 ≤ String.length m.
Proof.
  intros (w1 & w2 & w3 & _ & _ & _ & ->)%matches_PARMAT.
  str_simpl. simpl. str_simpl. simpl. lia.
Qed.

(** Two prefixes of the same length of one string are equal. *)
Lemma str_prefix_eq m m' rest rest' :
  m +:+ rest = m' +:+ rest' → String.length m = String.length m' →
  m = m' ∧ rest = rest'.
Proof.
  revert m'. induction m as [|c m IH]; intros [|c' m'] Heq Hlen;
    try done.
  rw !str_app_cons in Heq. simplify_eq/=.
  destruct (IH m') as [-> ->]; auto.
Qed.

(** Blanks followed by a character that is not blank: one way to split. *)
Lemma blanks_char_unique w w' c x x' :
  all_space w = true → all_space w' = true → is_space c = false →
  w +:+ String c x = w' +:+ String c x' → w' = w ∧ x' = x.
Proof.
  intros Hw Hw' Hc Heq.
  destruct (skip_spaces_unique w (w +:+ String c x) (String c x))
    as [Ha Hb]; [done..|].
  destruct (skip_spaces_unique w' (w +:+ String c x) (String c x'))
    as [Ha' Hb']; [done..|].
  rw Ha in Ha'. rw Hb in Hb'. by simplify_eq.
Qed.

(** Two words of the pattern at the start of one string, the first
    followed by no blank: the second is no longer than the first. *)
Lemma PARMAT_word_longest w1 w2 w3 w1' w2' w3' rest rest' :
  all_space w1 = true → all_space w2 = true → all_space w3 = true →
  all_space w1' = true → all_space w2' = true → all_space w3' = true →
  starts_blank rest = false →
  w1 +:+ String lparen (w2 +:+ String rparen (w3 +:+ rest)) =
    w1' +:+ String lparen (w2' +:+ String rparen (w3' +:+ rest')) →
  w1' = w1 ∧ w2' = w2 ∧ String.length w3' ≤ String.length w3.
Proof.
  intros H1 H2 H3 H1' H2' H3' Hr Heq.
  apply blanks_char_unique in Heq as [-> Heq];
    [|done|done|apply lparen_not_space].
  apply blanks_char_unique in Heq as [-> Heq];
    [|done|done|apply rparen_not_space].
  split_and!; [done..|].
  destruct (skip_spaces_unique w3 (w3 +:+ rest) rest) as [_ <-]; [done..|].
  by eapply lead_spaces_longest.
Qed.

End anchored.

(** ** Correctness of the matcher *)

Section matcher.
Context `{B : Blank}.
Implicit Types s t w m rest : string.

(** What [PARMAT_match] consumes is a longest match. *)
Lemma PARMAT_match_sound s rest :
  PARMAT_match s = Some rest → ∃ m, longest_match PARMAT s m rest.
Proof.
  intros (w1 & w2 & w3 & H1 & H2 & H3 & Hr & ->)%PARMAT_match_Some.
  exists (w1 +:+ String lparen (w2 +:+ String rparen w3)). split_and!.
  - by str_simpl.
  - apply matches_PARMAT. by exists w1, w2, w3.
  - intros m' rest' Heq (w1' & w2' & w3' & ? & ? & ? & ->)%matches_PARMAT.
    str_norm. apply PARMAT_word_longest in Heq as (-> & -> & ?); [|done..].
    simpl. str_simpl. simpl. lia.
Qed.

(** A longest match at the start of the subject is what [PARMAT_match]
    consumes. *)
Lemma PARMAT_match_complete s m rest :
  longest_match PARMAT s m rest → PARMAT_match s = Some rest.
Proof.
  intros (-> & Hm & Hlong). rw (PARMAT_match_app _ _ Hm).
  f_equal. apply skip_spaces_id.
  destruct rest as [|c rest]; [done|]. simpl.
  destruct (is_space c) eqn:Hc; [|done].
  assert (String.length (m +:+ String c "") ≤ String.length m) as Hlen.
  { apply (Hlong _ rest); [by str_simpl|by apply matches_PARMAT_snoc]. }
  rw str_length_app /= in Hlen. lia.
Qed.

(** C5. [PARMAT_match] is a greedy anchored match of the pattern: it
    succeeds exactly when some prefix of the subject is in the language of
    [\s*\(\s*\)\s*], it consumes the longest such prefix, and it returns
    what follows. *)
Theorem PARMAT_match_longest s rest :
  PARMAT_match s = Some rest ↔ ∃ m, longest_match PARMAT s m rest.
Proof.
  split; [apply PARMAT_match_sound|].
  intros [m Hm]. by eapply PARMAT_match_complete.
Qed.

Lemma PARMAT_search_unfold s :
  PARMAT_search s =
    match PARMAT_match s with
    | Some _ => true
    | None => match s with "" => false | String _ s' => PARMAT_search s' end
    end.
Proof. by destruct s. Qed.

(** What [PARMAT_search] finds is a word of the pattern inside the
    subject. *)
Lemma PARMAT_search_sound s :
  PARMAT_search s = true →
  ∃ pre m post, s = pre +:+ m +:+ post ∧ matches PARMAT m.
Proof.
  induction s as [|c s IH]; rw PARMAT_search_unfold.
  - by rw (_ : PARMAT_match "" = None).
  - destruct (PARMAT_match (String c s)) as [rest|] eqn:Hm.
    + intros _. apply PARMAT_match_sound in Hm as (m & Heq & Hm & _).
      by exists "", m, rest.
    + intros (pre & m & post & -> & ?)%IH. by exists (String c pre), m, post.
Qed.

(** Every occurrence of a word of the pattern is found. *)
Lemma PARMAT_search_complete pre m post :
  matches PARMAT m → PARMAT_search (pre +:+ m +:+ post) = true.
Proof.
  intros Hm. induction pre as [|c pre IH]; rw PARMAT_search_unfold.
  - destruct (PARMAT_match _) eqn:Hn; [done|].
    by destruct (proj1 (PARMAT_match_None _) Hn m post).
  - rw str_app_cons. by destruct (PARMAT_match _).
Qed.

(** C29. [PARMAT.search] succeeds exactly when the subject has a substring
    in the language of the pattern. *)
Theorem PARMAT_search_spec s :
  PARMAT_search s = true ↔
  ∃ pre m post, s = pre +:+ m +:+ post ∧ matches PARMAT m.
Proof.
  split; [apply PARMAT_search_sound|].
  intros (pre & m & post & -> & Hm). by apply PARMAT_search_complete.
Qed.

End matcher.

(** ** Substitution *)

Section substitution.
Context `{B : Blank}.
Implicit Types s t w m rest pre : string.

Lemma sub_fuel_unfold n s :
  sub_fuel (S n) s =
    match PARMAT_match s with
    | Some rest => sub_fuel n rest
    | None =>
        match s with
        | "" => Some ""
        | String c s' => String c <$> sub_fuel n s'
        end
    end.
Proof. done. Qed.

(** The scan does not run out of fuel that exceeds the length of the
    subject: a match consumes at least its two parentheses, a copy one
    character. *)
Lemma sub_fuel_is_Some n s : String.length s < n → is_Some (sub_fuel n s).
Proof.
  revert s. induction n as [|n IH]; intros s Hn; [lia|].
  rw sub_fuel_unfold. destruct (PARMAT_match s) as [rest|] eqn:Hs.
  - apply PARMAT_match_length in Hs. apply IH; lia.
  - destruct s as [|c s]; [done|]. apply fmap_is_Some, IH. simpl in Hn. lia.
Qed.

(** More fuel does not change a result. *)
Lemma sub_fuel_mono n k s r :
  sub_fuel n s = Some r → n ≤ k → sub_fuel k s = Some r.
Proof.
  revert k s r. induction n as [|n IH]; intros [|k] s r Hr Hk; [done|done|lia|].
  revert Hr. rw !sub_fuel_unfold. destruct (PARMAT_match s) as [rest|].
  - intros Hr. apply (IH _ _ _ Hr). lia.
  - destruct s as [|c s]; [done|]. intros [r' [Hr' ->]]%fmap_Some.
    rw (IH k _ _ Hr'); [lia|done].
Qed.

Lemma sub_fuel_Some n s :
  String.length s < n → sub_fuel n s = Some (PARMAT_sub s).
Proof.
  intros Hn. unfold PARMAT_sub.
  destruct (sub_fuel_is_Some (S (String.length s)) s) as [r Hr]; [lia|].
  rw Hr /=. apply (sub_fuel_mono _ _ _ _ Hr). lia.
Qed.

(** The equation of [PARMAT.sub], free of fuel. *)
Lemma PARMAT_sub_unfold s :
  PARMAT_sub s =
    match PARMAT_match s with
    | Some rest => PARMAT_sub rest
    | None => match s with "" => "" | String c s' => String c (PARMAT_sub s') end
    end.
Proof.
  unfold PARMAT_sub at 1. rw sub_fuel_unfold.
  destruct (PARMAT_match s) as [rest|] eqn:Hs.
  - apply PARMAT_match_length in Hs. rw sub_fuel_Some; [lia|done].
  - destruct s as [|c s]; [done|]. rw sub_fuel_Some; [simpl; lia|done].
Qed.

(** [sub_rel] relates a subject to one result, the value of
    [PARMAT_sub]. *)
Lemma sub_rel_fun s r : sub_rel s r → PARMAT_sub s = r.
Proof.
  induction 1 as [|s m rest r Hl _ IH|c s r Hno _ IH]; [done|..];
    rw PARMAT_sub_unfold.
  - by rw (PARMAT_match_complete _ _ _ Hl).
  - by rw (proj2 (PARMAT_match_None _) Hno) IH.
Qed.

Lemma sub_rel_PARMAT_sub s : sub_rel s (PARMAT_sub s).
Proof.
  induction s as [s IH] using str_length_ind.
  rw PARMAT_sub_unfold. destruct (PARMAT_match s) as [rest|] eqn:Hm.
  - pose proof (PARMAT_match_length _ _ Hm).
    apply PARMAT_match_sound in Hm as [m Hm].
    eapply sub_rel_match; [done|]. apply IH. lia.
  - destruct s as [|c s]; [constructor|].
    apply sub_rel_copy; [by apply PARMAT_match_None|]. apply IH. simpl. lia.
Qed.

(** C4. [PARMAT.sub('', s)] drops the leftmost longest matches of the
    pattern from left to right without overlap, and nothing else: it is
    the function of the relation [sub_rel]. *)
Theorem PARMAT_sub_spec s r : sub_rel s r ↔ PARMAT_sub s = r.
Proof. split; [apply sub_rel_fun|intros <-; apply sub_rel_PARMAT_sub]. Qed.

(** C26. Termination of [PARMAT.sub]: the scan ends.  With fuel above the
    length of the subject the scan does not run out: it returns, and what
    it returns is the subject with the leftmost longest matches of the
    pattern dropped.  One unit per character and one more are enough
    because a match is never empty. *)
Theorem sub_fuel_terminates n s :
  String.length s < n → ∃ r, sub_fuel n s = Some r ∧ sub_rel s r.
Proof.
  intros Hn. exists (PARMAT_sub s).
  split; [by apply sub_fuel_Some|apply sub_rel_PARMAT_sub].
Qed.

Lemma PARMAT_sub_length s :
  String.length (PARMAT_sub s) ≤ String.length s.
Proof.
  induction s as [s IH] using str_length_ind. rw PARMAT_sub_unfold.
  destruct (PARMAT_match s) as [rest|] eqn:Hm.
  - apply PARMAT_match_length in Hm. etrans; [apply IH|]; lia.
  - destruct s as [|c s]; [done|]. simpl. apply le_n_S, IH. simpl. lia.
Qed.

(** A match that is dropped takes its two parentheses with it. *)
Lemma PARMAT_sub_length_search s :
  String.length (PARMAT_sub s) + (if PARMAT_search s then 2 else 0)
    ≤ String.length s.
Proof.
  destruct (PARMAT_search s) eqn:Hs; [|pose proof (PARMAT_sub_length s); lia].
  revert Hs. induction s as [|c s IH];
    rw PARMAT_search_unfold PARMAT_sub_unfold;
    destruct (PARMAT_match _) as [rest|] eqn:Hm; try done.
  - intros _. apply PARMAT_match_length in Hm.
    pose proof (PARMAT_sub_length rest). lia.
  - intros ?%IH. simpl. lia.
Qed.

Lemma PARMAT_sub_shrinks s :
  PARMAT_search s = true → String.length (PARMAT_sub s) < String.length s.
Proof. intros Hs. pose proof (PARMAT_sub_length_search s). rw Hs in H. lia. Qed.

(** Where [search] finds nothing, [sub] has nothing to drop. *)
Lemma PARMAT_sub_no_match s : PARMAT_search s = false → PARMAT_sub s = s.
Proof.
  induction s as [|c s IH]; rw PARMAT_search_unfold PARMAT_sub_unfold;
    destruct (PARMAT_match _) as [rest|] eqn:Hm; try done.
  by intros ->%IH.
Qed.

(** C30. [search] and [sub] agree: [PARMAT.sub('', s)] returns [s]
    unchanged exactly when [PARMAT.search(s)] finds nothing, so the two
    branches of the test at line 155 assign the same value to
    [newparams[p]]. *)
Theorem PARMAT_sub_fixed_iff s : PARMAT_sub s = s ↔ PARMAT_search s = false.
Proof.
  split; [|apply PARMAT_sub_no_match].
  intros Heq. destruct (PARMAT_search s) eqn:Hs; [|done].
  apply PARMAT_sub_shrinks in Hs. rw Heq in Hs. lia.
Qed.

Lemma str_filter_app p s t :
  str_filter p (s +:+ t) = str_filter p s +:+ str_filter p t.
Proof.
  induction s as [|c s IH]; [done|]. rw str_app_cons /=.
  destruct (p c); by rw IH.
Qed.

Lemma str_filter_plain_blanks w :
  all_space w = true → str_filter is_plain w = "".
Proof.
  induction w as [|c w IH]; [done|]. simpl.
  intros [Hc ?]%andb_true_iff. unfold is_plain. rw Hc /=. auto.
Qed.

Lemma is_plain_lparen : is_plain lparen = false.
Proof. unfold is_plain. by destruct (is_space lparen). Qed.

Lemma is_plain_rparen : is_plain rparen = false.
Proof. unfold is_plain. by destruct (is_space rparen). Qed.

Lemma str_filter_plain_word w1 w2 w3 rest :
  all_space w1 = true → all_space w2 = true → all_space w3 = true →
  str_filter is_plain
    (w1 +:+ String lparen (w2 +:+ String rparen (w3 +:+ rest))) =
  str_filter is_plain rest.
Proof.
  intros H1 H2 H3.
  rw str_filter_app str_filter_plain_blanks // /= is_plain_lparen.
  rw str_filter_app str_filter_plain_blanks // /= is_plain_rparen.
  by rw str_filter_app str_filter_plain_blanks.
Qed.

Lemma str_filter_plain_sub s :
  str_filter is_plain (PARMAT_sub s) = str_filter is_plain s.
Proof.
  induction s as [s IH] using str_length_ind. rw PARMAT_sub_unfold.
  destruct (PARMAT_match s) as [rest|] eqn:Hm.
  - pose proof (PARMAT_match_length _ _ Hm) as Hlen.
    apply PARMAT_match_Some in Hm as (w1 & w2 & w3 & ? & ? & ? & _ & ->).
    rw IH; [lia|]. by rw str_filter_plain_word.
  - destruct s as [|c s]; [done|]. simpl. rw IH; [simpl; lia|done].
Qed.

(** C38. [PARMAT.sub] removes blanks and parentheses only: the characters
    of the subject that are neither are all kept, in their order. *)
Theorem PARMAT_sub_keeps_plain s :
  str_filter is_plain (PARMAT_sub s) = str_filter is_plain s.
Proof. apply str_filter_plain_sub. Qed.

Lemma str_filter_length p s : String.length (str_filter p s) ≤ String.length s.
Proof. induction s as [|c s IH]; [done|]. simpl. destruct (p c); simpl; lia. Qed.

(** C23. Bounds on the stripped name: it is no longer than the name and
    at least two characters shorter when the pattern matches in it, and
    no shorter than what the name holds besides blanks and parentheses;
    so a name with a character that is neither is never stripped to the
    empty string. *)
Theorem PARMAT_sub_bounds s :
  String.length (str_filter is_plain s) ≤ String.length (PARMAT_sub s) ∧
  String.length (PARMAT_sub s) + (if PARMAT_search s then 2 else 0)
    ≤ String.length s.
Proof.
  split; [|apply PARMAT_sub_length_search].
  rw -(str_filter_plain_sub s). apply str_filter_length.
Qed.

Lemma PARMAT_match_plain c s :
  is_plain c = true → PARMAT_match (String c s) = None.
Proof.
  intros [[Hs%negb_true_iff Hl%negb_true_iff]%andb_true_iff _]%andb_true_iff.
  unfold PARMAT_match. by rw skip_spaces_id // expect_cons Ascii.eqb_sym Hl.
Qed.

Lemma PARMAT_sub_plain_prefix pre s :
  all_plain pre = true → PARMAT_sub (pre +:+ s) = pre +:+ PARMAT_sub s.
Proof.
  induction pre as [|c pre IH]; [done|]. simpl.
  intros [Hc ?]%andb_true_iff.
  by rw !str_app_cons PARMAT_sub_unfold PARMAT_match_plain // IH.
Qed.

(** A name marked as array-like is stripped to its bare form: when
    [name] has no blank and no parenthesis, [PARMAT.sub] maps [name]
    followed by blanks, [(], blanks, [)], blanks to [name]. *)
Theorem PARMAT_sub_strips name w1 w2 w3 :
  all_plain name = true → all_space w1 = true → all_space w2 = true →
  all_space w3 = true →
  PARMAT_sub (name +:+ w1 +:+ String lparen (w2 +:+ String rparen w3)) = name.
Proof.
  intros Hn H1 H2 H3. rw PARMAT_sub_plain_prefix // PARMAT_sub_unfold.
  rw -(str_app_nil_r (w1 +:+ _)) PARMAT_match_app.
  { apply matches_PARMAT. by exists w1, w2, w3. }
  by rw str_app_nil_r.
Qed.

Lemma PARMAT_search_paren s :
  PARMAT_search s = true → str_mem lparen s = true.
Proof.
  intros (pre & m & post & -> & (w1 & w2 & w3 & _ & _ & _ & ->)%matches_PARMAT
    )%PARMAT_search_sound.
  rw !(str_mem_app, str_app_cons) /=. by rw !orb_true_r.
Qed.

(** A name without [(] passes through [PARMAT.sub] unchanged. *)
Theorem PARMAT_sub_no_paren s : str_mem lparen s = false → PARMAT_sub s = s.
Proof.
  intros Hs. apply PARMAT_sub_no_match.
  destruct (PARMAT_search s) eqn:Hm; [|done].
  apply PARMAT_search_paren in Hm. congruence.
Qed.

End substitution.

Lemma sub_fuel_terminates_witness :
  ∃ r, sub_fuel 11 "coords ( )" = Some r ∧ sub_rel "coords ( )" r.
Proof. apply sub_fuel_terminates. simpl. lia. Defined.

(** With less fuel than characters the scan of a plain subject has no
    result. *)
Example sub_fuel_short :
  sub_fuel 6 "coords" = None ∧ sub_fuel 7 "coords" = Some "coords".
Proof. done. Qed.

Lemma PARMAT_sub_strips_witness :
  PARMAT_sub ("coords" +:+ " " +:+ String lparen (" " +:+ String rparen ""))
    = "coords".
Proof. by apply PARMAT_sub_strips. Defined.

Lemma PARMAT_sub_no_paren_witness : PARMAT_sub "Units" = "Units".
Proof. by apply PARMAT_sub_no_paren. Defined.

(** [PARMAT.sub] is not idempotent: dropping a match can bring a [(] and
    a [)] together, and the result then still holds a match. *)
Example PARMAT_sub_nested :
  PARMAT_sub "f(())" = "f()" ∧ PARMAT_search (PARMAT_sub "f(())") = true.
Proof. done. Qed.

(** ** One pattern, two interpreters *)

Section classes.
Context (B1 B2 : Blank).
Implicit Types (s rest : string).
Local Abbreviation agree := (agree_on B1 B2).

Lemma agree_on_cons c s :
  agree (String c s) = true ↔
    is_space (Blank := B1) c = is_space (Blank := B2) c ∧ agree s = true.
Proof.
  rw /agree_on /= andb_true_iff /same_blank. by rw Bool.eqb_true_iff.
Qed.

Lemma skip_spaces_agree s :
  agree s = true →
  skip_spaces (B := B1) s = skip_spaces (B := B2) s ∧
  agree (skip_spaces (B := B1) s) = true.
Proof.
  induction s as [|c s IH]; [done|]. intros Hs.
  destruct (proj1 (agree_on_cons c s) Hs) as [Hc Hs'].
  rw /= -Hc. destruct (is_space c); [by apply IH|done].
Qed.

Lemma expect_agree c s rest :
  agree s = true → expect c s = Some rest → agree rest = true.
Proof. intros Hs ->%expect_Some. by apply agree_on_cons in Hs as [_ ?]. Qed.

(** The anchored match is the same under both classes, and leaves a
    subject on which they still agree. *)
Lemma PARMAT_match_agree s :
  agree s = true →
  PARMAT_match (B := B1) s = PARMAT_match (B := B2) s ∧
  ∀ rest, PARMAT_match (B := B1) s = Some rest → agree rest = true.
Proof.
  intros Hs. unfold PARMAT_match.
  destruct (skip_spaces_agree s Hs) as [<- Hs0].
  destruct (expect lparen _) as [s1|] eqn:H1; simpl; [|done].
  pose proof (expect_agree _ _ _ Hs0 H1) as Hs1.
  destruct (skip_spaces_agree s1 Hs1) as [<- Hs1'].
  destruct (expect rparen _) as [s2|] eqn:H2; simpl; [|done].
  pose proof (expect_agree _ _ _ Hs1' H2) as Hs2.
  destruct (skip_spaces_agree s2 Hs2) as [<- Hs2'].
  split; [done|]. by intros rest [= <-].
Qed.

Lemma PARMAT_search_agree s :
  agree s = true → PARMAT_search (B := B1) s = PARMAT_search (B := B2) s.
Proof.
  induction s as [|c s IH]; intros Hs;
    rw (PARMAT_search_unfold (B := B1)) (PARMAT_search_unfold (B := B2));
    destruct (PARMAT_match_agree _ Hs) as [<- _]; [done|].
  destruct (PARMAT_match _); [done|]. apply IH.
  by apply agree_on_cons in Hs as [_ ?].
Qed.

Lemma sub_fuel_agree n s :
  agree s = true → sub_fuel (B := B1) n s = sub_fuel (B := B2) n s.
Proof.
  revert s. induction n as [|n IH]; intros s Hs; [done|]. simpl.
  destruct (PARMAT_match_agree _ Hs) as [<- Hrest].
  destruct (PARMAT_match s) as [rest|]; [by apply IH, Hrest|].
  destruct s as [|c s]; [done|]. f_equal. apply IH.
  by apply agree_on_cons in Hs as [_ ?].
Qed.


End classes.

(** A no-break space before the marker is part of the marker for Python
    3 and part of the name before it. *)
Example PARMAT_sub_nbsp :
  PARMAT_sub (B := py3_blank) ("pts" +:+ nbsp +:+ "()") = "pts" ∧
  PARMAT_sub (B := py2_blank) ("pts" +:+ nbsp +:+ "()") = "pts" +:+ nbsp ∧
  agree_on py2_blank py3_blank ("pts" +:+ nbsp +:+ "()") = false.
Proof. done. Qed.


#[global] Arguments PARMAT_match : simpl never.
#[global] Arguments PARMAT_search : simpl never.
#[global] Arguments PARMAT_sub : simpl never.
