(* ===== verification/Extern.v ===== *)
(** * The collaborators outside [src/]

    The script imports [utils_parse] (as [utils]) and [glovars], and calls
    [os.path.join]; none of them is under [src/].  The generator is
    verified against the interface [Utils]: five operations with the
    signatures the call sites fix.  Two laws of [wrap_longlines] are the
    class [UtilsLaws], and both are assumptions.  The first, that the
    empty text stays empty, is what the test [paramstr == ''] at line
    258 is written for.  The second, that a text that is not empty does
    not become empty, is what makes that test recognise the commands
    without parameters and no others; the script does not imply it, and
    a wrapper that returns the empty string on text of blanks only does
    not satisfy it.  [ref_utils] is an executable instance, written from
    the specification's description of the collaborators, that satisfies
    the laws; the witnesses and the concrete runs use it. *)

From S2P Require Import Prelude.

(** A documentation block: the ordered mapping from heading to text that
    [docdat] holds for one command. *)
Abbreviation Doc := (list (string * string)).

Class Utils : Type := {
  (** [utils.vb2pytype(t, rettype=r)] *)
  vb2pytype : string → string → string;
  (** [utils.wrap_longlines(text, ncols=n, indent=i)]; [None] when the
      call leaves [ncols] to its default *)
  wrap_longlines : string → option nat → string → string;
  (** [utils.fmt_docstr(doc, indent=i)] *)
  fmt_docstr : Doc → string → string;
  (** [glovars.STUBDIR] *)
  STUBDIR : string;
  (** [os.path.join(a, b)] *)
  os_path_join : string → string → string;
}.

Class UtilsLaws (U : Utils) : Prop := {
  wrap_longlines_nil n i : wrap_longlines "" n i = "";
  wrap_longlines_nonnil t n i : t ≠ "" → wrap_longlines t n i ≠ "";
}.

(** ** A reference instance *)

(** The type names of the target interface and their Python counterparts,
    as display text; a name outside the table (a data structure) is shown
    as it is. *)
Definition ref_vb2pytype (t rettype : string) : string :=
  if String.eqb t "String" then "str"
  else if String.eqb t "Long" then "int"
  else if String.eqb t "Integer" then "int"
  else if String.eqb t "Double" then "float"
  else if String.eqb t "Single" then "float"
  else if String.eqb t "Boolean" then "bool"
  else t.

(** Lines short enough are left alone; the reference instance wraps
    nothing. *)
Definition ref_wrap_longlines (text : string) (ncols : option nat)
    (indent : string) : string := text.

(** Each section as its heading and its text, indented, one per line. *)
Definition ref_fmt_docstr (doc : Doc) (indent : string) : string :=
  str_concat
    (flat_map (λ '(h, t), [indent +:+ h +:+ nl; indent +:+ t +:+ nl]) doc).

(** [a + sep + b], as [os.path.join] does for a relative [b] and a
    non-empty [a] that does not end with the separator. *)
Definition ref_os_path_join (a b : string) : string := a +:+ "/" +:+ b.

#[export] Instance ref_utils : Utils := {|
  vb2pytype := ref_vb2pytype;
  wrap_longlines := ref_wrap_longlines;
  fmt_docstr := ref_fmt_docstr;
  STUBDIR := "stubs";
  os_path_join := ref_os_path_join;
|}.

#[export] Instance ref_utils_laws : UtilsLaws ref_utils.
Proof. by split. Qed.

Example ref_vb2pytype_String : ref_vb2pytype "String" "repr" = "str".
Proof. reflexivity. Qed.

Example ref_vb2pytype_record : ref_vb2pytype "T_ENTITY" "repr" = "T_ENTITY".
Proof. reflexivity. Qed.
