(* ===== verification/Descriptor.v ===== *)
(** * The data model: command descriptors

    [apidat] maps a command name to a dict with the keys [cmdtype],
    [descr], [returns] and [sig] (lines 106-108 of the script).  It is read
    from YAML, so nothing constrains the shape of [returns] and of the items
    of [sig] before the script unpacks them: the model keeps them as lists
    and the well-formedness predicate says what the script expects. *)

From S2P Require Import Prelude Extern.

(** One value of [apidat]. *)
Record ApiEntry : Type := {
  cmdtype : string;
  descr : string;
  returns : list string;
  sig : list (list string);
}.

#[global] Instance ApiEntry_eq_dec : EqDecision ApiEntry.
Proof. solve_decision. Defined.

#[global] Instance ApiEntry_inhabited : Inhabited ApiEntry :=
  populate {| cmdtype := ""; descr := ""; returns := []; sig := [] |}.

(** The two stores. *)
Abbreviation ApiStore := (gmap string ApiEntry).
Abbreviation DocStore := (gmap string Doc).

(** The four values of [cmdtype] the script tests for. *)
Definition is_unknown (e : ApiEntry) : bool := String.eqb (cmdtype e) "unknown".
Definition is_datastruct (e : ApiEntry) : bool := String.eqb (cmdtype e) "datastruct".
Definition is_function (e : ApiEntry) : bool := String.eqb (cmdtype e) "function".
Definition is_subroutine (e : ApiEntry) : bool := String.eqb (cmdtype e) "subroutine".

(** ** Well-formed descriptors *)

(** An item of [sig] is a name and a type. *)
Definition wf_sigitem (it : list string) : bool :=
  Nat.eqb (length it) 2.

(** [returns] is empty, or a name and a type. *)
Definition wf_returns (r : list string) : bool :=
  Nat.eqb (length r) 0 || Nat.eqb (length r) 2.

Definition wf_entry (e : ApiEntry) : bool :=
  forallb wf_sigitem (sig e) && wf_returns (returns e).

(** A pair of stores on which the run over [cmdnames] cannot fail: every
    name has a descriptor; a descriptor that is not skipped is well formed
    and has a documentation block. *)
Definition wf_command (apidat : ApiStore) (docdat : DocStore)
    (cmdname : string) : bool :=
  match apidat !! cmdname with
  | None => false
  | Some e => is_unknown e || (wf_entry e && bool_decide (is_Some (docdat !! cmdname)))
  end.

Definition wf_stores (apidat : ApiStore) (docdat : DocStore)
    (cmdnames : list string) : bool :=
  forallb (wf_command apidat docdat) cmdnames.

(** The view of a well-formed signature as pairs. *)
Definition sig_pair (it : list string) : string * string :=
  match it with
  | [n; t] => (n, t)
  | _ => ("", "")
  end.

Definition sig_pairs (e : ApiEntry) : list (string * string) :=
  sig_pair <$> sig e.

Definition sig_names (e : ApiEntry) : list string := fst <$> sig_pairs e.

(** ** The descriptors of the specification's scenarios *)

Definition GetUnits : ApiEntry :=
  {| cmdtype := "function"; descr := "Gets the units.";
     returns := ["Units"; "String"]; sig := [] |}.

Definition SetUnits : ApiEntry :=
  {| cmdtype := "subroutine"; descr := "Sets the units.";
     returns := []; sig := [["Units"; "String"]] |}.

Definition T_ENTITY : ApiEntry :=
  {| cmdtype := "datastruct"; descr := "An entity.";
     returns := []; sig := [["Idnum"; "Long"]; ["Name"; "String"]] |}.

Definition Foo : ApiEntry :=
  {| cmdtype := "unknown"; descr := ""; returns := []; sig := [] |}.

Definition GetTextPosition : ApiEntry :=
  {| cmdtype := "subroutine"; descr := "Gets the text position.";
     returns := []; sig := [["x"; "Long"]; ["pts()"; "Double"]] |}.

(** A descriptor whose [returns] has the wrong arity. *)
Definition BadReturns : ApiEntry :=
  {| cmdtype := "function"; descr := ""; returns := ["Units"]; sig := [] |}.

(** ** Lemmas *)

Lemma wf_sigitem_spec it : wf_sigitem it = true ↔ ∃ n t, it = [n; t].
Proof.
  unfold wf_sigitem. destruct it as [|? [|? [|? ?]]]; naive_solver.
Qed.

Lemma wf_sigitem_unpack it :
  wf_sigitem it = true → unpack2 it = Ok (sig_pair it).
Proof. by intros (n & t & ->)%wf_sigitem_spec. Qed.

Lemma wf_sigitem_index0 it :
  wf_sigitem it = true → index0 it = Ok (sig_pair it).1.
Proof. by intros (n & t & ->)%wf_sigitem_spec. Qed.

Lemma wf_returns_spec r : wf_returns r = true ↔ r = [] ∨ ∃ n t, r = [n; t].
Proof.
  unfold wf_returns. destruct r as [|? [|? [|? ?]]]; naive_solver.
Qed.

Lemma wf_entry_spec e :
  wf_entry e = true ↔
  Forall (λ it, wf_sigitem it = true) (sig e) ∧ wf_returns (returns e) = true.
Proof. unfold wf_entry. by rw andb_true_iff forallb_Forall. Qed.

Lemma sig_names_length e : length (sig_names e) = length (sig e).
Proof. unfold sig_names, sig_pairs. by rw !length_fmap. Qed.

#[export] Hint Resolve wf_sigitem_unpack wf_sigitem_index0 : pyfred.
