(* ===== verification/Sink.v ===== *)
(** * The output sink

    The script has two outputs: the file [fid] it writes the wrappers to
    (opened at line 129, closed at line 265) and the status stream of
    [print].  [Sink] holds what each has received, in order.  [M] is the
    monad of the script's statements: a statement takes the sink, may
    raise, and returns the sink as it left it, so that what was written
    before an exception is still there after it.

    The script only ever appends to its outputs and never reads them
    back.  The class [Appends] states this of a computation; its instances
    cover every operation of this file, so that a client proves it of a
    program by instance resolution.  The class [Quiet] states in the same
    way that a computation prints nothing. *)

From S2P Require Import Prelude.

Record Sink : Type := {
  written : list string;
  printed : list string;
}.

Definition sink_empty : Sink := {| written := []; printed := [] |}.

Definition sink_app (a b : Sink) : Sink :=
  {| written := written a ++ written b; printed := printed a ++ printed b |}.

(** The sink after the chunks [l] were written to the file. *)
Definition sink_write (st : Sink) (l : list string) : Sink :=
  {| written := written st ++ l; printed := printed st |}.

(** The sink after the lines [l] were printed. *)
Definition sink_print (st : Sink) (l : list string) : Sink :=
  {| written := written st; printed := printed st ++ l |}.

(** The text of the file. *)
Definition file_text (st : Sink) : string := str_concat (written st).

Record M (A : Type) : Type := MkM { runM : Sink → result A * Sink }.
Arguments MkM {A} _.
Arguments runM {A} _ _.

#[global] Instance M_ret : MRet M := λ A a, MkM (λ st, (Ok a, st)).

#[global] Instance M_bind : MBind M := λ A B f m,
  MkM (λ st,
    match runM m st with
    | (Ok a, st') => runM (f a) st'
    | (Raise e, st') => (Raise e, st')
    end).

(** [fid.write(s)]. *)
Definition fid_write (s : string) : M unit :=
  MkM (λ st, (Ok tt, {| written := written st ++ [s]; printed := printed st |})).

(** [print(s)]. *)
Definition print (s : string) : M unit :=
  MkM (λ st, (Ok tt, {| written := written st; printed := printed st ++ [s] |})).

(** An expression that may raise, evaluated as a statement. *)
Definition lift {A} (r : result A) : M A := MkM (λ st, (r, st)).

(** [for x in l: body(x)]. *)
Fixpoint for_each {A} (l : list A) (body : A → M unit) : M unit :=
  match l with
  | [] => mret tt
  | x :: l' => body x ≫= λ _, for_each l' body
  end.

(** A run from the outputs as they are before anything is written. *)
Definition exec {A} (m : M A) : result A * Sink := runM m sink_empty.

#[global] Arguments M_bind : simpl never.
#[global] Arguments M_ret : simpl never.
#[global] Arguments fid_write : simpl never.
#[global] Arguments print : simpl never.
#[global] Arguments lift : simpl never.

Create Rewrite HintDb pysink.

(** What a computation promises about the sink: it appends to it what it
    would write from scratch, and decides nothing from its contents. *)
Class Appends {A} (m : M A) : Prop :=
  appends st : runM m st = ((exec m).1, sink_app st (exec m).2).

#[global] Hint Mode Appends - ! : typeclass_instances.

(** ** Lemmas *)

Section sink.
Context {A B : Type}.
Implicit Types (m : M A) (f : A → M B) (st : Sink).

Lemma sink_app_empty_l st : sink_app sink_empty st = st.
Proof. by destruct st. Qed.

Lemma sink_app_empty_r st : sink_app st sink_empty = st.
Proof. destruct st. unfold sink_app. simpl. by rw !app_nil_r. Qed.

Lemma sink_app_assoc st1 st2 st3 :
  sink_app (sink_app st1 st2) st3 = sink_app st1 (sink_app st2 st3).
Proof. unfold sink_app. simpl. by rw !app_assoc. Qed.

Lemma file_text_app st1 st2 :
  file_text (sink_app st1 st2) = file_text st1 +:+ file_text st2.
Proof. apply str_concat_app. Qed.

Lemma file_text_write st l :
  file_text (sink_write st l) = file_text st +:+ str_concat l.
Proof. by rw /file_text /= str_concat_app. Qed.

Lemma file_text_print st l : file_text (sink_print st l) = file_text st.
Proof. done. Qed.

Lemma runM_ret (a : A) st : runM (mret a) st = (Ok a, st).
Proof. done. Qed.

Lemma runM_bind m f st :
  runM (m ≫= f) st =
    match runM m st with
    | (Ok a, st') => runM (f a) st'
    | (Raise e, st') => (Raise e, st')
    end.
Proof. done. Qed.

Lemma runM_fid_write s st :
  runM (fid_write s) st =
    (Ok tt, {| written := written st ++ [s]; printed := printed st |}).
Proof. done. Qed.

Lemma runM_print s st :
  runM (print s) st =
    (Ok tt, {| written := written st; printed := printed st ++ [s] |}).
Proof. done. Qed.

Lemma for_each_nil (body : A → M unit) : for_each [] body = mret tt.
Proof. done. Qed.

Lemma for_each_cons x l (body : A → M unit) :
  for_each (x :: l) body = body x ≫= λ _, for_each l body.
Proof. done. Qed.

Lemma runM_lift (r : result A) st : runM (lift r) st = (r, st).
Proof. done. Qed.

Lemma runM_bind_lift (r : result A) f st :
  runM (lift r ≫= f) st =
    match r with
    | Ok a => runM (f a) st
    | Raise e => (Raise e, st)
    end.
Proof. by destruct r. Qed.

Lemma sink_write_nil st : sink_write st [] = st.
Proof. destruct st. by rw /sink_write /= app_nil_r. Qed.

Lemma sink_print_nil st : sink_print st [] = st.
Proof. destruct st. by rw /sink_print /= app_nil_r. Qed.

Lemma sink_write_write st l1 l2 :
  sink_write (sink_write st l1) l2 = sink_write st (l1 ++ l2).
Proof. by rw /sink_write /= app_assoc. Qed.

Lemma sink_print_print st l1 l2 :
  sink_print (sink_print st l1) l2 = sink_print st (l1 ++ l2).
Proof. by rw /sink_print /= app_assoc. Qed.

Lemma sink_write_empty l :
  sink_write sink_empty l = {| written := l; printed := [] |}.
Proof. done. Qed.

Lemma runM_bind_ret (a : A) f st : runM (mret a ≫= f) st = runM (f a) st.
Proof. done. Qed.

Lemma runM_bind_write s (g : unit → M B) st :
  runM (fid_write s ≫= g) st = runM (g tt) (sink_write st [s]).
Proof. done. Qed.

Lemma runM_bind_print s (g : unit → M B) st :
  runM (print s ≫= g) st = runM (g tt) (sink_print st [s]).
Proof. done. Qed.

Lemma runM_write s st : runM (fid_write s) st = (Ok tt, sink_write st [s]).
Proof. done. Qed.

#[global] Instance appends_ret (a : A) : Appends (mret a).
Proof. intros st. by rw /exec !runM_ret /= sink_app_empty_r. Qed.

#[global] Instance appends_lift (r : result A) : Appends (lift r).
Proof. intros st. by rw /exec !runM_lift /= sink_app_empty_r. Qed.

#[global] Instance appends_bind m f :
  Appends m → (∀ a, Appends (f a)) → Appends (m ≫= f).
Proof.
  intros Hm Hf st. rw /exec !runM_bind (Hm st) /exec.
  destruct (runM m sink_empty) as [[a|e] st1]; simpl; [|done].
  rw (Hf a (sink_app st st1)) (Hf a st1) /=.
  by rw sink_app_assoc.
Qed.

End sink.

Lemma runM_bind_assoc {A B C} (m : M A) (f : A → M B) (g : B → M C) st :
  runM ((m ≫= f) ≫= g) st = runM (m ≫= λ a, f a ≫= g) st.
Proof.
  rw !runM_bind. destruct (runM m st) as [[a|e] st']; [|done].
  by rw runM_bind.
Qed.

#[global] Instance appends_fid_write s : Appends (fid_write s).
Proof. intros st. by rw /exec /sink_app /= app_nil_r. Qed.

#[global] Instance appends_print s : Appends (print s).
Proof. intros st. by rw /exec /sink_app /= app_nil_r. Qed.

#[global] Instance appends_for_each {A} (l : list A) (body : A → M unit) :
  (∀ x, Appends (body x)) → Appends (for_each l body).
Proof. intros Hb. induction l; rw ?for_each_nil ?for_each_cons; apply _. Qed.

#[global] Instance appends_if {A} (b : bool) (m1 m2 : M A) :
  Appends m1 → Appends m2 → Appends (if b then m1 else m2).
Proof. by destruct b. Qed.

Section appends.
Context {A : Type} (m : M A) `{!Appends m}.

(** What the file holds after a computation starts with what it held
    before. *)
Lemma appends_written st : written st `prefix_of` written (runM m st).2.
Proof. rw appends /=. by apply prefix_app_r. Qed.

Lemma appends_printed st : printed st `prefix_of` printed (runM m st).2.
Proof. rw appends /=. by apply prefix_app_r. Qed.

Lemma appends_file_text st :
  file_text (runM m st).2 = file_text st +:+ file_text (exec m).2.
Proof. by rw appends /= file_text_app. Qed.

Lemma appends_result st : (runM m st).1 = (exec m).1.
Proof. by rw appends. Qed.

End appends.

(** ** Computations that print nothing *)

Class Quiet {A} (m : M A) : Prop :=
  quiet st : printed (runM m st).2 = printed st.

#[global] Hint Mode Quiet - ! : typeclass_instances.

#[global] Instance quiet_ret {A} (a : A) : Quiet (mret a).
Proof. done. Qed.

#[global] Instance quiet_lift {A} (r : result A) : Quiet (lift r).
Proof. done. Qed.

#[global] Instance quiet_fid_write s : Quiet (fid_write s).
Proof. done. Qed.

#[global] Instance quiet_bind {A B} (m : M A) (f : A → M B) :
  Quiet m → (∀ a, Quiet (f a)) → Quiet (m ≫= f).
Proof.
  intros Hm Hf st. rw runM_bind -(Hm st).
  destruct (runM m st) as [[a|e] st1]; [apply Hf|done].
Qed.

#[global] Instance quiet_for_each {A} (l : list A) (body : A → M unit) :
  (∀ x, Quiet (body x)) → Quiet (for_each l body).
Proof. intros Hb. induction l; rw ?for_each_nil ?for_each_cons; apply _. Qed.

#[global] Instance quiet_if {A} (b : bool) (m1 m2 : M A) :
  Quiet m1 → Quiet m2 → Quiet (if b then m1 else m2).
Proof. by destruct b. Qed.

Lemma quiet_printed {A} (m : M A) st l :
  Quiet m → printed st = l → printed (runM m st).2 = l.
Proof. intros Hm <-. apply Hm. Qed.

(** A loop whose every iteration writes its chunks writes them all, in
    the order of the list. *)
Lemma for_each_writes {A} (l : list A) body (chunks : A → list string) st :
  (∀ x st', x ∈ l → runM (body x) st' = (Ok tt, sink_write st' (chunks x))) →
  runM (for_each l body) st = (Ok tt, sink_write st (flat_map chunks l)).
Proof.
  revert st. induction l as [|x l IH]; intros st Hb.
  - by rw for_each_nil runM_ret sink_write_nil.
  - rw for_each_cons runM_bind Hb; [by left|].
    rw IH; [intros; apply Hb; by right|]. by rw sink_write_write.
Qed.

(** A loop over a concatenation is the two loops in sequence. *)
Lemma for_each_app {A} (l1 l2 : list A) body st :
  runM (for_each (l1 ++ l2) body) st =
  runM (for_each l1 body ≫= λ _, for_each l2 body) st.
Proof.
  revert st. induction l1 as [|x l1 IH]; intros st; [done|].
  rw -app_comm_cons !for_each_cons !runM_bind.
  destruct (runM (body x) st) as [[[]|e] st']; [|done].
  by rw IH runM_bind.
Qed.

Lemma runM_lift_Ok {A} (r : result A) (a : A) st st' :
  runM (lift r) st = (Ok a, st') → r = Ok a ∧ st' = st.
Proof. by intros [= -> ->]. Qed.

(** A sequence runs alike under continuations that run alike on what
    its first statement returns. *)
Lemma runM_bind_ext {A B} (m : M A) (f g : A → M B) st :
  (∀ a st', runM m st = (Ok a, st') → runM (f a) st' = runM (g a) st') →
  runM (m ≫= f) st = runM (m ≫= g) st.
Proof.
  intros Hfg. rw !runM_bind.
  destruct (runM m st) as [[a|e] st']; [by apply Hfg|done].
Qed.

(** Loops with bodies that run alike run alike. *)
Lemma for_each_ext {A} (l : list A) (f g : A → M unit) st :
  (∀ x st', x ∈ l → runM (f x) st' = runM (g x) st') →
  runM (for_each l f) st = runM (for_each l g) st.
Proof.
  revert st. induction l as [|x l IH]; intros st Hfg; [done|].
  rw !for_each_cons !runM_bind Hfg; [by left|].
  destruct (runM (g x) st) as [[[]|e] st']; [|done].
  apply IH. intros y st'' Hy. apply Hfg. by right.
Qed.

(** The loop stops at the first iteration that raises. *)
Lemma for_each_raise {A} (l1 l2 : list A) x body st st1 st2 e :
  runM (for_each l1 body) st = (Ok tt, st1) →
  runM (body x) st1 = (Raise e, st2) →
  runM (for_each (l1 ++ x :: l2) body) st = (Raise e, st2).
Proof.
  intros H1 H2. by rw for_each_app runM_bind H1 for_each_cons runM_bind H2.
Qed.

#[export] Hint Rewrite @runM_bind_assoc @runM_bind_ret @runM_bind_write
  @runM_bind_print @runM_bind_lift @runM_ret @runM_lift runM_write
  sink_write_write sink_print_print sink_write_nil : pysink.
