(* ===== verification/Encoding.v ===== *)
(** * Encoding: the bytes of the output file

    The script opens its output with [codecs.open(PYAPIPATH, 'w',
    'utf-8')] (line 129): every [fid.write(s)] hands the text [s] to the
    UTF-8 encoder and the bytes it returns go to the file.  Line 129
    only names the encoder: it belongs to Python's [codecs], not to the
    repository, and is written here from the definition of UTF-8.  A
    character of the model is a code point below 256; the encoder maps a
    code point
    below 128 to itself and a code point [z] from 128 on to the two bytes
    [110xxxxx 10xxxxxx] that hold the bits of [z], here [0xC2] or [0xC3]
    followed by a continuation byte.  Codes and bytes are numbers in [Z]
    with the bit operations of the encoding written out; a byte is kept
    to its eight bits by [chr].

    [utf8_decode] is the decoder of these bytes, the specification the
    encoder is proved against: it accepts the encodings of the code
    points below 256 and nothing else (no overlong form, no stray
    continuation byte, no truncated sequence, no lead byte of a code
    point the model does not have).

    The theorems: decoding inverts encoding and accepts only what the
    encoder produces; the encoder is a morphism for concatenation, so
    that the bytes of the file are the encoding of its text however the
    text was cut into chunks; the size of the file in bytes is between
    the length of the text and twice that; on ASCII text, and only
    there, the bytes are the text. *)

From Stdlib Require Import ZArith.
From S2P Require Import Prelude.

(** ** Code points and bytes *)

(** The code of a character, from 0 to 255. *)
Definition code (c : ascii) : Z := Z.of_N (N_of_ascii c).

(** The byte of a number: its low eight bits. *)
Definition chr (z : Z) : ascii := ascii_of_N (Z.to_N (z mod 256)).

(** The text of one code point. *)
Definition uni (z : Z) : string := String (chr z) "".

Definition is_ascii (c : ascii) : bool := (code c <? 128)%Z.

Fixpoint all_ascii (s : string) : bool :=
  match s with
  | "" => true
  | String c s' => is_ascii c && all_ascii s'
  end.

(** The characters of a text that take two bytes. *)
Fixpoint wide (s : string) : nat :=
  match s with
  | "" => 0
  | String c s' => (if is_ascii c then 0 else 1) + wide s'
  end.

(** ** The encoder *)

(** The lead byte [110xxxxx] and the continuation byte [10xxxxxx] of a
    code point of two bytes. *)
Definition lead2 (z : Z) : Z := Z.lor 192 (Z.shiftr z 6).
Definition cont (z : Z) : Z := Z.lor 128 (Z.land z 63).

Definition utf8_char (c : ascii) : string :=
  if is_ascii c then String c ""
  else String (chr (lead2 (code c))) (String (chr (cont (code c))) "").

Fixpoint utf8_encode (s : string) : string :=
  match s with
  | "" => ""
  | String c s' => utf8_char c +:+ utf8_encode s'
  end.

(** What the calls of [fid.write] with the chunks [chunks] have put on
    disk (lines 129-264): the file was opened with the encoder, and each
    chunk was encoded when it was written. *)
Definition fid_bytes (chunks : list string) : string :=
  str_concat (utf8_encode <$> chunks).

(** ** The decoder *)

(** A continuation byte is [10xxxxxx]. *)
Definition is_cont (c : ascii) : bool := (Z.land (code c) 192 =? 128)%Z.

(** A lead byte of a code point from 128 to 255: [0xC2] or [0xC3]. *)
Definition is_lead2 (c : ascii) : bool :=
  (code c =? 194)%Z || (code c =? 195)%Z.

(** The code point of a lead byte and a continuation byte. *)
Definition join2 (l c : Z) : Z :=
  Z.lor (Z.shiftl (Z.land l 31) 6) (Z.land c 63).

Fixpoint utf8_decode (b : string) : option string :=
  match b with
  | "" => Some ""
  | String c rest =>
      if is_ascii c then String c <$> utf8_decode rest
      else if is_lead2 c then
        match rest with
        | String c2 rest' =>
            if is_cont c2
            then String (chr (join2 (code c) (code c2))) <$> utf8_decode rest'
            else None
        | "" => None
        end
      else None
  end.

(** A byte that can occur in the encoding of a text of the model. *)
Definition is_utf8_byte (c : ascii) : bool :=
  is_ascii c || is_lead2 c || is_cont c.

#[global] Arguments code : simpl never.
#[global] Arguments chr : simpl never.

(** ** Concrete texts *)

(** [e] with an acute accent, U+00E9, is [0xC3 0xA9]. *)
Example utf8_e_acute :
  utf8_encode ("caf" +:+ uni 233) = "caf" +:+ uni 195 +:+ uni 169.
Proof. reflexivity. Qed.

Example utf8_decode_e_acute :
  utf8_decode ("caf" +:+ uni 195 +:+ uni 169) = Some ("caf" +:+ uni 233).
Proof. reflexivity. Qed.

(** The overlong form [0xC1 0xA1] of [a], a continuation byte on its own,
    a lead byte at the end, and the lead byte of U+0100 are refused. *)
Example utf8_decode_refuses :
  utf8_decode (uni 193 +:+ uni 161) = None ∧
  utf8_decode (uni 169) = None ∧
  utf8_decode ("caf" +:+ uni 195) = None ∧
  utf8_decode (uni 196 +:+ uni 128) = None.
Proof. done. Qed.

(** ** Characters *)

(** Every character is one of the 256: a statement about all characters
    that computes is proved by running through them. *)
Ltac each_char c :=
  destruct c as [[] [] [] [] [] [] [] []]; vm_compute; try done.

Section chars.
Implicit Types (c : ascii) (s t b : string).

Lemma code_range c : (0 ≤ code c < 256)%Z.
Proof. each_char c; split; congruence. Qed.

Lemma chr_code c : chr (code c) = c.
Proof. by each_char c. Qed.

(** The two bytes of a code point from 128 on: a lead byte and a
    continuation byte, neither of them ASCII, that join to the code
    point. *)
Lemma utf8_char_wide c :
  is_ascii c = false →
  is_ascii (chr (lead2 (code c))) = false ∧
  is_lead2 (chr (lead2 (code c))) = true ∧
  is_cont (chr (cont (code c))) = true ∧
  is_ascii (chr (cont (code c))) = false ∧
  chr (join2 (code (chr (lead2 (code c)))) (code (chr (cont (code c))))) = c.
Proof. by each_char c. Qed.

(** A lead byte and a continuation byte are the two bytes of the code
    point they join to. *)
Lemma join2_wide c1 c2 :
  is_lead2 c1 = true → is_cont c2 = true →
  is_ascii (chr (join2 (code c1) (code c2))) = false ∧
  chr (lead2 (code (chr (join2 (code c1) (code c2))))) = c1 ∧
  chr (cont (code (chr (join2 (code c1) (code c2))))) = c2.
Proof.
  intros H1 H2. destruct c1 as [[] [] [] [] [] [] [] []]; try done.
  all: by each_char c2.
Qed.

Lemma is_lead2_not_ascii c : is_lead2 c = true → is_ascii c = false.
Proof. by each_char c. Qed.

Lemma utf8_char_length c :
  String.length (utf8_char c) = (if is_ascii c then 1 else 2)%nat.
Proof. unfold utf8_char. by destruct (is_ascii c). Qed.

Lemma utf8_char_bytes c : str_forall is_utf8_byte (utf8_char c) = true.
Proof.
  unfold utf8_char, is_utf8_byte. destruct (is_ascii c) eqn:Hc; simpl.
  - by rw Hc.
  - destruct (utf8_char_wide c Hc) as (_ & -> & -> & _).
    by rw !orb_true_r.
Qed.

End chars.

(** ** The encoder and the decoder *)

Section codec.
Implicit Types (c : ascii) (s t b : string).

Lemma utf8_decode_char c s :
  utf8_decode (utf8_char c +:+ s) = String c <$> utf8_decode s.
Proof.
  unfold utf8_char. destruct (is_ascii c) eqn:Hc; simpl; [by rw Hc|].
  destruct (utf8_char_wide c Hc) as (-> & -> & -> & _ & ->). done.
Qed.

Lemma utf8_decode_encode s : utf8_decode (utf8_encode s) = Some s.
Proof.
  induction s as [|c s IH]; [done|]. by rw /= utf8_decode_char IH.
Qed.

Lemma utf8_encode_decode b s : utf8_decode b = Some s → utf8_encode s = b.
Proof.
  revert s. induction b as [b IH] using str_length_ind. intros s.
  destruct b as [|c rest]; [by intros [= <-]|]. simpl.
  destruct (is_ascii c) eqn:Hc.
  - destruct (utf8_decode rest) as [s'|] eqn:Hr; intros [= <-].
    rw /= /utf8_char Hc /= (IH rest) //. simpl. lia.
  - destruct (is_lead2 c) eqn:Hl; [|done].
    destruct rest as [|c2 rest]; [done|].
    destruct (is_cont c2) eqn:H2; [|done].
    destruct (utf8_decode rest) as [s'|] eqn:Hr; intros [= <-].
    destruct (join2_wide c c2 Hl H2) as (Hj & Hc1 & Hc2).
    rw /= /utf8_char Hj Hc1 Hc2 /= (IH rest) //. simpl. lia.
Qed.

Lemma utf8_encode_app s t :
  utf8_encode (s +:+ t) = utf8_encode s +:+ utf8_encode t.
Proof.
  induction s as [|c s IH]; [done|].
  by rw str_app_cons /= IH str_app_assoc.
Qed.

Lemma utf8_encode_concat (l : list string) :
  utf8_encode (str_concat l) = str_concat (utf8_encode <$> l).
Proof.
  induction l as [|s l IH]; [done|].
  by rw fmap_cons !str_concat_cons utf8_encode_app IH.
Qed.

Lemma utf8_encode_length s :
  String.length (utf8_encode s) = String.length s + wide s.
Proof.
  induction s as [|c s IH]; [done|].
  rw /= str_length_app utf8_char_length IH. destruct (is_ascii c); lia.
Qed.

Lemma wide_le s : wide s ≤ String.length s.
Proof. induction s as [|c s IH]; [done|]. simpl. destruct (is_ascii c); lia. Qed.

Lemma wide_0 s : wide s = 0 ↔ all_ascii s = true.
Proof.
  induction s as [|c s IH]; [done|]. simpl.
  destruct (is_ascii c); simpl; [done|]. split; [lia|done].
Qed.

Lemma utf8_encode_ascii s : all_ascii s = true → utf8_encode s = s.
Proof.
  induction s as [|c s IH]; [done|]. simpl.
  intros [Hc Hs]%andb_true_iff. by rw /utf8_char Hc /= IH.
Qed.

Lemma utf8_encode_bytes s : str_forall is_utf8_byte (utf8_encode s) = true.
Proof.
  induction s as [|c s IH]; [done|].
  by rw /= str_forall_app utf8_char_bytes IH.
Qed.

(** The bytes on disk are the encoding of the text written, however the
    text was cut into chunks. *)
Lemma fid_bytes_text chunks :
  fid_bytes chunks = utf8_encode (str_concat chunks).
Proof. unfold fid_bytes. by rw utf8_encode_concat. Qed.

(** C22. Decoding inverts encoding, and the decoder accepts nothing but
    encodings: a sequence of bytes decodes to a text exactly when it is
    the encoding of that text.  So the encoder loses nothing (two texts
    with the same bytes are the same text) and what it writes is valid
    UTF-8 in shortest form; and the bytes the writes of the script leave
    on disk decode to the text that was written and to no other. *)
Theorem utf8_roundtrip b s chunks :
  (utf8_decode b = Some s ↔ utf8_encode s = b) ∧
  (utf8_decode (fid_bytes chunks) = Some s ↔ str_concat chunks = s).
Proof.
  split; [split; [apply utf8_encode_decode|]; intros <-;
          apply utf8_decode_encode|].
  rw fid_bytes_text utf8_decode_encode. by split; [intros [= ->]|intros ->].
Qed.

(** C24. The size of the encoding: one byte per character and one more
    for each character from code 128 on, so between the length of the
    text and twice that; the bytes are the text itself exactly when the
    text is ASCII; and the size of the file the writes of the script
    leave is the length of the text written plus the number of its
    characters from code 128 on. *)
Theorem utf8_encode_bounds s chunks :
  String.length (utf8_encode s) = String.length s + wide s ∧
  String.length s ≤ String.length (utf8_encode s) ≤ 2 * String.length s ∧
  (utf8_encode s = s ↔ all_ascii s = true) ∧
  String.length (fid_bytes chunks)
    = String.length (str_concat chunks) + wide (str_concat chunks).
Proof.
  pose proof (utf8_encode_length s) as Hl. pose proof (wide_le s).
  split_and!; [done|lia..| |by rw fid_bytes_text utf8_encode_length].
  split; [|apply utf8_encode_ascii].
  intros Hs. apply wide_0. rw Hs in Hl. lia.
Qed.

End codec.
