(* ===== verification/Normalizer.v ===== *)
(** * The descriptor normalizer

    Lines 149-160 of the script take the parameter names out of the
    signature and fill two dicts keyed on them: [newparams], the name with
    the array marker stripped, and [annots], the annotation of the
    parameter's documentation line.  Lines 207-209 add the receiver and
    read the dict back in the order of the signature.  The dicts are
    [gmap]s, the loop a left fold; the theorems relate what the dicts hold
    to the pure functions [PARMAT_sub] and [annot_of], and show that the
    well-formedness [dicts_wf] of the dicts is kept by every operation. *)

From S2P Require Import Prelude Regex.

(** The two dicts of the loop. *)
Record Dicts : Type := {
  newparams : gmap string string;
  annots : gmap string string;
}.

(** Lines 152-153. *)
Definition dicts_empty : Dicts := {| newparams := ∅; annots := ∅ |}.

(** Line 149: [params = [_[0] for _ in sigitems]]. *)
Definition params_of (sigitems : list (list string)) : result (list string) :=
  mapM index0 sigitems.

Section normalizer.
Context `{B : Blank}.

(** Lines 155-160: the body of the loop, for one parameter. *)
Definition normalize_step (d : Dicts) (p : string) : Dicts :=
  if PARMAT_search p then
    {| newparams := <[p := PARMAT_sub p]> (newparams d);
       annots := <[p := "Array-like of "]> (annots d) |}
  else
    {| newparams := <[p := p]> (newparams d);
       annots := <[p := ""]> (annots d) |}.

(** Lines 152-160. *)
Definition normalize (params : list string) : Dicts :=
  foldl normalize_step dicts_empty params.

(** Lines 207-208: [params.insert(0, "self")] and
    [newparams['self'] = "self"]. *)
Definition add_self (params : list string) (d : Dicts) : list string * Dicts :=
  ("self" :: params,
   {| newparams := <["self" := "self"]> (newparams d); annots := annots d |}).

(** Line 209: [paramlist = [newparams[_] for _ in params]]. *)
Definition paramlist_of (d : Dicts) (params : list string) : result (list string) :=
  mapM (dict_get (newparams d)) params.

(** The annotation of a parameter, as a function of its name. *)
Definition annot_of (p : string) : string :=
  if PARMAT_search p then "Array-like of " else "".

(** What the dicts are, whatever the loop has seen so far: each key of
    [newparams] is bound to its name stripped, each key of [annots] to
    its annotation, and every key with an annotation has a name. *)
Definition dicts_wf (d : Dicts) : Prop :=
  map_Forall (λ p np, np = PARMAT_sub p) (newparams d) ∧
  map_Forall (λ p an, an = annot_of p) (annots d) ∧
  dom (annots d) ⊆ dom (newparams d).

#[global] Instance dicts_wf_dec d : Decision (dicts_wf d).
Proof. unfold dicts_wf. apply _. Defined.

End normalizer.

(** ** Concrete runs *)

Example normalize_coords :
  let d := normalize ["x"; "coords ( )"] in
  newparams d !! "coords ( )" = Some "coords" ∧
  annots d !! "coords ( )" = Some "Array-like of " ∧
  newparams d !! "x" = Some "x" ∧ annots d !! "x" = Some "".
Proof. vm_compute. done. Qed.

Example paramlist_coords :
  let '(params, d) := add_self ["x"; "coords()"] (normalize ["x"; "coords()"]) in
  paramlist_of d params = Ok ["self"; "x"; "coords"].
Proof. vm_compute. done. Qed.

(** ** What the dicts hold *)

Section normalize.
Context `{B : Blank}.
Implicit Types (d : Dicts) (p q : string) (params : list string).

(** The name of the receiver has no marker, whatever counts as blank. *)
Lemma PARMAT_sub_self : PARMAT_sub "self" = "self".
Proof. by apply PARMAT_sub_no_paren. Qed.

Lemma normalize_step_newparams d p :
  newparams (normalize_step d p) = <[p := PARMAT_sub p]> (newparams d).
Proof.
  unfold normalize_step. destruct (PARMAT_search p) eqn:Hp; [done|].
  simpl. by rw PARMAT_sub_no_match.
Qed.

Lemma normalize_step_annots d p :
  annots (normalize_step d p) = <[p := annot_of p]> (annots d).
Proof. unfold normalize_step, annot_of. by destruct (PARMAT_search p). Qed.

Lemma foldl_normalize_newparams d params q :
  newparams (foldl normalize_step d params) !! q =
    if bool_decide (q ∈ params) then Some (PARMAT_sub q) else newparams d !! q.
Proof.
  revert d. induction params as [|p params IH]; intros d; [done|].
  rw /= IH normalize_step_newparams.
  destruct (decide (q = p)) as [->|Hne].
  - rw lookup_insert_eq (bool_decide_eq_true_2 (p ∈ p :: params));
      [by left|]. by case_bool_decide.
  - rw lookup_insert_ne //. repeat case_bool_decide; set_solver.
Qed.

Lemma foldl_normalize_annots d params q :
  annots (foldl normalize_step d params) !! q =
    if bool_decide (q ∈ params) then Some (annot_of q) else annots d !! q.
Proof.
  revert d. induction params as [|p params IH]; intros d; [done|].
  rw /= IH normalize_step_annots.
  destruct (decide (q = p)) as [->|Hne].
  - rw lookup_insert_eq (bool_decide_eq_true_2 (p ∈ p :: params));
      [by left|]. by case_bool_decide.
  - rw lookup_insert_ne //. repeat case_bool_decide; set_solver.
Qed.

(** ** The invariant of the dicts *)

Lemma dicts_wf_empty : dicts_wf dicts_empty.
Proof. split_and!; [apply map_Forall_empty..|done]. Qed.

Lemma dicts_wf_step d p : dicts_wf d → dicts_wf (normalize_step d p).
Proof.
  intros (Hn & Ha & Hd).
  rw /dicts_wf normalize_step_newparams normalize_step_annots.
  split_and!; [by apply map_Forall_insert_2..|]. rw !dom_insert. set_solver.
Qed.

Lemma dicts_wf_add_self params d : dicts_wf d → dicts_wf (add_self params d).2.
Proof.
  intros (Hn & Ha & Hd). split_and!; [|done|]; simpl.
  - apply map_Forall_insert_2; [|done]. by rw PARMAT_sub_self.
  - rw dom_insert. set_solver.
Qed.

Lemma dicts_wf_normalize params : dicts_wf (normalize params).
Proof.
  unfold normalize. generalize dicts_wf_empty. generalize dicts_empty.
  induction params as [|p params IH]; intros d Hd; [done|].
  by apply IH, dicts_wf_step.
Qed.

(** In dicts that satisfy the invariant a lookup returns the function of
    its key or raises, and a parameter with an annotation has a name. *)
Lemma dicts_wf_lookup d p :
  dicts_wf d →
  (∀ np, dict_get (newparams d) p = Ok np → np = PARMAT_sub p) ∧
  (∀ an, dict_get (annots d) p = Ok an →
     an = annot_of p ∧ dict_get (newparams d) p = Ok (PARMAT_sub p)).
Proof.
  intros (Hn & Ha & Hd). split.
  - intros np ?%dict_get_Ok. by eapply (Hn p).
  - intros an Han%dict_get_Ok. split; [by eapply (Ha p)|].
    assert (p ∈ dom (newparams d)) as [np Hnp]%elem_of_dom.
    { apply Hd, elem_of_dom. by eexists. }
    apply dict_get_Ok. by rw Hnp (Hn p np Hnp).
Qed.

(** C21. The dicts are well formed at every point of the run: [dicts_wf]
    holds of the empty dicts of lines 152-153, each turn of the loop of
    lines 154-160 and the insertion of the receiver at line 208 keep it,
    and so it holds of the dicts every later lookup reads. *)
Theorem dicts_wf_invariant :
  dicts_wf dicts_empty ∧
  (∀ d p, dicts_wf d → dicts_wf (normalize_step d p)) ∧
  (∀ d params, dicts_wf d → dicts_wf (add_self params d).2) ∧
  (∀ params, dicts_wf (add_self params (normalize params)).2).
Proof.
  split_and!; [apply dicts_wf_empty|apply dicts_wf_step| |].
  - intros d params. apply dicts_wf_add_self.
  - intros params. apply dicts_wf_add_self, dicts_wf_normalize.
Qed.

(** C25. The dict [newparams] of lines 152-160 holds, for every name of
    the signature and for no other key, the name with the matches of
    [PARMAT] removed, whichever branch of the test filled it and however
    often the name occurs. *)
Theorem normalize_newparams params q :
  newparams (normalize params) !! q =
    if bool_decide (q ∈ params) then Some (PARMAT_sub q) else None.
Proof. apply foldl_normalize_newparams. Qed.

(** C31. The dict [annots] holds, for every name of the signature and for
    no other key, ['Array-like of '] when the pattern matches in the name
    and the empty string when it does not. *)
Theorem normalize_annots params q :
  annots (normalize params) !! q =
    if bool_decide (q ∈ params) then Some (annot_of q) else None.
Proof. apply foldl_normalize_annots. Qed.

Lemma add_self_newparams params q :
  q ∈ "self" :: params →
  newparams (add_self params (normalize params)).2 !! q = Some (PARMAT_sub q).
Proof.
  intros Hq. simpl. destruct (decide (q = "self")) as [->|Hne].
  - by rw lookup_insert_eq PARMAT_sub_self.
  - rw lookup_insert_ne // foldl_normalize_newparams bool_decide_eq_true_2 //.
    set_solver.
Qed.

(** Every lookup of [paramlist_of] hits, whatever list of known names it
    walks. *)
Lemma paramlist_of_known params names :
  names ⊆ "self" :: params →
  paramlist_of (add_self params (normalize params)).2 names
    = Ok (PARMAT_sub <$> names).
Proof.
  intros Hsub. apply result_mapM_total, Forall_forall. intros q Hq.
  by apply dict_get_Ok, add_self_newparams, Hsub.
Qed.

(** [paramlist] is the receiver followed by the stripped names. *)
Lemma paramlist_of_self params :
  paramlist_of (add_self params (normalize params)).2 ("self" :: params)
    = Ok ("self" :: (PARMAT_sub <$> params)).
Proof.
  pose proof (paramlist_of_known params ("self" :: params)) as H.
  rw fmap_cons PARMAT_sub_self in H. by apply H.
Qed.

(** C32. The lookups of line 209 never raise [KeyError], and [paramlist]
    is the receiver followed by the stripped names in the order of the
    signature: one entry per parameter, array-like or not. *)
Theorem paramlist_of_add_self params :
  let '(params', d) := add_self params (normalize params) in
  paramlist_of d params' = Ok ("self" :: (PARMAT_sub <$> params)).
Proof. apply paramlist_of_self. Qed.

(** The lookups [newparams[par]] and [annots[par]] of line 232 never
    raise for a parameter of the signature. *)
Lemma normalize_lookup_ok params q :
  q ∈ params →
  dict_get (newparams (add_self params (normalize params)).2) q
    = Ok (PARMAT_sub q) ∧
  dict_get (annots (add_self params (normalize params)).2) q
    = Ok (annot_of q).
Proof.
  intros Hq. split; apply dict_get_Ok.
  - apply add_self_newparams. by right.
  - by rw /= foldl_normalize_annots bool_decide_eq_true_2.
Qed.

End normalize.

Lemma params_of_wf sigitems :
  Forall (λ it, is_Ok (index0 it)) sigitems → is_Ok (params_of sigitems).
Proof.
  unfold params_of. induction 1 as [|it l [p Hp] _ [ps IH]]; [by eexists|].
  exists (p :: ps). by rw /= Hp /= IH.
Qed.

Lemma params_of_length sigitems params :
  params_of sigitems = Ok params → length params = length sigitems.
Proof. apply result_mapM_length. Qed.

Lemma params_of_app l1 l2 params :
  params_of (l1 ++ l2) = Ok params →
  ∃ k1 k2, params_of l1 = Ok k1 ∧ params_of l2 = Ok k2 ∧ params = k1 ++ k2.
Proof.
  unfold params_of. rw result_mapM_app.
  destruct (mapM index0 l1) as [k1|]; [|done].
  destruct (mapM index0 l2) as [k2|]; [|done].
  intros [= <-]. by exists k1, k2.
Qed.

Lemma params_of_Raise sigitems e :
  params_of sigitems = Raise e → e = IndexError ∧ [] ∈ sigitems.
Proof.
  unfold params_of. revert e.
  induction sigitems as [|it l IH]; intros e; [done|]. simpl.
  destruct it as [|p it]; simpl; [intros [= <-]; split; [done|by left]|].
  destruct (mapM index0 l); simpl; [done|].
  intros [= <-]. destruct (IH _ eq_refl) as [-> ?]. split; [done|by right].
Qed.

#[global] Arguments normalize : simpl never.
