(* ===== verification/Composer.v ===== *)
(** * The signature composer

    The strings the script composes for one command before it writes
    anything: the description [descstr] (lines 138-147), the return section
    [retstr] (lines 163-205) and the argument list [arglist] of the header
    (lines 210-217).  Unpacking [returns] and the items of [sig] can raise,
    so [retstr] is a [result]. *)

From S2P Require Import Prelude Regex Extern Descriptor.

(** ** Indentation (lines 34-36) *)

Definition I1 : string := " " *: 4.
Definition I2 : string := I1 *: 2.
Definition I3 : string := I1 +:+ I2.

Section composer.
Context `{U : Utils}.

(** ** [descstr] (lines 138-147) *)

Definition descstr_of (cmdname : string) (e : ApiEntry) : string :=
  let descstr :=
    "Wrapper for FRED " +:+ cmdname +:+ " " +:+ str_upper (cmdtype e)
      +:+ "." +:+ nl in
  let descstr :=
    descstr +:+
      (if is_datastruct e
       then I2 +:+ "Does not require all parameters to be set when invoked." +:+ nl
       else I2 +:+ "Requires all parameters to be set when invoked." +:+ nl) in
  let descstr := descstr +:+ nl in
  let descstr := descstr +:+ I2 in
  descstr +:+ wrap_longlines (descr e) None I2.

(** ** [retstr] (lines 163-205) *)

(** Lines 165-167. *)
Definition rethdg : string :=
  nl +:+ (I2 +:+ "Returns" +:+ nl) +:+ (I2 +:+ "-------" +:+ nl).

(** ['{}: {}'.format(rn, utils.vb2pytype(rt, rettype='repr'))]. *)
Definition fmt_pair (rn rt : string) : string :=
  rn +:+ ": " +:+ vb2pytype rt "repr".

(** Lines 170-175: the branch of a function. *)
Definition retstr_function (e : ApiEntry) : result string :=
  if bool_decide (returns e ≠ []) then
    '(rname, rtype) ← unpack2 (returns e);
    mret (rethdg +:+ I2 +:+ fmt_pair rname rtype +:+ nl)
  else mret "".

(** Lines 184-189: the values a subroutine returns, the explicit return
    first, then the parameters. *)
Definition sigits_of (e : ApiEntry) : list (list string) :=
  (if Nat.ltb 0 (length (returns e)) then [returns e] else []) ++
  (if Nat.ltb 0 (length (sig e)) then sig e else []).

(** Lines 193-196: the loop that unpacks and formats each value. *)
Definition rstr_of (sigits : list (list string)) : result (list string) :=
  mapM (λ it, '(rn, rt) ← unpack2 it; mret (fmt_pair rn rt)) sigits.

(** Lines 178-201: the branch of a subroutine. *)
Definition retstr_subroutine (e : ApiEntry) : result string :=
  if Nat.ltb 0 (length (sig e)) || Nat.ltb 0 (length (returns e)) then
    let sigits := sigits_of e in
    rstr ← rstr_of sigits;
    mret (rethdg +:+ I2
          +:+ (if Nat.ltb 1 (length sigits) then "[" else "")
          +:+ str_join ", " rstr
          +:+ (if Nat.ltb 1 (length sigits) then "]" else "")
          +:+ nl)
  else mret "".

(** Lines 203-205: the branch of a data structure. *)
Definition retstr_datastruct (cmdname : string) : string :=
  rethdg +:+ I2 +:+ "datastruct: <com_record " +:+ cmdname +:+ ">" +:+ nl.

(** Lines 163-205. *)
Definition retstr_of (cmdname : string) (e : ApiEntry) : result string :=
  if is_function e then retstr_function e
  else if is_subroutine e then retstr_subroutine e
  else if is_datastruct e then mret (retstr_datastruct cmdname)
  else mret "".

(** ** [arglist] (lines 210-217) *)

Definition arglist_of (e : ApiEntry) (paramlist : list string) : list string :=
  (λ li, if is_datastruct e && negb (String.eqb li "self")
         then li +:+ "=None" else li) <$> paramlist.

(** ** What [retstr] needs of a descriptor *)

(** The part of well-formedness that composing [retstr] depends on,
    stated on the descriptor: for a function [returns] is empty or a
    pair; for a subroutine so is [returns], and every item of the
    signature is a pair; any other kind asks for nothing. *)
Definition ret_wf (e : ApiEntry) : bool :=
  if is_function e then wf_returns (returns e)
  else if is_subroutine e
  then wf_returns (returns e) && forallb wf_sigitem (sig e)
  else true.

End composer.

(** ** Concrete runs *)

Example retstr_GetUnits :
  retstr_of "GetUnits" GetUnits =
    Ok (nl +:+ I2 +:+ "Returns" +:+ nl +:+ I2 +:+ "-------" +:+ nl
        +:+ I2 +:+ "Units: str" +:+ nl).
Proof. vm_compute. done. Qed.

Example retstr_SetUnits :
  retstr_of "SetUnits" SetUnits = Ok (rethdg +:+ I2 +:+ "Units: str" +:+ nl).
Proof. vm_compute. done. Qed.

Example retstr_GetTextPosition :
  retstr_of "GetTextPosition" GetTextPosition =
    Ok (rethdg +:+ I2 +:+ "[x: int, pts(): float]" +:+ nl).
Proof. vm_compute. done. Qed.

Example retstr_T_ENTITY :
  retstr_of "T_ENTITY" T_ENTITY =
    Ok (rethdg +:+ I2 +:+ "datastruct: <com_record T_ENTITY>" +:+ nl).
Proof. vm_compute. done. Qed.

Example retstr_BadReturns : retstr_of "Bad" BadReturns = Raise (ValueError 1).
Proof. vm_compute. done. Qed.

Example arglist_T_ENTITY :
  arglist_of T_ENTITY ["self"; "Idnum"; "Name"] =
    ["self"; "Idnum=None"; "Name=None"].
Proof. vm_compute. done. Qed.

(** ** Lemmas on the indentation *)

Lemma I1_length : String.length I1 = 4.
Proof. done. Qed.

Lemma I2_length : String.length I2 = 8.
Proof. done. Qed.

Lemma I3_length : String.length I3 = 12.
Proof. done. Qed.

(** ** The return section *)

Section composer_lemmas.
Context `{U : Utils}.
Implicit Types (e : ApiEntry) (cmdname : string).

Lemma rstr_of_wf sigits :
  forallb wf_sigitem sigits = true →
  rstr_of sigits = Ok ((λ it, fmt_pair (sig_pair it).1 (sig_pair it).2) <$> sigits).
Proof.
  intros Hwf. apply result_mapM_total, Forall_forall. intros it Hit.
  by apply (forallb_elem_of _ _ _ Hwf) in Hit as (n & t & ->)%wf_sigitem_spec.
Qed.

Lemma rstr_of_is_Ok sigits :
  is_Ok (rstr_of sigits) ↔ forallb wf_sigitem sigits = true.
Proof.
  split; [|intros ?%rstr_of_wf; by eexists].
  unfold rstr_of. induction sigits as [|it l IH]; [done|]. simpl.
  destruct (unpack2 it) as [[rn rt]|] eqn:Hit; simpl; [|by intros [? ?]].
  apply unpack2_Ok in Hit as ->. simpl.
  destruct (mapM _ l); simpl; [|by intros [? ?]].
  intros _. apply IH. by eexists.
Qed.

(** The first item that does not unpack decides the exception. *)
Lemma rstr_of_Raise sigits (x : exn) :
  rstr_of sigits = Raise x →
  ∃ l1 it l2, sigits = l1 ++ it :: l2 ∧ forallb wf_sigitem l1 = true ∧
    length it ≠ 2 ∧ x = ValueError (length it).
Proof.
  unfold rstr_of. revert x. induction sigits as [|it l IH]; intros x; [done|].
  simpl. destruct (unpack2 it) as [[rn rt]|x'] eqn:Hit; simpl.
  - apply unpack2_Ok in Hit as ->.
    destruct (mapM _ l) as [|x'] eqn:Hl; simpl; [done|]. intros [= <-].
    destruct (IH _ eq_refl) as (l1 & it & l2 & -> & ? & ? & ?).
    by exists ([rn; rt] :: l1), it, l2.
  - intros [= <-]. apply unpack2_Raise in Hit as [? ->].
    by exists [], it, l.
Qed.

Lemma retstr_function_is_Ok e :
  is_Ok (retstr_function e) ↔ wf_returns (returns e) = true.
Proof.
  unfold retstr_function, wf_returns.
  destruct (returns e) as [|? [|? [|? ?]]]; case_bool_decide; simpl;
    split; try done; solve_is_Ok.
Qed.

Lemma retstr_subroutine_is_Ok_sigits e :
  is_Ok (retstr_subroutine e) ↔ forallb wf_sigitem (sigits_of e) = true.
Proof.
  unfold retstr_subroutine.
  destruct (Nat.ltb 0 (length (sig e)) || Nat.ltb 0 (length (returns e)))
    eqn:Hne.
  - rw -rstr_of_is_Ok. destruct (rstr_of _); simpl; split; solve_is_Ok.
  - split; [intros _|solve_is_Ok]. unfold sigits_of.
    by apply orb_false_iff in Hne as [-> ->].
Qed.

(** The values of lines 184-189 unpack exactly when [returns] is empty or
    a pair and every item of the signature is a pair. *)
Lemma forallb_sigits_of e :
  forallb wf_sigitem (sigits_of e)
    = wf_returns (returns e) && forallb wf_sigitem (sig e).
Proof.
  unfold sigits_of, wf_returns, wf_sigitem.
  destruct (returns e) as [|? [|? [|? ?]]], (sig e); simpl;
    by rw ?andb_true_r ?andb_false_r.
Qed.

Lemma retstr_subroutine_is_Ok e :
  is_Ok (retstr_subroutine e)
    ↔ wf_returns (returns e) && forallb wf_sigitem (sig e) = true.
Proof. by rw retstr_subroutine_is_Ok_sigits forallb_sigits_of. Qed.

(** [ret_wf] decides whether composing the return section raises. *)
Lemma is_Okb_retstr_of cmdname e : is_Okb (retstr_of cmdname e) = ret_wf e.
Proof.
  unfold retstr_of, ret_wf.
  destruct (is_function e); [apply is_Okb_iff, retstr_function_is_Ok|].
  destruct (is_subroutine e); [apply is_Okb_iff, retstr_subroutine_is_Ok|].
  by destruct (is_datastruct e).
Qed.

(** C8. Composing the return section succeeds exactly on the descriptors
    in which, for a function, [returns] is empty or a pair and, for a
    subroutine, [returns] is empty or a pair and every item of the
    signature is a pair; for any other kind it always succeeds. *)
Theorem retstr_of_is_Ok cmdname e :
  is_Ok (retstr_of cmdname e) ↔ ret_wf e = true.
Proof. by rw -is_Okb_spec is_Okb_retstr_of. Qed.

(** C27. A function whose [returns] is neither empty nor a pair makes the
    script raise [ValueError] at the assignment [rname, rtype = rlist]
    (line 173): a descriptor of inconsistent return arity is not turned
    into text. *)
Theorem retstr_function_bad_arity cmdname e :
  is_function e = true →
  length (returns e) ≠ 0 → length (returns e) ≠ 2 →
  retstr_of cmdname e = Raise (ValueError (length (returns e))).
Proof.
  intros Hf H0 H2. unfold retstr_of, retstr_function. rw Hf.
  rw bool_decide_eq_true_2; [by destruct (returns e)|].
  by destruct (returns e) as [|? [|? [|? ?]]].
Qed.

End composer_lemmas.

Lemma retstr_function_bad_arity_witness :
  retstr_of "Bad" BadReturns = Raise (ValueError (length (returns BadReturns))).
Proof. by apply retstr_function_bad_arity. Defined.

(** ** The argument list *)

Section arglist.
Implicit Types (e : ApiEntry) (names : list string).

Lemma arglist_of_length e names : length (arglist_of e names) = length names.
Proof. unfold arglist_of. by rw length_fmap. Qed.

(** For a command that is not a data structure the argument list of
    the header is [paramlist] itself: every parameter is required. *)
Theorem arglist_of_required e names :
  is_datastruct e = false → arglist_of e names = names.
Proof. intros He. unfold arglist_of. rw He /=. apply list_fmap_id. Qed.

Lemma arglist_of_required_witness :
  arglist_of SetUnits ["self"; "Units"] = ["self"; "Units"].
Proof. by apply arglist_of_required. Defined.

(** C33. For a data structure every entry of [paramlist] other than the
    string ["self"] carries the default [=None]; an entry equal to
    ["self"] carries none, the receiver and any parameter whose stripped
    name is [self] alike. *)
Theorem arglist_of_datastruct e names :
  is_datastruct e = true →
  arglist_of e names =
    (λ li, if decide (li = "self") then li else li +:+ "=None") <$> names.
Proof.
  intros He. unfold arglist_of. rw He /=. apply list_fmap_ext.
  intros _ li _. destruct (String.eqb_spec li "self"); by case_decide.
Qed.

Lemma arglist_of_datastruct_witness :
  arglist_of T_ENTITY ["self"; "Idnum"; "Name"] =
    (λ li, if decide (li = "self") then li else li +:+ "=None")
      <$> ["self"; "Idnum"; "Name"].
Proof. by apply arglist_of_datastruct. Defined.

(** A data structure with a field named [self()] gets a header with two
    parameters [self], and the field has no default. *)
Example arglist_self_field :
  arglist_of T_ENTITY ["self"; PARMAT_sub "self()"] = ["self"; "self"].
Proof. vm_compute. done. Qed.

End arglist.
