(* ===== verification/Emitter.v ===== *)
(** * The wrapper emitter

    The [fid.write] calls of the script for one command, in the order of
    lines 206 and 219-264: the separator, the [def] line, the docstring
    with its parameter and return sections, and the body, which is the
    construction of a record for a data structure and the call of a stub
    for anything else. *)

From S2P Require Import Prelude Regex Extern Descriptor Sink.
From S2P Require Import Normalizer Composer.

Section emitter.
Context `{B : Blank} `{U : Utils}.

(** Line 206. *)
Definition separator : string :=
  I1 +:+ "# " +:+ "=-" *: 36 +:+ "=" +:+ nl.

(** Lines 219-220. *)
Definition write_def (cmdname : string) (arglist : list string) : M unit :=
  fid_write (I1 +:+ "def " +:+ cmdname +:+ "("
             +:+ wrap_longlines (str_join ", " arglist) (Some 50) (" " *: 12)
             +:+ "):" +:+ nl).

(** Lines 230-233: one line of the parameter section. *)
Definition write_param_line (d : Dicts) (it : list string) : M unit :=
  '(par, typ) ← lift (unpack2 it);
  let paramdoc := vb2pytype typ "repr" in
  np ← lift (dict_get (newparams d) par);
  an ← lift (dict_get (annots d) par);
  fid_write (I2 +:+ np +:+ ": " +:+ an +:+ paramdoc +:+ nl).

(** Lines 227-233; [params] holds the receiver at its head. *)
Definition write_parameters (params : list string) (d : Dicts)
    (sigitems : list (list string)) : M unit :=
  if Nat.ltb 0 (length (tail params)) then
    fid_write (I2 +:+ "Parameters" +:+ nl) ;;
    fid_write (I2 +:+ "----------" +:+ nl) ;;
    for_each sigitems (write_param_line d)
  else mret tt.

(** Lines 221-239: the docstring. *)
Definition write_docstring (descstr : string) (params : list string)
    (d : Dicts) (sigitems : list (list string)) (retstr docstr : string)
    : M unit :=
  fid_write (I2 +:+ "r" +:+ dq +:+ dq +:+ dq +:+ nl) ;;
  fid_write (I2 +:+ "Python API documentation:" +:+ nl) ;;
  fid_write (I2 +:+ "=========================" +:+ nl) ;;
  fid_write (I2 +:+ descstr +:+ nl) ;;
  fid_write nl ;;
  write_parameters params d sigitems ;;
  fid_write retstr ;;
  fid_write nl ;;
  fid_write (I2 +:+ "FRED documentation:" +:+ nl) ;;
  fid_write (I2 +:+ "===================" +:+ nl) ;;
  fid_write docstr ;;
  fid_write (I2 +:+ dq +:+ dq +:+ dq +:+ nl).

(** Lines 248-250: the conditional assignment of one field. *)
Definition write_setattr (p : string) : M unit :=
  fid_write (I2 +:+ "if " +:+ p +:+ " is not None:" +:+ nl) ;;
  fid_write (I2 +:+ I1 +:+ "setattr(dstruct, " +:+ dq +:+ p +:+ dq +:+ ", "
             +:+ p +:+ ")" +:+ nl).

(** Lines 243-251: the body of a data structure. *)
Definition write_body_datastruct (cmdname : string) (paramlist : list string)
    : M unit :=
  fid_write (I2 +:+ "dstruct = w32.Record(" +:+ dq +:+ cmdname +:+ dq
             +:+ ", self._dobj)" +:+ nl) ;;
  for_each (tail paramlist) write_setattr ;;
  fid_write (I2 +:+ "return dstruct" +:+ nl).

(** Lines 254-259: the arguments of the stub call. *)
Definition paramstr_of (paramlist : list string) : string :=
  let paramstr :=
    wrap_longlines (str_join ", " (tail paramlist)) (Some 50) (" " *: 12) in
  if String.eqb paramstr "" then "None" else paramstr.

(** Line 260. *)
Definition stubpath_of (cmdname : string) : string :=
  os_path_join STUBDIR (cmdname +:+ ".frs").

(** Lines 254-264: the body of a function or a subroutine. *)
Definition write_body_stub (cmdname : string) (paramlist : list string)
    : M unit :=
  let paramstr := paramstr_of paramlist in
  let stubpath := stubpath_of cmdname in
  fid_write (I2 +:+ "lib = self._dobj.CreateLib(r" +:+ dq +:+ stubpath +:+ dq
             +:+ ")" +:+ nl) ;;
  fid_write (I2 +:+ "return lib.libfunct(" +:+ paramstr +:+ ")" +:+ nl).

(** Lines 242-264. *)
Definition write_body (e : ApiEntry) (cmdname : string)
    (paramlist : list string) : M unit :=
  if is_datastruct e then write_body_datastruct cmdname paramlist
  else write_body_stub cmdname paramlist.

(** ** What is written, as a list of chunks *)

(** The line of one parameter, from its raw name and type. *)
Definition param_line (it : list string) : string :=
  I2 +:+ PARMAT_sub (sig_pair it).1 +:+ ": " +:+ annot_of (sig_pair it).1
     +:+ vb2pytype (sig_pair it).2 "repr" +:+ nl.

(** The parameter section of a signature. *)
Definition parameters_chunks (sigitems : list (list string)) : list string :=
  match sigitems with
  | [] => []
  | _ => [I2 +:+ "Parameters" +:+ nl; I2 +:+ "----------" +:+ nl]
           ++ (param_line <$> sigitems)
  end.

Definition setattr_chunks (p : string) : list string :=
  [I2 +:+ "if " +:+ p +:+ " is not None:" +:+ nl;
   I2 +:+ I1 +:+ "setattr(dstruct, " +:+ dq +:+ p +:+ dq +:+ ", "
      +:+ p +:+ ")" +:+ nl].

(** The body of the wrapper of [e]. *)
Definition body_chunks (e : ApiEntry) (cmdname : string)
    (paramlist : list string) : list string :=
  if is_datastruct e then
    [I2 +:+ "dstruct = w32.Record(" +:+ dq +:+ cmdname +:+ dq
        +:+ ", self._dobj)" +:+ nl]
    ++ flat_map setattr_chunks (tail paramlist)
    ++ [I2 +:+ "return dstruct" +:+ nl]
  else
    [I2 +:+ "lib = self._dobj.CreateLib(r" +:+ dq +:+ stubpath_of cmdname
        +:+ dq +:+ ")" +:+ nl;
     I2 +:+ "return lib.libfunct(" +:+ paramstr_of paramlist +:+ ")" +:+ nl].

End emitter.

(** ** Concrete runs *)

Example write_body_T_ENTITY :
  written (exec (write_body T_ENTITY "T_ENTITY" ["self"; "Idnum"; "Name"])).2 =
    [I2 +:+ "dstruct = w32.Record(" +:+ dq +:+ "T_ENTITY" +:+ dq +:+ ", self._dobj)" +:+ nl;
     I2 +:+ "if Idnum is not None:" +:+ nl;
     I2 +:+ I1 +:+ "setattr(dstruct, " +:+ dq +:+ "Idnum" +:+ dq +:+ ", Idnum)" +:+ nl;
     I2 +:+ "if Name is not None:" +:+ nl;
     I2 +:+ I1 +:+ "setattr(dstruct, " +:+ dq +:+ "Name" +:+ dq +:+ ", Name)" +:+ nl;
     I2 +:+ "return dstruct" +:+ nl].
Proof. vm_compute. done. Qed.

Example write_body_GetUnits :
  written (exec (write_body GetUnits "GetUnits" ["self"])).2 =
    [I2 +:+ "lib = self._dobj.CreateLib(r" +:+ dq +:+ "stubs/GetUnits.frs" +:+ dq +:+ ")" +:+ nl;
     I2 +:+ "return lib.libfunct(None)" +:+ nl].
Proof. vm_compute. done. Qed.

(** ** The emitter only appends *)

Section emitter_appends.
Context `{B : Blank} `{U : Utils}.

#[global] Instance write_def_appends c a : Appends (write_def c a).
Proof. unfold write_def. apply _. Qed.

#[global] Instance write_param_line_appends d it :
  Appends (write_param_line d it).
Proof. unfold write_param_line. apply appends_bind; [apply _|]. intros []. apply _. Qed.

#[global] Instance write_parameters_appends ps d l :
  Appends (write_parameters ps d l).
Proof. unfold write_parameters. apply _. Qed.

#[global] Instance write_docstring_appends ds ps d l r doc :
  Appends (write_docstring ds ps d l r doc).
Proof. unfold write_docstring. apply _. Qed.

#[global] Instance write_setattr_appends p : Appends (write_setattr p).
Proof. unfold write_setattr. apply _. Qed.

#[global] Instance write_body_appends e c pl : Appends (write_body e c pl).
Proof.
  unfold write_body, write_body_datastruct, write_body_stub. apply _.
Qed.

(** The emitter prints nothing. *)
#[global] Instance write_def_quiet c a : Quiet (write_def c a).
Proof. unfold write_def. apply _. Qed.

#[global] Instance write_param_line_quiet d it :
  Quiet (write_param_line d it).
Proof.
  unfold write_param_line. apply quiet_bind; [apply _|]. intros []. apply _.
Qed.

#[global] Instance write_docstring_quiet ds ps d l r doc :
  Quiet (write_docstring ds ps d l r doc).
Proof. unfold write_docstring, write_parameters. apply _. Qed.

#[global] Instance write_body_quiet e c pl : Quiet (write_body e c pl).
Proof.
  unfold write_body, write_body_datastruct, write_body_stub, write_setattr.
  apply _.
Qed.

End emitter_appends.

(** ** What the emitter writes *)

Section emitter_lemmas.
Context `{B : Blank} `{U : Utils}.
Implicit Types (st : Sink) (d : Dicts) (params : list string).

Lemma runM_write_setattr p st :
  runM (write_setattr p) st = (Ok tt, sink_write st (setattr_chunks p)).
Proof. unfold write_setattr. by autorewrite with pysink. Qed.

(** The loop of lines 247-250 writes the three chunks of each field. *)
Lemma runM_setattr_loop fields st :
  runM (for_each fields write_setattr) st =
    (Ok tt, sink_write st (flat_map setattr_chunks fields)).
Proof. apply for_each_writes. intros. apply runM_write_setattr. Qed.

Lemma write_body_chunks e cmdname paramlist st :
  runM (write_body e cmdname paramlist) st =
    (Ok tt, sink_write st (body_chunks e cmdname paramlist)).
Proof.
  unfold write_body, body_chunks, write_body_datastruct, write_body_stub.
  destruct (is_datastruct e); [|by autorewrite with pysink].
  rw runM_bind_write runM_bind runM_setattr_loop. by autorewrite with pysink.
Qed.

(** C34. The body of a data structure constructs the record, then holds
    one conditional [setattr] per entry of [paramlist] after the receiver,
    in order, and returns the record. *)
Theorem write_body_datastruct_chunks cmdname paramlist st :
  runM (write_body_datastruct cmdname paramlist) st =
    (Ok tt,
     sink_write st
       ([I2 +:+ "dstruct = w32.Record(" +:+ dq +:+ cmdname +:+ dq
           +:+ ", self._dobj)" +:+ nl]
        ++ flat_map setattr_chunks (tail paramlist)
        ++ [I2 +:+ "return dstruct" +:+ nl])).
Proof.
  unfold write_body_datastruct.
  rw runM_bind_write runM_bind runM_setattr_loop. by autorewrite with pysink.
Qed.

Lemma write_parameters_nil r d sigitems :
  write_parameters [r] d sigitems = mret tt.
Proof. done. Qed.

Lemma write_parameters_pos r params d sigitems :
  params ≠ [] →
  write_parameters (r :: params) d sigitems =
    (fid_write (I2 +:+ "Parameters" +:+ nl) ;;
     fid_write (I2 +:+ "----------" +:+ nl) ;;
     for_each sigitems (write_param_line d)).
Proof. by destruct params. Qed.

Lemma params_of_wf_names sigitems params :
  forallb wf_sigitem sigitems = true → params_of sigitems = Ok params →
  params = (λ it, (sig_pair it).1) <$> sigitems.
Proof.
  intros Hwf Hp. unfold params_of in Hp.
  rw (result_mapM_total index0 (λ it, (sig_pair it).1)) in Hp; [|congruence].
  apply Forall_forall. intros it Hit.
  by apply wf_sigitem_index0, (forallb_elem_of _ _ _ Hwf).
Qed.

Lemma runM_write_param_line params it st :
  wf_sigitem it = true → (sig_pair it).1 ∈ params →
  runM (write_param_line (add_self params (normalize params)).2 it) st =
    (Ok tt, sink_write st [param_line it]).
Proof.
  intros (n & t & ->)%wf_sigitem_spec Hin. unfold write_param_line.
  destruct (normalize_lookup_ok params n Hin) as [H1 H2]. simpl in H1, H2.
  by rw runM_bind_lift /= H1 H2.
Qed.

(** The loop of lines 230-233 over items that are pairs and whose names
    the dicts know: one line each. *)
Lemma runM_param_loop params l st :
  forallb wf_sigitem l = true →
  (λ it, (sig_pair it).1) <$> l ⊆ params →
  runM (for_each l (write_param_line (add_self params (normalize params)).2))
    st = (Ok tt, sink_write st (param_line <$> l)).
Proof.
  intros Hwf Hsub. rw (for_each_writes _ _ (λ it, [param_line it])).
  { intros x st' Hx. apply runM_write_param_line.
    - by apply (forallb_elem_of _ _ _ Hwf).
    - by apply Hsub, (list_elem_of_fmap_2 (λ it, (sig_pair it).1)). }
  by rw flat_map_singleton.
Qed.

Lemma runM_write_parameters sigitems params st :
  forallb wf_sigitem sigitems = true → params_of sigitems = Ok params →
  runM (write_parameters ("self" :: params)
          (add_self params (normalize params)).2 sigitems) st =
    (Ok tt, sink_write st (parameters_chunks sigitems)).
Proof.
  intros Hwf Hp. pose proof (params_of_wf_names _ _ Hwf Hp) as ->.
  destruct sigitems as [|it l]; [by rw sink_write_nil|].
  rw write_parameters_pos // !runM_bind_write runM_param_loop //.
  by rw !sink_write_write.
Qed.

(** A signature with an item that is not a pair: the loop stops there. *)
Lemma runM_write_parameters_bad l1 it l2 params st :
  forallb wf_sigitem l1 = true → length it ≠ 2 →
  params_of (l1 ++ it :: l2) = Ok params →
  runM (write_parameters ("self" :: params)
          (add_self params (normalize params)).2 (l1 ++ it :: l2)) st =
    (Raise (ValueError (length it)),
     sink_write st
       ([I2 +:+ "Parameters" +:+ nl; I2 +:+ "----------" +:+ nl]
          ++ (param_line <$> l1))).
Proof.
  intros Hwf Hit Hp.
  destruct (params_of_app _ _ _ Hp)
    as (k1 & k2 & ->%(params_of_wf_names _ _ Hwf) & Hk2 & ->).
  rw write_parameters_pos.
  { apply params_of_length in Hk2. destruct k2; [done|]. by destruct l1. }
  rw !runM_bind_write for_each_app runM_bind runM_param_loop //.
  { intros x Hx. by apply elem_of_app; left. }
  rw for_each_cons runM_bind /write_param_line runM_bind_lift unpack2_bad //.
  by rw !sink_write_write.
Qed.

(** On a signature whose items are pairs the parameter section is
    absent when the signature is empty, and otherwise the heading followed
    by one line per parameter, in order, with the stripped name, the
    array annotation and the translated type. *)
Theorem write_parameters_wf sigitems params st :
  forallb wf_sigitem sigitems = true → params_of sigitems = Ok params →
  runM (write_parameters ("self" :: params)
          (add_self params (normalize params)).2 sigitems) st =
    (Ok tt, sink_write st (parameters_chunks sigitems)).
Proof. apply runM_write_parameters. Qed.

(** C28. An item of the signature that is not a pair makes the script
    raise [ValueError] in the loop of line 230, after the heading of the
    parameter section and the lines of the items before it were written:
    the file is left with a wrapper cut off in its docstring. *)
Theorem write_parameters_bad l1 it l2 params st :
  forallb wf_sigitem l1 = true → length it ≠ 2 →
  params_of (l1 ++ it :: l2) = Ok params →
  runM (write_parameters ("self" :: params)
          (add_self params (normalize params)).2 (l1 ++ it :: l2)) st =
    (Raise (ValueError (length it)),
     sink_write st
       ([I2 +:+ "Parameters" +:+ nl; I2 +:+ "----------" +:+ nl]
          ++ (param_line <$> l1))).
Proof. apply runM_write_parameters_bad. Qed.

End emitter_lemmas.

Lemma write_parameters_bad_witness :
  runM (write_parameters ("self" :: ["x"; "y"])
          (add_self ["x"; "y"] (normalize ["x"; "y"])).2
          ([["x"; "Long"]] ++ ["y"] :: [])) sink_empty =
    (Raise (ValueError (length ["y"])),
     sink_write sink_empty
       ([I2 +:+ "Parameters" +:+ nl; I2 +:+ "----------" +:+ nl]
          ++ (param_line <$> [["x"; "Long"]]))).
Proof. by apply write_parameters_bad. Defined.

Lemma write_parameters_wf_witness :
  runM (write_parameters ("self" :: ["x"; "pts()"])
          (add_self ["x"; "pts()"] (normalize ["x"; "pts()"])).2
          (sig GetTextPosition)) sink_empty =
    (Ok tt, sink_write sink_empty (parameters_chunks (sig GetTextPosition))).
Proof. by apply write_parameters_wf. Defined.

(** ** The arguments of the stub call *)

Section stub.
Context `{B : Blank} `{U : Utils} `{!UtilsLaws U}.

(** The argument text, by cases on the stripped names. *)
Lemma paramstr_of_eq paramlist :
  paramstr_of paramlist =
    if decide (tail paramlist = [] ∨ tail paramlist = [""]) then "None"
    else wrap_longlines (str_join ", " (tail paramlist)) (Some 50) (" " *: 12).
Proof.
  unfold paramstr_of. set (j := str_join ", " (tail paramlist)).
  set (w := wrap_longlines j _ _).
  assert (w = "" ↔ j = "") as Hw.
  { split; [|intros ->; apply wrap_longlines_nil].
    intros Hw. destruct (decide (j = "")) as [|Hne]; [done|].
    by apply (wrap_longlines_nonnil _ (Some 50) (" " *: 12)) in Hne. }
  rw (str_join_eq_nil ", " (tail paramlist)) // in Hw.
  destruct (String.eqb_spec w "") as [Heq|Hne].
  - by rw decide_True // -Hw.
  - by rw decide_False // -Hw.
Qed.

(** C35. The stub is never called with an empty argument list: the
    argument text is [None] when the command has no parameter (or one
    parameter whose stripped name is empty), and the wrapped list of the
    stripped names otherwise. *)
Theorem paramstr_of_spec paramlist :
  paramstr_of paramlist ≠ "" ∧
  paramstr_of paramlist =
    if decide (tail paramlist = [] ∨ tail paramlist = [""]) then "None"
    else wrap_longlines (str_join ", " (tail paramlist)) (Some 50) (" " *: 12).
Proof.
  split; [|apply paramstr_of_eq]. rw paramstr_of_eq.
  case_decide as Hc; [done|]. apply wrap_longlines_nonnil.
  by rw str_join_eq_nil.
Qed.

End stub.

Lemma paramstr_of_spec_witness :
  paramstr_of ["self"] ≠ "" ∧
  paramstr_of ["self"] =
    if decide (tail ["self"] = [] ∨ tail ["self"] = [""]) then "None"
    else wrap_longlines (str_join ", " (tail ["self"])) (Some 50) (" " *: 12).
Proof. apply (paramstr_of_spec (U := ref_utils)). Defined.
