(* ===== verification/Generator.v ===== *)
(** * The generator: one command, the loop, and [main]

    [wrap_command] is the body of the loop of line 132 (lines 133-264),
    composed from the normalizer, the composer and the emitter in the
    order of the script, with the lookups that can raise where the script
    has them.  [main] is the statements of the script's [main] on the
    open file (lines 130-264): it writes the class header [CLASTR]
    (lines 44-97) and runs the loop over the command names.  The reads
    before them and the close after them are in [Script]. *)

From S2P Require Import Prelude Regex Extern Descriptor Sink.
From S2P Require Import Normalizer Composer Emitter.

(** ** The class header (lines 44-97) *)

(** The lines of the literal; [TIMENOW] (line 38) fills its one field. *)
Definition CLASTR_lines (TIMENOW : string) : list string :=
  ["#! /usr/bin/env python";
   "# -*- coding: utf-8 -*-";
   dq +:+ dq +:+ dq;
   "Provide class to wrap all available FRED commands";
   "===============================================================================";
   "Copyright 2017, Arthur Davis";
   "Email: art.davis@gmail.com";
   "This file is part of pyfred. See LICENSE and README.md for details.";
   "----------";
   "";
   TIMENOW +:+ " - File generated";
   "";
   "WARNING - This file is automatically generated by script03_apiwrapgen.py.";
   "Customizing functions here will override intended API function.";
   "Also any changes will be lost the next time script03_apiwrapgen.py is run.";
   "";
   dq +:+ dq +:+ dq;
   "try:";
   "    import win32com.client as w32";
   "except:";
   "    # Load a dummy";
   "    print(" +:+ dq +:+ "WARNING: win32com not available. Loading dummy library." +:+ dq +:+ ")";
   "    from w32dummy import WinMethods";
   "    w32 = WinMethods()";
   "";
   "class Wrap(object):";
   "    " +:+ dq +:+ dq +:+ dq;
   "    Class for wrapping all of the FRED functions, subroutines and";
   "    datastructures in one place with a consistent API and minimal quirks.";
   "";
   "    Using this class for FRED programming may not be the most efficient";
   "    computationally, but it does provide an easier transition for";
   "    controlling FRED through python then just using the raw win32com API.";
   "";
   "    Quirks that are caused by problematic parameter passing through the";
   "    w32 API and/or inconsistent return structures are averted by wrapping";
   "    all functions/subroutines with CreateLib().";
   "";
   "    Also quite handy to have around for quick access to documentation when";
   "    using IPython.";
   "";
   "    If imported into the global namespace, allows writing scripts that are";
   "    nearly execution compatible with native FRED VBScript.";
   "    " +:+ dq +:+ dq +:+ dq;
   "    def __init__(self, dobj):";
   "        self._dobj = dobj";
   "";
   "    @property";
   "    def dobj(self):";
   "        " +:+ dq +:+ dq +:+ dq;
   "        Attribute property for the FRED COM Interface document object";
   "        " +:+ dq +:+ dq +:+ dq;
   "        return self._dobj"].

Definition CLASTR (TIMENOW : string) : string :=
  str_concat ((λ l, l +:+ nl) <$> CLASTR_lines TIMENOW).

Section generator.
Context `{B : Blank} `{U : Utils}.

(** ** One command (lines 133-264) *)

Definition wrap_command (apidat : ApiStore) (docdat : DocStore)
    (cmdname : string) : M unit :=
  e ← lift (dict_get apidat cmdname);
  if is_unknown e then
    print ("... unknown command: " +:+ cmdname +:+ ". SKIPPING")
  else
    print ("... wrapping " +:+ cmdname) ;;
    let descstr := descstr_of cmdname e in
    let sigitems := sig e in
    params ← lift (params_of sigitems);
    let d := normalize params in
    doc ← lift (dict_get docdat cmdname);
    let docstr := fmt_docstr doc I2 in
    retstr ← lift (retstr_of cmdname e);
    fid_write separator ;;
    let '(params, d) := add_self params d in
    paramlist ← lift (paramlist_of d params);
    let arglist := arglist_of e paramlist in
    write_def cmdname arglist ;;
    write_docstring descstr params d sigitems retstr docstr ;;
    write_body e cmdname paramlist.

(** ** The loop (line 132) and [main] (lines 130-264) *)

Definition main_loop (apidat : ApiStore) (docdat : DocStore)
    (cmdnames : list string) : M unit :=
  for_each cmdnames (wrap_command apidat docdat).

(** [cmdnames] is [apidat.keys()] in the order the dict yields them. *)
Definition main (TIMENOW : string) (apidat : ApiStore) (docdat : DocStore)
    (cmdnames : list string) : M unit :=
  fid_write (CLASTR TIMENOW) ;;
  print (nl +:+ "Wrapping commands in python...") ;;
  main_loop apidat docdat cmdnames.

(** [cmdnames] lists the keys of [apidat], each once. *)
Definition keys_of (apidat : ApiStore) (cmdnames : list string) : Prop :=
  NoDup cmdnames ∧ ∀ c, c ∈ cmdnames ↔ is_Some (apidat !! c).

(** ** What a descriptor must satisfy for its wrapper to be written *)

(** Every item of the signature is a pair, and the returned values
    unpack. *)
Definition cmd_ok (e : ApiEntry) : bool :=
  forallb wf_sigitem (sig e) && ret_wf e.

(** The return section of a descriptor whose returned values unpack. *)
Definition ret_section (cmdname : string) (e : ApiEntry) : string :=
  match retstr_of cmdname e with
  | Ok r => r
  | Raise _ => ""
  end.

(** [paramlist] as a function of the signature. *)
Definition paramlist_for (e : ApiEntry) : list string :=
  "self" :: (PARMAT_sub <$> ((λ it, (sig_pair it).1) <$> sig e)).

(** The chunks of the wrapper of a descriptor on which nothing raises. *)
Definition wrapper_chunks (cmdname : string) (e : ApiEntry) (doc : Doc)
    : list string :=
  [separator;
   I1 +:+ "def " +:+ cmdname +:+ "("
     +:+ wrap_longlines (str_join ", " (arglist_of e (paramlist_for e)))
           (Some 50) (" " *: 12)
     +:+ "):" +:+ nl;
   I2 +:+ "r" +:+ dq +:+ dq +:+ dq +:+ nl;
   I2 +:+ "Python API documentation:" +:+ nl;
   I2 +:+ "=========================" +:+ nl;
   I2 +:+ descstr_of cmdname e +:+ nl;
   nl]
  ++ parameters_chunks (sig e)
  ++ [ret_section cmdname e;
      nl;
      I2 +:+ "FRED documentation:" +:+ nl;
      I2 +:+ "===================" +:+ nl;
      fmt_docstr doc I2;
      I2 +:+ dq +:+ dq +:+ dq +:+ nl]
  ++ body_chunks e cmdname (paramlist_for e).

(** The line [print] shows for a command. *)
Definition log_line (apidat : ApiStore) (cmdname : string) : string :=
  match apidat !! cmdname with
  | Some e =>
      if is_unknown e
      then "... unknown command: " +:+ cmdname +:+ ". SKIPPING"
      else "... wrapping " +:+ cmdname
  | None => ""
  end.

(** What the run writes for a command of stores on which nothing raises. *)
Definition command_chunks (apidat : ApiStore) (docdat : DocStore)
    (cmdname : string) : list string :=
  match apidat !! cmdname, docdat !! cmdname with
  | Some e, Some doc => if is_unknown e then [] else wrapper_chunks cmdname e doc
  | _, _ => []
  end.

(** The commands on which [wrap_command] does not raise. *)
Definition command_ok (apidat : ApiStore) (docdat : DocStore)
    (cmdname : string) : bool :=
  match apidat !! cmdname with
  | None => false
  | Some e =>
      is_unknown e || (cmd_ok e && bool_decide (is_Some (docdat !! cmdname)))
  end.

End generator.

(** ** The stores of the specification's scenarios *)

Definition scenario_apidat : ApiStore :=
  <["GetUnits" := GetUnits]> (<["SetUnits" := SetUnits]>
  (<["T_ENTITY" := T_ENTITY]> (<["Foo" := Foo]> ∅))).

Definition scenario_docdat : DocStore :=
  <["GetUnits" := [("Description", "Returns the units.")]]>
  (<["SetUnits" := []]> (<["T_ENTITY" := []]> ∅)).

Definition scenario_cmdnames : list string :=
  ["GetUnits"; "Foo"; "SetUnits"; "T_ENTITY"].

(** ** Concrete runs *)

Example wrap_GetUnits :
  file_text (exec (wrap_command scenario_apidat scenario_docdat "GetUnits")).2 =
    I1 +:+ "# =-=-=-=-=-=-=-=-=-=-=-=-=-=-=-=-=-=-=-=-=-=-=-=-=-=-=-=-=-=-=-=-=-=-=-=-=" +:+ nl
    +:+ I1 +:+ "def GetUnits(self):" +:+ nl
    +:+ I2 +:+ "r" +:+ dq +:+ dq +:+ dq +:+ nl
    +:+ I2 +:+ "Python API documentation:" +:+ nl
    +:+ I2 +:+ "=========================" +:+ nl
    +:+ I2 +:+ "Wrapper for FRED GetUnits FUNCTION." +:+ nl
    +:+ I2 +:+ "Requires all parameters to be set when invoked." +:+ nl
    +:+ nl
    +:+ I2 +:+ "Gets the units." +:+ nl
    +:+ nl
    +:+ nl
    +:+ I2 +:+ "Returns" +:+ nl
    +:+ I2 +:+ "-------" +:+ nl
    +:+ I2 +:+ "Units: str" +:+ nl
    +:+ nl
    +:+ I2 +:+ "FRED documentation:" +:+ nl
    +:+ I2 +:+ "===================" +:+ nl
    +:+ I2 +:+ "Description" +:+ nl
    +:+ I2 +:+ "Returns the units." +:+ nl
    +:+ I2 +:+ dq +:+ dq +:+ dq +:+ nl
    +:+ I2 +:+ "lib = self._dobj.CreateLib(r" +:+ dq +:+ "stubs/GetUnits.frs" +:+ dq +:+ ")" +:+ nl
    +:+ I2 +:+ "return lib.libfunct(None)" +:+ nl.
Proof. vm_compute. done. Qed.

Example wrap_Foo :
  exec (wrap_command scenario_apidat scenario_docdat "Foo") =
    (Ok tt, {| written := [];
               printed := ["... unknown command: Foo. SKIPPING"] |}).
Proof. vm_compute. done. Qed.

Example main_scenario_log :
  printed (exec (main "2017-01-01 00:00:00" scenario_apidat scenario_docdat
                   scenario_cmdnames)).2 =
    [nl +:+ "Wrapping commands in python...";
     "... wrapping GetUnits";
     "... unknown command: Foo. SKIPPING";
     "... wrapping SetUnits";
     "... wrapping T_ENTITY"].
Proof. vm_compute. done. Qed.

(** A command with no documentation block: the run stops with [KeyError]. *)
Example wrap_no_doc :
  exec (wrap_command scenario_apidat (delete "SetUnits" scenario_docdat)
          "SetUnits") =
    (Raise (KeyError "SetUnits"),
     {| written := []; printed := ["... wrapping SetUnits"] |}).
Proof. vm_compute. done. Qed.

(** ** The generator only appends *)

Section generator_appends.
Context `{B : Blank} `{U : Utils}.

#[global] Instance wrap_command_appends apidat docdat c :
  Appends (wrap_command apidat docdat c).
Proof.
  unfold wrap_command. apply appends_bind; [apply _|]. intros e.
  destruct (is_unknown e); apply _.
Qed.

#[global] Instance main_loop_appends apidat docdat l :
  Appends (main_loop apidat docdat l).
Proof. unfold main_loop. apply _. Qed.

#[global] Instance main_appends t apidat docdat l :
  Appends (main t apidat docdat l).
Proof. unfold main. apply _. Qed.

End generator_appends.

(** ** One command *)

Section command.
Context `{B : Blank} `{U : Utils}.
Implicit Types (apidat : ApiStore) (docdat : DocStore) (e : ApiEntry).
Implicit Types (c : string) (st : Sink).

Lemma sink_write_print st l1 l2 :
  sink_write (sink_print st l1) l2 = sink_print (sink_write st l2) l1.
Proof. done. Qed.

(** The run of a command up to its first write: the lookups and the
    strings that can raise, then the emitter. *)
Lemma wrap_command_run apidat docdat c e st :
  apidat !! c = Some e → is_unknown e = false →
  runM (wrap_command apidat docdat c) st =
    let st1 := sink_print st ["... wrapping " +:+ c] in
    match params_of (sig e) with
    | Raise x => (Raise x, st1)
    | Ok params =>
        match docdat !! c with
        | None => (Raise (KeyError c), st1)
        | Some doc =>
            match retstr_of c e with
            | Raise x => (Raise x, st1)
            | Ok retstr =>
                let paramlist := "self" :: (PARMAT_sub <$> params) in
                runM
                  (write_def c (arglist_of e paramlist) ;;
                   write_docstring (descstr_of c e) ("self" :: params)
                     (add_self params (normalize params)).2 (sig e) retstr
                     (fmt_docstr doc I2) ;;
                   write_body e c paramlist)
                  (sink_write st1 [separator])
            end
        end
    end.
Proof.
  intros He Hu. unfold wrap_command.
  rw runM_bind_lift (proj2 (dict_get_Ok _ _ _) He) Hu runM_bind_print.
  rw runM_bind_lift. destruct (params_of (sig e)) as [params|]; [|done].
  rw runM_bind_lift /dict_get. destruct (docdat !! c) as [doc|]; [|done].
  rw runM_bind_lift. destruct (retstr_of c e) as [retstr|]; [|done].
  rw runM_bind_write.
  pose proof (paramlist_of_self params) as Hpl.
  destruct (add_self params (normalize params)) as [params' d] eqn:Hadd.
  unfold add_self in Hadd. simplify_eq. by rw runM_bind_lift Hpl.
Qed.

Lemma runM_wrap_skip apidat docdat c e st :
  apidat !! c = Some e → is_unknown e = true →
  runM (wrap_command apidat docdat c) st =
    (Ok tt, sink_print st ["... unknown command: " +:+ c +:+ ". SKIPPING"]).
Proof.
  intros He Hu. unfold wrap_command.
  by rw runM_bind_lift (proj2 (dict_get_Ok _ _ _) He) Hu.
Qed.

(** C36. A command whose kind is ['unknown'] is skipped: nothing is
    written, one line is printed, and the run goes on. *)
Theorem wrap_command_unknown apidat docdat c e st :
  apidat !! c = Some e → is_unknown e = true →
  runM (wrap_command apidat docdat c) st =
    (Ok tt, sink_print st ["... unknown command: " +:+ c +:+ ". SKIPPING"]).
Proof. apply runM_wrap_skip. Qed.

(** C7. A command that is not skipped, whose signature items each hold
    a name (so that line 149 does not raise first) and that has no entry
    in [docdat] makes the script raise [KeyError] at line 162, after the
    progress line and before anything is written: a missing documentation
    block is not replaced by empty text. *)
Theorem wrap_command_no_doc apidat docdat c e st :
  apidat !! c = Some e → is_unknown e = false →
  is_Ok (params_of (sig e)) → docdat !! c = None →
  runM (wrap_command apidat docdat c) st =
    (Raise (KeyError c), sink_print st ["... wrapping " +:+ c]).
Proof.
  intros He Hu [params Hp] Hd.
  by rw (wrap_command_run _ _ _ _ _ He Hu) Hp Hd.
Qed.

Lemma cmd_ok_params e :
  cmd_ok e = true →
  params_of (sig e) = Ok ((λ it, (sig_pair it).1) <$> sig e).
Proof.
  intros [Hs _]%andb_true_iff. apply result_mapM_total, Forall_forall.
  intros it Hit. by apply wf_sigitem_index0, (forallb_elem_of _ _ _ Hs).
Qed.

Lemma cmd_ok_retstr c e :
  cmd_ok e = true → retstr_of c e = Ok (ret_section c e).
Proof.
  intros [_ Hr]%andb_true_iff. pose proof (is_Okb_retstr_of c e) as Hb.
  rw Hr in Hb. unfold ret_section. by destruct (retstr_of c e).
Qed.

Lemma runM_wrap_ok apidat docdat c e doc st :
  apidat !! c = Some e → is_unknown e = false → cmd_ok e = true →
  docdat !! c = Some doc →
  runM (wrap_command apidat docdat c) st =
    (Ok tt,
     sink_print (sink_write st (wrapper_chunks c e doc))
       ["... wrapping " +:+ c]).
Proof.
  intros He Hu Hok Hd.
  rw (wrap_command_run _ _ _ _ _ He Hu) (cmd_ok_params _ Hok) Hd
    (cmd_ok_retstr c _ Hok). cbv zeta.
  pose proof (cmd_ok_params _ Hok) as Hp.
  apply andb_true_iff in Hok as [Hs _].
  unfold write_def, write_docstring. autorewrite with pysink.
  rw runM_bind runM_write_parameters //. autorewrite with pysink.
  rw write_body_chunks sink_write_write sink_write_print.
  by rw /wrapper_chunks /paramlist_for -!app_assoc.
Qed.

(** C3. A command that is not skipped, whose signature items are pairs,
    whose returned values unpack and that has a documentation block gets
    its wrapper: the progress line is printed and the chunks of
    [wrapper_chunks] are written, in order, and nothing raises. *)
Theorem wrap_command_ok apidat docdat c e doc st :
  apidat !! c = Some e → is_unknown e = false → cmd_ok e = true →
  docdat !! c = Some doc →
  runM (wrap_command apidat docdat c) st =
    (Ok tt,
     sink_print (sink_write st (wrapper_chunks c e doc))
       ["... wrapping " +:+ c]).
Proof. apply runM_wrap_ok. Qed.

End command.

Lemma wrap_command_ok_witness :
  runM (wrap_command scenario_apidat scenario_docdat "T_ENTITY") sink_empty =
    (Ok tt,
     sink_print (sink_write sink_empty (wrapper_chunks "T_ENTITY" T_ENTITY []))
       ["... wrapping " +:+ "T_ENTITY"]).
Proof. by apply wrap_command_ok. Defined.

Lemma wrap_command_no_doc_witness :
  runM (wrap_command scenario_apidat (delete "SetUnits" scenario_docdat)
          "SetUnits") sink_empty =
    (Raise (KeyError "SetUnits"),
     sink_print sink_empty ["... wrapping " +:+ "SetUnits"]).
Proof.
  apply (wrap_command_no_doc _ _ _ SetUnits); [done..|by eexists|done].
Defined.

Lemma wrap_command_unknown_witness :
  runM (wrap_command scenario_apidat scenario_docdat "Foo") sink_empty =
    (Ok tt,
     sink_print sink_empty ["... unknown command: " +:+ "Foo" +:+ ". SKIPPING"]).
Proof. by apply (wrap_command_unknown _ _ _ Foo). Defined.

(** ** When a command is wrapped *)

Section domain.
Context `{B : Blank} `{U : Utils}.
Implicit Types (apidat : ApiStore) (docdat : DocStore) (e : ApiEntry).
Implicit Types (c : string) (st : Sink).

Lemma wf_entry_cmd_ok e : wf_entry e = true → cmd_ok e = true.
Proof.
  unfold wf_entry, cmd_ok, ret_wf.
  intros [Hs Hr]%andb_true_iff. rw Hs Hr /=.
  by destruct (is_function e), (is_subroutine e).
Qed.

Lemma wf_command_ok apidat docdat c :
  wf_command apidat docdat c = true → command_ok apidat docdat c = true.
Proof.
  unfold wf_command, command_ok. destruct (apidat !! c) as [e|]; [|done].
  destruct (is_unknown e); [done|]. simpl.
  by intros [->%wf_entry_cmd_ok ->]%andb_true_iff.
Qed.

(** A signature with an item that is not a pair: the run of the command
    raises, whatever else the descriptor holds. *)
Lemma wrap_command_bad_sig apidat docdat c e st :
  apidat !! c = Some e → is_unknown e = false →
  forallb wf_sigitem (sig e) = false →
  ∃ x, (runM (wrap_command apidat docdat c) st).1 = Raise x.
Proof.
  intros He Hu (l1 & it & l2 & Hsig & Hl1 & Hit)%forallb_false_split.
  rw (wrap_command_run _ _ _ _ _ He Hu). cbv zeta.
  destruct (params_of (sig e)) as [params|] eqn:Hp; [|by eexists].
  destruct (docdat !! c); [|by eexists].
  destruct (retstr_of c e); [|by eexists].
  unfold write_def, write_docstring. autorewrite with pysink.
  rw Hsig in Hp |- *. rw runM_bind runM_write_parameters_bad //; [|by eexists].
  intros Hlen. by rw /wf_sigitem Hlen in Hit.
Qed.

(** The commands on which the body of the loop returns. *)
Lemma wrap_command_returns apidat docdat c st :
  (runM (wrap_command apidat docdat c) st).1 = Ok tt ↔
  command_ok apidat docdat c = true.
Proof.
  unfold command_ok. destruct (apidat !! c) as [e|] eqn:He.
  2: { by rw /wrap_command runM_bind_lift /dict_get He. }
  destruct (is_unknown e) eqn:Hu.
  { by rw (runM_wrap_skip _ _ _ _ _ He Hu). }
  rw orb_false_l. destruct (cmd_ok e) eqn:Hok; rw ?andb_true_l ?andb_false_l.
  - destruct (docdat !! c) as [doc|] eqn:Hd.
    + by rw (runM_wrap_ok _ _ _ _ _ _ He Hu Hok Hd) bool_decide_eq_true_2.
    + rw (wrap_command_run _ _ _ _ _ He Hu) cmd_ok_params // Hd.
      by rw bool_decide_eq_false_2.
  - split; [|done]. intros Hrun. apply andb_false_iff in Hok as [Hs|Hr].
    + destruct (wrap_command_bad_sig apidat docdat c e st) as [x Hx]; [done..|].
      by rw Hx in Hrun.
    + rw (wrap_command_run _ _ _ _ _ He Hu) in Hrun. cbv zeta in Hrun.
      destruct (params_of (sig e)); [|done]. destruct (docdat !! c); [|done].
      pose proof (is_Okb_retstr_of c e) as Hb. rw Hr in Hb.
      by destruct (retstr_of c e).
Qed.

(** C2. The run of a command returns without raising exactly when the
    command has a descriptor and either is skipped or has pairs as
    signature items, returned values that unpack, and a documentation
    block. *)
Theorem wrap_command_Ok_iff apidat docdat c st :
  (runM (wrap_command apidat docdat c) st).1 = Ok tt ↔
  command_ok apidat docdat c = true.
Proof. apply wrap_command_returns. Qed.

Lemma wrap_command_command_ok apidat docdat c st :
  command_ok apidat docdat c = true →
  runM (wrap_command apidat docdat c) st =
    (Ok tt,
     sink_print (sink_write st (command_chunks apidat docdat c))
       [log_line apidat c]).
Proof.
  unfold command_ok, command_chunks, log_line.
  destruct (apidat !! c) as [e|] eqn:He; [|done].
  destruct (is_unknown e) eqn:Hu.
  { intros _. rw (runM_wrap_skip _ _ _ _ _ He Hu).
    destruct (docdat !! c); by rw sink_write_nil. }
  rw orb_false_l. intros [Hok Hd%bool_decide_eq_true]%andb_true_iff.
  destruct Hd as [doc Hd]. rw Hd. by apply runM_wrap_ok.
Qed.

End domain.

(** ** The whole run *)

Section whole_run.
Context `{B : Blank} `{U : Utils}.
Implicit Types (apidat : ApiStore) (docdat : DocStore) (t c : string).
Implicit Types (st : Sink) (l : list string).

Lemma main_loop_ok apidat docdat l st :
  forallb (command_ok apidat docdat) l = true →
  runM (main_loop apidat docdat l) st =
    (Ok tt,
     sink_print (sink_write st (flat_map (command_chunks apidat docdat) l))
       (log_line apidat <$> l)).
Proof.
  unfold main_loop. revert st. induction l as [|c l IH]; intros st.
  - intros _. by rw for_each_nil runM_ret sink_write_nil sink_print_nil.
  - intros [Hc Hl]%andb_true_iff.
    rw for_each_cons runM_bind wrap_command_command_ok // IH //.
    by rw sink_write_print sink_write_write sink_print_print.
Qed.

(** The run of [main]: the header and the first progress line, then the
    loop from an empty sink. *)
Lemma main_exec t apidat docdat l :
  exec (main t apidat docdat l) =
    ((exec (main_loop apidat docdat l)).1,
     sink_app
       {| written := [CLASTR t];
          printed := [nl +:+ "Wrapping commands in python..."] |}
       (exec (main_loop apidat docdat l)).2).
Proof. by rw /exec /main runM_bind_write runM_bind_print appends. Qed.

(** C1. On stores where every listed command can be wrapped or skipped,
    [main] returns without raising; the file holds the class header
    followed by the wrappers of the commands that are not skipped, in the
    order of the list, each written as if it were the only one; and one
    progress line is printed per command after the opening line. *)
Theorem main_ok t apidat docdat l :
  forallb (command_ok apidat docdat) l = true →
  exec (main t apidat docdat l) =
    (Ok tt,
     {| written := CLASTR t :: flat_map (command_chunks apidat docdat) l;
        printed := (nl +:+ "Wrapping commands in python...")
                     :: (log_line apidat <$> l) |}).
Proof. intros Hl. by rw main_exec /exec main_loop_ok. Qed.

(** Well-formed stores are enough: when every listed command has a
    descriptor and every descriptor that is not skipped has pairs as
    signature items, an empty or paired [returns] and a documentation
    block, [main] returns without raising. *)
Theorem main_wf_stores t apidat docdat l :
  wf_stores apidat docdat l = true →
  (exec (main t apidat docdat l)).1 = Ok tt.
Proof.
  intros Hwf. rw main_exec /exec main_loop_ok //. apply forallb_Forall.
  apply forallb_Forall in Hwf. eapply Forall_impl; [done|].
  apply wf_command_ok.
Qed.

(** C6. The run stops at the first command that raises: [main] raises
    the same exception, the commands after it are not reached, and the
    file holds the header, the wrappers of the commands before it and
    whatever the failing command had written. *)
Theorem main_first_failure t apidat docdat l1 c l2 x st' :
  forallb (command_ok apidat docdat) l1 = true →
  exec (wrap_command apidat docdat c) = (Raise x, st') →
  exec (main t apidat docdat (l1 ++ c :: l2)) =
    (Raise x,
     sink_app
       {| written := CLASTR t :: flat_map (command_chunks apidat docdat) l1;
          printed := (nl +:+ "Wrapping commands in python...")
                       :: (log_line apidat <$> l1) |}
       st').
Proof.
  intros Hl1 Hc. rw main_exec /exec /main_loop.
  erewrite for_each_raise; [|by apply main_loop_ok|]; last first.
  { by rw appends Hc. }
  done.
Qed.

(** Two runs on the same stores differ in the timestamp of the
    header and in nothing else: the outcome, the progress lines and every
    chunk written after the header are the same. *)
Theorem main_timestamp t1 t2 apidat docdat l :
  (exec (main t1 apidat docdat l)).1 = (exec (main t2 apidat docdat l)).1 ∧
  printed (exec (main t1 apidat docdat l)).2 =
    printed (exec (main t2 apidat docdat l)).2 ∧
  written (exec (main t1 apidat docdat l)).2 =
    CLASTR t1 :: tail (written (exec (main t2 apidat docdat l)).2).
Proof. by rw !main_exec. Qed.

(** The file and the status stream are append-only: whatever they
    held when [main] starts is still at their start when it returns or
    raises. *)
Theorem main_append_only t apidat docdat l st :
  written st `prefix_of` written (runM (main t apidat docdat l) st).2 ∧
  printed st `prefix_of` printed (runM (main t apidat docdat l) st).2.
Proof. split; [apply appends_written|apply appends_printed]; apply _. Qed.

End whole_run.

Lemma main_first_failure_witness :
  exec (main "now" scenario_apidat (delete "SetUnits" scenario_docdat)
          (["GetUnits"; "Foo"] ++ "SetUnits" :: ["T_ENTITY"])) =
    (Raise (KeyError "SetUnits"),
     sink_app
       {| written := CLASTR "now"
            :: flat_map
                 (command_chunks scenario_apidat
                    (delete "SetUnits" scenario_docdat)) ["GetUnits"; "Foo"];
          printed := (nl +:+ "Wrapping commands in python...")
                       :: (log_line scenario_apidat <$> ["GetUnits"; "Foo"]) |}
       {| written := []; printed := ["... wrapping SetUnits"] |}).
Proof. by apply main_first_failure. Defined.

Lemma main_wf_stores_witness :
  (exec (main "now" scenario_apidat scenario_docdat scenario_cmdnames)).1
    = Ok tt.
Proof. by apply main_wf_stores. Defined.

Lemma main_ok_witness :
  exec (main "now" scenario_apidat scenario_docdat scenario_cmdnames) =
    (Ok tt,
     {| written := CLASTR "now"
          :: flat_map (command_chunks scenario_apidat scenario_docdat)
               scenario_cmdnames;
        printed := (nl +:+ "Wrapping commands in python...")
                     :: (log_line scenario_apidat <$> scenario_cmdnames) |}).
Proof. by apply main_ok. Defined.
