(* ===== verification/Raw.v ===== *)
(** * Raw: descriptors as the dicts the YAML reader returns

    In [Descriptor] a value of [apidat] is a record, so the lookups
    [apidat[cmdname]['cmdtype']], [...['descr']], [...['sig']] and
    [...['returns']] cannot fail.  Here a value of [apidat] is a dict in
    which each of the four keys may be missing, and the body of the loop
    is written with the four lookups at the places where the script has
    them: [cmdtype] at line 133, [descr] at line 147, [sig] at line 148
    and [returns] at line 168, after the lookup in [docdat] of line 162.
    The later lookups of the same keys (lines 169-242) cannot fail once the
    first did and are not repeated.

    A key that is present holds a value of the shape the script expects
    (a string, a list of strings, a list of lists of strings); values of
    another shape are outside the model.

    The theorems relate the two models: on a store of complete dicts the
    raw run is the run of [Generator]; a descriptor with a missing key is
    skipped when its kind is ['unknown'] and otherwise raises [KeyError]
    before anything is written. *)

From S2P Require Import Prelude Regex Extern Descriptor Sink.
From S2P Require Import Normalizer Composer Emitter Generator.

(** ** Dicts with optional keys *)

Record RawEntry : Type := {
  r_cmdtype : option string;
  r_descr : option string;
  r_returns : option (list string);
  r_sig : option (list (list string));
}.

#[global] Instance RawEntry_eq_dec : EqDecision RawEntry.
Proof. solve_decision. Defined.

(** [d[key]] on a dict that may lack the key. *)
Definition key_get {A} (key : string) (v : option A) : result A :=
  match v with
  | Some a => Ok a
  | None => Raise (KeyError key)
  end.

(** The dict of a record: every key present. *)
Definition raw_of (e : ApiEntry) : RawEntry :=
  {| r_cmdtype := Some (cmdtype e);
     r_descr := Some (descr e);
     r_returns := Some (returns e);
     r_sig := Some (sig e) |}.

Definition missing {A} (key : string) (v : option A) : list string :=
  match v with
  | Some _ => []
  | None => [key]
  end.

(** The keys a dict lacks among the four, in the order in which the
    script first reads them (lines 133, 147, 148, 168). *)
Definition missing_keys (r : RawEntry) : list string :=
  missing "cmdtype" (r_cmdtype r) ++ missing "descr" (r_descr r)
  ++ missing "sig" (r_sig r) ++ missing "returns" (r_returns r).

(** The test of line 134 on a dict. *)
Definition raw_unknown (r : RawEntry) : bool :=
  match r_cmdtype r with
  | Some t => String.eqb t "unknown"
  | None => false
  end.

(** ** The body of the loop and [main] on dicts *)

Section raw.
Context `{B : Blank} `{U : Utils}.

(** Lines 133-264.  [descstr] (lines 138-147) reads [cmdtype] and [descr]
    only, so it is composed from the record that holds these two. *)
Definition wrap_command_raw (apidat : gmap string RawEntry)
    (docdat : DocStore) (cmdname : string) : M unit :=
  r ← lift (dict_get apidat cmdname);
  cmdtype ← lift (key_get "cmdtype" (r_cmdtype r));
  if String.eqb cmdtype "unknown" then
    print ("... unknown command: " +:+ cmdname +:+ ". SKIPPING")
  else
    print ("... wrapping " +:+ cmdname) ;;
    descr ← lift (key_get "descr" (r_descr r));
    let descstr :=
      descstr_of cmdname
        {| cmdtype := cmdtype; descr := descr; returns := []; sig := [] |} in
    sigitems ← lift (key_get "sig" (r_sig r));
    params ← lift (params_of sigitems);
    let d := normalize params in
    doc ← lift (dict_get docdat cmdname);
    let docstr := fmt_docstr doc I2 in
    rlist ← lift (key_get "returns" (r_returns r));
    let e := {| cmdtype := cmdtype; descr := descr;
                returns := rlist; sig := sigitems |} in
    retstr ← lift (retstr_of cmdname e);
    fid_write separator ;;
    let '(params, d) := add_self params d in
    paramlist ← lift (paramlist_of d params);
    let arglist := arglist_of e paramlist in
    write_def cmdname arglist ;;
    write_docstring descstr params d sigitems retstr docstr ;;
    write_body e cmdname paramlist.

(** Line 132. *)
Definition main_loop_raw (apidat : gmap string RawEntry) (docdat : DocStore)
    (cmdnames : list string) : M unit :=
  for_each cmdnames (wrap_command_raw apidat docdat).

(** Lines 130-264. *)
Definition main_raw (TIMENOW : string) (apidat : gmap string RawEntry)
    (docdat : DocStore) (cmdnames : list string) : M unit :=
  fid_write (CLASTR TIMENOW) ;;
  print (nl +:+ "Wrapping commands in python...") ;;
  main_loop_raw apidat docdat cmdnames.

(** The line [print] shows for a command, if the run gets to print one:
    none when the command or its kind is missing. *)
Definition raw_log_line (apidat : gmap string RawEntry) (cmdname : string)
    : list string :=
  match apidat !! cmdname ≫= r_cmdtype with
  | Some cmdtype =>
      [if String.eqb cmdtype "unknown"
       then "... unknown command: " +:+ cmdname +:+ ". SKIPPING"
       else "... wrapping " +:+ cmdname]
  | None => []
  end.

End raw.

(** ** Concrete runs *)

(** A subroutine whose dict has no [returns]. *)
Definition NoReturns : RawEntry :=
  {| r_cmdtype := Some "subroutine"; r_descr := Some "";
     r_returns := None; r_sig := Some [["x"; "Long"]] |}.

(** An unknown command whose dict holds nothing else. *)
Definition BareUnknown : RawEntry :=
  {| r_cmdtype := Some "unknown"; r_descr := None;
     r_returns := None; r_sig := None |}.

Example wrap_NoReturns :
  exec (wrap_command_raw {["N" := NoReturns]} {["N" := []]} "N")
    = (Raise (KeyError "returns"),
       {| written := []; printed := ["... wrapping N"] |}).
Proof. vm_compute. done. Qed.

(** Without documentation the lookup in [docdat] fails first. *)
Example wrap_NoReturns_no_doc :
  (exec (wrap_command_raw {["N" := NoReturns]} ∅ "N")).1
    = Raise (KeyError "N").
Proof. vm_compute. done. Qed.

Example wrap_BareUnknown :
  exec (wrap_command_raw {["B" := BareUnknown]} ∅ "B")
    = (Ok tt,
       {| written := [];
          printed := ["... unknown command: B. SKIPPING"] |}).
Proof. vm_compute. done. Qed.

Example missing_keys_NoReturns : missing_keys NoReturns = ["returns"].
Proof. done. Qed.

(** ** The raw run and the run on records *)

Section raw_lemmas.
Context `{B : Blank} `{U : Utils}.
Implicit Types (apidat : ApiStore) (rawdat : gmap string RawEntry).
Implicit Types (docdat : DocStore) (c : string) (st : Sink).

(** On the dict of a record the body of the loop is the body of
    [Generator]. *)
Lemma runM_wrap_raw_of apidat docdat c st :
  runM (wrap_command_raw (raw_of <$> apidat) docdat c) st
    = runM (wrap_command apidat docdat c) st.
Proof.
  rw /wrap_command_raw /wrap_command !runM_bind_lift /dict_get lookup_fmap.
  destruct (apidat !! c) as [[t d rl s]|]; [|done].
  cbn [fmap option_fmap option_map raw_of r_cmdtype r_descr r_returns r_sig
         Descriptor.cmdtype Descriptor.descr Descriptor.returns Descriptor.sig
         key_get].
  rw runM_bind_lift. unfold is_unknown. cbn [Descriptor.cmdtype].
  destruct (String.eqb t "unknown"); [done|].
  by rw !runM_bind_print !runM_bind_lift.
Qed.

Lemma runM_main_raw_of t apidat docdat l st :
  runM (main_raw t (raw_of <$> apidat) docdat l) st
    = runM (main t apidat docdat l) st.
Proof.
  rw /main_raw /main /main_loop_raw /main_loop.
  rw !runM_bind_write !runM_bind_print.
  apply for_each_ext. intros c st' _. apply runM_wrap_raw_of.
Qed.

(** The raw run only appends to its outputs. *)
#[global] Instance wrap_command_raw_appends rawdat docdat c :
  Appends (wrap_command_raw rawdat docdat c).
Proof.
  unfold wrap_command_raw.
  repeat first
    [ apply appends_if | apply appends_bind; [apply _|intros ?]
    | destruct (add_self _ _) | apply _ ].
Qed.

#[global] Instance main_raw_appends t rawdat docdat l :
  Appends (main_raw t rawdat docdat l).
Proof. unfold main_raw, main_loop_raw. apply _. Qed.

(** Whether it returns or raises, a command prints its progress line and
    nothing else. *)
Lemma wrap_command_raw_printed rawdat docdat c st :
  printed (runM (wrap_command_raw rawdat docdat c) st).2
    = printed st ++ raw_log_line rawdat c.
Proof.
  rw /wrap_command_raw /raw_log_line runM_bind_lift /dict_get.
  destruct (rawdat !! c) as [[[t|] d rl s]|]; cbn; rw ?app_nil_r //.
  rw runM_bind_lift. destruct (String.eqb t "unknown"); [done|].
  rw runM_bind_print. apply quiet_printed; [|done].
  repeat first
    [ apply quiet_bind; [apply _|intros ?]
    | destruct (add_self _ _) | apply _ ].
Qed.

(** An unknown command is skipped whatever else its dict lacks. *)
Lemma runM_wrap_raw_unknown rawdat docdat c r st :
  rawdat !! c = Some r → raw_unknown r = true →
  runM (wrap_command_raw rawdat docdat c) st
    = (Ok tt, sink_print st ["... unknown command: " +:+ c +:+ ". SKIPPING"]).
Proof.
  intros Hr Hu. rw /wrap_command_raw runM_bind_lift /dict_get Hr.
  unfold raw_unknown in Hu. destruct (r_cmdtype r) as [t|]; [|done].
  by rw runM_bind_lift /= Hu.
Qed.

(** The run of a command whose dict lacks a key, up to the lookup that
    fails. *)
Lemma runM_wrap_raw_missing rawdat docdat c r st :
  rawdat !! c = Some r → raw_unknown r = false → missing_keys r ≠ [] →
  ∃ x st', runM (wrap_command_raw rawdat docdat c) st = (Raise x, st') ∧
    written st' = written st ∧
    (∀ k, head (missing_keys r) = Some k → k ≠ "returns" → x = KeyError k).
Proof.
  intros Hr Hu Hm.
  rw /wrap_command_raw runM_bind_lift (proj2 (dict_get_Ok _ _ _) Hr).
  destruct r as [[t|] d rl s]; cbn in Hu, Hm |- *.
  2: { exists (KeyError "cmdtype"), st. naive_solver. }
  rw runM_bind_lift Hu runM_bind_print runM_bind_lift.
  set (st1 := sink_print st _).
  destruct d as [d|]; cbn in Hm |- *.
  2: { exists (KeyError "descr"), st1. naive_solver. }
  rw runM_bind_lift. destruct s as [s|]; cbn in Hm |- *.
  2: { exists (KeyError "sig"), st1. naive_solver. }
  rw runM_bind_lift. destruct (params_of s) as [ps|x].
  2: { exists x, st1. destruct rl; naive_solver. }
  rw runM_bind_lift. destruct (dict_get docdat c) as [doc|x].
  2: { exists x, st1. destruct rl; naive_solver. }
  rw runM_bind_lift. destruct rl as [rl|]; [done|].
  exists (KeyError "returns"), st1. naive_solver.
Qed.

(** C10. A descriptor that lacks one of the four keys and is not skipped
    makes the script raise before anything is written for it; when the
    first missing key is [cmdtype], [descr] or [sig] the exception is the
    [KeyError] of that key, and a missing [returns] is reached only after
    the parameters and the documentation were looked up. *)
Theorem wrap_command_raw_missing rawdat docdat c r st :
  rawdat !! c = Some r → raw_unknown r = false → missing_keys r ≠ [] →
  ∃ x, (runM (wrap_command_raw rawdat docdat c) st).1 = Raise x ∧
    written (runM (wrap_command_raw rawdat docdat c) st).2 = written st ∧
    (∀ k, head (missing_keys r) = Some k → k ≠ "returns" → x = KeyError k).
Proof.
  intros Hr Hu Hm.
  destruct (runM_wrap_raw_missing _ docdat _ _ st Hr Hu Hm)
    as (x & st' & -> & ? & ?).
  by exists x.
Qed.

End raw_lemmas.

Lemma wrap_command_raw_missing_witness :
  ∃ x, (runM (wrap_command_raw {["N" := NoReturns]} {["N" := []]} "N")
          sink_empty).1 = Raise x ∧
    written (runM (wrap_command_raw {["N" := NoReturns]} {["N" := []]} "N")
               sink_empty).2 = written sink_empty ∧
    (∀ k, head (missing_keys NoReturns) = Some k → k ≠ "returns" →
          x = KeyError k).
Proof. by apply wrap_command_raw_missing. Defined.
