(* ===== verification/Script.v ===== *)
(** * Script: the run from the files it reads to the file it leaves

    [main] (lines 99-265) reads the two stores with [utils.readyaml]
    (lines 108 and 112), takes the command names from the keys of the
    first (line 128), opens the output file for writing (line 129), runs
    the statements of [Raw.main_raw] on it (lines 130-264) and closes it
    (line 265).  The module runs [main] only when it is the program (lines
    267-269); [TIMENOW] is read from the clock when the module is loaded
    (line 38), in either case.

    [World] is what these lines can see of their surroundings: the parsed
    contents of the two input files, or [None] for a file that cannot be
    read; the chunks of the output file, or [None] while there is no such
    file; whether the path can be opened for writing; whether [fid] is
    open; the status stream; the clock.  The dict read from the first
    file is a [pydict]: its items in the order in which the dict is
    iterated (the order of the file), no key twice, so that [keys] is the
    order of the loop; the lookups go through [list_to_map].

    An exception leaves [main] at once: [fid.close()] is reached only
    when every command was wrapped or skipped.  Opening with mode ['w']
    empties the file, so that what it held before the run is gone as soon
    as both inputs were read, whatever happens next. *)

From S2P Require Import Prelude Regex Extern Descriptor Sink.
From S2P Require Import Normalizer Composer Emitter Generator Raw.

(** ** The paths of [glovars] *)

Class Glovars : Type := {
  APIFILEPATH : string;
  DOCFILEPATH : string;
  PYAPIPATH : string;
}.

#[export] Instance ref_glovars : Glovars := {|
  APIFILEPATH := "api.yaml";
  DOCFILEPATH := "doc.yaml";
  PYAPIPATH := "fred.py";
|}.

(** ** A dict that is iterated *)

(** The items of a dict in the order of iteration.  A key occurs once:
    that is what makes the list a dict. *)
Record pydict (V : Type) : Type := {
  pairs : list (string * V);
  pairs_nodup : bool_decide (NoDup pairs.*1);
}.
Arguments pairs {V} _.
Arguments pairs_nodup {V} _.

(** The dict of a list of items that is seen to have no key twice. *)
Abbreviation pydict_of l := {| pairs := l; pairs_nodup := I |}.

(** ** The world of a run *)

Record World : Type := {
  api_yaml : option (pydict RawEntry);
  doc_yaml : option DocStore;
  pyapi : option (list string);
  writable : bool;
  fid_open : bool;
  stdout : list string;
  clock : string;
}.

(** The world with the output file and the status stream of [st]. *)
Definition set_sink (w : World) (st : Sink) : World :=
  {| api_yaml := api_yaml w; doc_yaml := doc_yaml w;
     pyapi := Some (written st); writable := writable w;
     fid_open := fid_open w; stdout := printed st; clock := clock w |}.

Definition set_open (w : World) (b : bool) : World :=
  {| api_yaml := api_yaml w; doc_yaml := doc_yaml w;
     pyapi := pyapi w; writable := writable w;
     fid_open := b; stdout := stdout w; clock := clock w |}.

(** [utils.readyaml(path)] on a file with the parsed contents [content]. *)
Definition readyaml {A} (path : string) (content : option A) : result A :=
  match content with
  | Some v => Ok v
  | None => Raise (IOError path)
  end.

(** [apidat.keys()], in the order of the dict. *)
Definition keys {V} (items : list (string * V)) : list string := items.*1.

(** [codecs.open(PYAPIPATH, 'w', 'utf-8')]: the file is created or
    emptied, and [fid] is open. *)
Definition codecs_open `{Glovars} (w : World) : result World :=
  if writable w
  then Ok (set_open (set_sink w {| written := []; printed := stdout w |}) true)
  else Raise (IOError PYAPIPATH).

(** Statements of the generator, run on the open file and the status
    stream of the world. *)
Definition run_sink {A} (m : M A) (w : World) : result A * World :=
  let '(r, st) :=
    runM m {| written := default [] (pyapi w); printed := stdout w |} in
  (r, set_sink w st).

(** Line 38: the time of the clock, formatted, when the module is
    loaded. *)
Definition TIMENOW (w : World) : string := clock w.

(** [fid.close()]. *)
Definition fid_close (w : World) : World := set_open w false.

Section script.
Context `{B : Blank} `{U : Utils} `{G : Glovars}.

(** [main()], lines 99-265. *)
Definition run_main (TIMENOW : string) (w : World) : result unit * World :=
  match readyaml APIFILEPATH (api_yaml w) with
  | Raise x => (Raise x, w)
  | Ok apidat =>
      match readyaml DOCFILEPATH (doc_yaml w) with
      | Raise x => (Raise x, w)
      | Ok docdat =>
          let cmdnames := keys (pairs apidat) in
          match codecs_open w with
          | Raise x => (Raise x, w)
          | Ok w1 =>
              match
                run_sink
                  (main_raw TIMENOW (list_to_map (pairs apidat)) docdat
                     cmdnames) w1
              with
              | (Raise x, w2) => (Raise x, w2)
              | (Ok _, w2) => (Ok tt, fid_close w2)
              end
          end
      end
  end.

(** The module, loaded under the name [name]: the timestamp of line 38,
    then the guard of lines 267-269. *)
Definition script (name : string) (w : World) : result unit * World :=
  let t := TIMENOW w in
  if String.eqb name "__main__" then run_main t w else (Ok tt, w).

(** The path of the first file the run cannot read or open, if any; the
    inputs are read before the output is opened. *)
Definition io_failure (w : World) : option string :=
  match api_yaml w, doc_yaml w with
  | None, _ => Some APIFILEPATH
  | Some _, None => Some DOCFILEPATH
  | Some _, Some _ => if writable w then None else Some PYAPIPATH
  end.

End script.

(** ** A world to run *)

Definition demo_items : list (string * RawEntry) :=
  [("GetUnits", raw_of GetUnits); ("Foo", raw_of Foo);
   ("SetUnits", raw_of SetUnits)].

Definition demo_world : World :=
  {| api_yaml := Some (pydict_of demo_items);
     doc_yaml := Some scenario_docdat;
     pyapi := Some ["# the wrappers of an earlier run"];
     writable := true;
     fid_open := false;
     stdout := ["$ python script03_apiwrapgen.py"];
     clock := "2017-03-01 12:00:00" |}.

(** Without the documentation file the run stops before it opens the
    output. *)
Definition no_doc_world : World :=
  {| api_yaml := api_yaml demo_world; doc_yaml := None;
     pyapi := pyapi demo_world; writable := true; fid_open := false;
     stdout := stdout demo_world; clock := clock demo_world |}.

(** A descriptor without [returns] after a good one. *)
Definition broken_world : World :=
  {| api_yaml :=
       Some (pydict_of [("GetUnits", raw_of GetUnits); ("N", NoReturns)]);
     doc_yaml := Some (<["N" := []]> scenario_docdat);
     pyapi := pyapi demo_world; writable := true; fid_open := false;
     stdout := []; clock := clock demo_world |}.

Example script_demo_log :
  stdout (script "__main__" demo_world).2 =
    ["$ python script03_apiwrapgen.py";
     nl +:+ "Wrapping commands in python...";
     "... wrapping GetUnits";
     "... unknown command: Foo. SKIPPING";
     "... wrapping SetUnits"].
Proof. vm_compute. done. Qed.

Example script_demo_closed :
  (script "__main__" demo_world).1 = Ok tt ∧
  fid_open (script "__main__" demo_world).2 = false ∧
  head (default [] (pyapi (script "__main__" demo_world).2)) =
    Some (CLASTR "2017-03-01 12:00:00").
Proof. vm_compute. done. Qed.

(** Loaded as a module, the script does nothing. *)
Example script_imported :
  script "script03_apiwrapgen" demo_world = (Ok tt, demo_world).
Proof. vm_compute. done. Qed.

Example script_no_doc :
  script "__main__" no_doc_world = (Raise (IOError "doc.yaml"), no_doc_world).
Proof. vm_compute. done. Qed.

(** The second descriptor raises: the file keeps the header and the first
    wrapper, and [fid] is still open. *)
Example script_broken :
  (script "__main__" broken_world).1 = Raise (KeyError "returns") ∧
  fid_open (script "__main__" broken_world).2 = true ∧
  pyapi (script "__main__" broken_world).2 =
    Some (CLASTR "2017-03-01 12:00:00"
            :: wrapper_chunks "GetUnits" GetUnits
               [("Description", "Returns the units.")]).
Proof. vm_compute. done. Qed.

(** ** Lemmas *)

Section script_lemmas.
Context `{B : Blank} `{U : Utils} `{G : Glovars}.
Implicit Types (w : World) (t p : string) (docdat : DocStore).
Implicit Types (items : list (string * RawEntry)) (d : pydict RawEntry).

(** The keys of a dict are distinct. *)
Lemma pydict_NoDup {V} (d : pydict V) : NoDup (keys (pairs d)).
Proof. apply (bool_decide_unpack _), pairs_nodup. Qed.

Lemma readyaml_Ok {A} p (content : option A) v :
  readyaml p content = Ok v ↔ content = Some v.
Proof. destruct content; naive_solver. Qed.

Lemma io_failure_None w :
  io_failure w = None ↔
    is_Some (api_yaml w) ∧ is_Some (doc_yaml w) ∧ writable w = true.
Proof.
  unfold io_failure.
  destruct (api_yaml w), (doc_yaml w), (writable w);
    naive_solver eauto using is_Some_None.
Qed.

(** The statements of the generator see the file as empty once it was
    opened: the run on the world is the run from the empty sink, after
    what the status stream already held. *)
Lemma run_sink_open {A} (m : M A) `{!Appends m} w w1 :
  codecs_open w = Ok w1 →
  run_sink m w1 =
    ((exec m).1,
     set_open
       (set_sink w {| written := written (exec m).2;
                      printed := stdout w ++ printed (exec m).2 |}) true).
Proof.
  unfold codecs_open. destruct (writable w); [|done]. intros [= <-].
  rw /run_sink /= appends. by destruct (exec m) as [r [wr pr]].
Qed.

(** The run of [main] once both inputs were read and the output opened. *)
Lemma run_main_run t w d docdat :
  api_yaml w = Some d → doc_yaml w = Some docdat → writable w = true →
  run_main t w =
    let res :=
      exec (main_raw t (list_to_map (pairs d)) docdat (keys (pairs d))) in
    (res.1,
     set_open
       (set_sink w {| written := written res.2;
                      printed := stdout w ++ printed res.2 |})
       (negb (is_Okb res.1))).
Proof.
  intros Ha Hd Hw. rw /run_main Ha Hd. cbn [readyaml].
  destruct (codecs_open w) as [w1|x] eqn:Ho; last first.
  { unfold codecs_open in Ho. by rw Hw in Ho. }
  rw (run_sink_open _ _ _ Ho). cbv zeta.
  generalize
    (exec (main_raw t (list_to_map (pairs d)) docdat (keys (pairs d)))).
  by intros [[[]|x] st].
Qed.

Lemma run_main_stop t w p :
  io_failure w = Some p → run_main t w = (Raise (IOError p), w).
Proof.
  rw /io_failure /run_main /codecs_open.
  destruct (api_yaml w), (doc_yaml w), (writable w); naive_solver.
Qed.

(** The dict of complete descriptors, as records. *)
Lemma list_to_map_raw (l : list (string * ApiEntry)) :
  list_to_map (prod_map id raw_of <$> l)
    =@{gmap string RawEntry} raw_of <$> list_to_map l.
Proof. by rw list_to_map_fmap. Qed.

Lemma keys_raw (l : list (string * ApiEntry)) :
  keys (prod_map id raw_of <$> l) = keys l.
Proof. unfold keys. rw -list_fmap_compose. by apply list_fmap_ext; intros ? []. Qed.

(** C12. A file that cannot be read or opened stops the run before it
    has changed anything: [main] raises the error of the first such file
    (the two inputs in the order they are read, then the output), the
    output file keeps what an earlier run left in it, and nothing is
    printed. *)
Theorem run_main_io_failure t w p :
  io_failure w = Some p → run_main t w = (Raise (IOError p), w).
Proof. apply run_main_stop. Qed.

(** C18. Once both inputs are read and the output is opened, the file is
    replaced: it holds what the generator writes from an empty file,
    whatever it held before; the status stream is extended; the inputs
    are not touched; and [fid] is closed exactly when the generator
    returns without raising. *)
Theorem run_main_replaces t w d docdat :
  api_yaml w = Some d → doc_yaml w = Some docdat → writable w = true →
  run_main t w =
    let res :=
      exec (main_raw t (list_to_map (pairs d)) docdat (keys (pairs d))) in
    (res.1,
     {| api_yaml := Some d; doc_yaml := Some docdat;
        pyapi := Some (written res.2); writable := true;
        fid_open := negb (is_Okb res.1);
        stdout := stdout w ++ printed res.2; clock := clock w |}).
Proof.
  intros Ha Hd Hw. rw (run_main_run t w d docdat) //.
  by rw /set_open /set_sink /= Ha Hd Hw.
Qed.

(** C9. The run as a whole, on input files that hold complete
    descriptors of which each can be wrapped or skipped: [main] returns
    without raising, the output file holds the class header followed by
    the wrappers in the order of the keys of the first input, [fid] is
    closed, and the status stream has received the opening line and one
    line per command. *)
Theorem run_main_ok t w (l : list (string * ApiEntry)) docdat :
  pairs <$> api_yaml w = Some (prod_map id raw_of <$> l) →
  doc_yaml w = Some docdat → writable w = true →
  forallb (command_ok (list_to_map l) docdat) (keys l) = true →
  run_main t w =
    (Ok tt,
     {| api_yaml := api_yaml w; doc_yaml := doc_yaml w;
        pyapi := Some (CLASTR t
                   :: flat_map (command_chunks (list_to_map l) docdat) (keys l));
        writable := true; fid_open := false;
        stdout := stdout w ++ (nl +:+ "Wrapping commands in python...")
                    :: (log_line (list_to_map l) <$> keys l);
        clock := clock w |}).
Proof.
  intros [d [Ha Hp]]%fmap_Some Hd Hw Hl.
  rw (run_main_run t w _ docdat Ha Hd Hw) -Hp.
  rw list_to_map_raw keys_raw /exec runM_main_raw_of -/(exec _) main_exec.
  by rw /exec main_loop_ok // /set_open /set_sink /= Hw.
Qed.

End script_lemmas.

Lemma run_main_io_failure_witness :
  run_main (clock no_doc_world) no_doc_world
    = (Raise (IOError "doc.yaml"), no_doc_world).
Proof. by apply (run_main_io_failure _ no_doc_world "doc.yaml"). Defined.

Lemma run_main_replaces_witness :
  pyapi (run_main "now" broken_world).2 =
    Some (written (exec (main_raw "now" (list_to_map
            [("GetUnits", raw_of GetUnits); ("N", NoReturns)])
            (<["N" := []]> scenario_docdat) ["GetUnits"; "N"])).2) ∧
  fid_open (run_main "now" broken_world).2 = true.
Proof.
  by rw (run_main_replaces "now" broken_world _ _ eq_refl eq_refl eq_refl).
Defined.

Lemma run_main_ok_witness :
  fid_open (run_main "now" demo_world).2 = false ∧
  (run_main "now" demo_world).1 = Ok tt.
Proof.
  by rw (run_main_ok "now" demo_world
           [("GetUnits", GetUnits); ("Foo", Foo); ("SetUnits", SetUnits)]
           scenario_docdat eq_refl eq_refl eq_refl eq_refl).
Defined.
