(* ===== verification/Interp.v ===== *)
(** * Interp: one script, two interpreters

    The script does not say which Python runs it, and the interpreters
    differ on one thing the script uses: the characters [\s] matches in
    the pattern of line 41 ([Regex.Blank]).  Every definition that
    depends on the pattern takes the class of blanks as a parameter, and
    the theorems of the development hold for each class.

    This file compares two runs of the script that differ in the class
    only.  The class is consulted on the parameter names of the
    descriptors and on nothing else; when the two classes agree on the
    characters of these names ([names_agree]), as the classes of Python 2
    and Python 3 do on every name that holds none of the six characters
    [U+001C] to [U+001F], [U+0085] and [U+00A0], the two runs are the same
    run: same outcome, same file, same status lines. *)

From S2P Require Import Prelude Regex Extern Descriptor Sink.
From S2P Require Import Normalizer Composer Emitter Generator Raw Script.

(** The two classes agree on the parameter name of a signature item, on
    the names of a descriptor, and on the names of the descriptors a
    world holds. *)
Definition item_agree (B1 B2 : Blank) (it : list string) : bool :=
  match it with
  | p :: _ => agree_on B1 B2 p
  | [] => true
  end.

Definition names_agree (B1 B2 : Blank) (r : RawEntry) : bool :=
  match r_sig r with
  | Some sigitems => forallb (item_agree B1 B2) sigitems
  | None => true
  end.

Definition world_agree (B1 B2 : Blank) (w : World) : bool :=
  match api_yaml w with
  | Some d => forallb (λ kv, names_agree B1 B2 kv.2) (pairs d)
  | None => true
  end.

(** A world whose one parameter name holds a no-break space before the
    marker. *)
Definition nbsp_world : World :=
  {| api_yaml :=
       Some (pydict_of
         [("Move",
           {| r_cmdtype := Some "subroutine"; r_descr := Some "Moves.";
              r_returns := Some [];
              r_sig := Some [["pts" +:+ nbsp +:+ "()"; "Double"]] |})]);
     doc_yaml := Some {["Move" := []]};
     pyapi := None; writable := true; fid_open := false; stdout := [];
     clock := "2017-03-01 12:00:00" |}.

(** On the demo world the interpreters agree; on a name with a no-break
    space they write different [def] lines. *)
Example demo_world_agree : world_agree py2_blank py3_blank demo_world = true.
Proof. done. Qed.

Example nbsp_world_differs :
  world_agree py2_blank py3_blank nbsp_world = false ∧
  (script (B := py2_blank) "__main__" nbsp_world).2
    ≠ (script (B := py3_blank) "__main__" nbsp_world).2.
Proof. split; [done|]. by vm_compute. Qed.

(** ** From the names to the run *)

Lemma run_sink_ext {A} (m1 m2 : M A) w :
  (∀ st, runM m1 st = runM m2 st) → run_sink m1 w = run_sink m2 w.
Proof. intros H. by rw /run_sink H. Qed.

Section interp.
Context (B1 B2 : Blank) `{U : Utils} `{G : Glovars}.
Implicit Types (rawdat : gmap string RawEntry) (docdat : DocStore).
Implicit Types (c t : string) (st : Sink) (w : World).
Local Abbreviation agree := (agree_on B1 B2).

Lemma normalize_step_agree d p :
  agree p = true →
  normalize_step (B := B1) d p = normalize_step (B := B2) d p.
Proof.
  intros Hp. unfold normalize_step, PARMAT_sub.
  by rw (PARMAT_search_agree B1 B2 p Hp) (sub_fuel_agree B1 B2 _ p Hp).
Qed.

Lemma normalize_agree params :
  Forall (λ p, agree p = true) params →
  normalize (B := B1) params = normalize (B := B2) params.
Proof.
  unfold normalize. generalize dicts_empty. intros d0 Hps. revert d0.
  induction Hps as [|p params Hp _ IH]; intros d0; [done|].
  by rw /= normalize_step_agree // IH.
Qed.

Lemma params_of_agree sigitems params :
  forallb (item_agree B1 B2) sigitems = true →
  params_of sigitems = Ok params → Forall (λ p, agree p = true) params.
Proof.
  intros Hl%forallb_Forall Hp%result_mapM_Ok.
  induction Hp as [|it p l k Hit _ IH]; [done|].
  apply Forall_cons in Hl as [Hi Hl]. constructor; [|by apply IH].
  by destruct it as [|q it]; simplify_eq/=.
Qed.

(** The body of the loop is the same under both classes. *)
Lemma wrap_command_raw_agree rawdat docdat c st :
  (∀ r, rawdat !! c = Some r → names_agree B1 B2 r = true) →
  runM (wrap_command_raw (B := B1) rawdat docdat c) st
    = runM (wrap_command_raw (B := B2) rawdat docdat c) st.
Proof.
  intros Hc. unfold wrap_command_raw.
  apply runM_bind_ext. intros r ? [Hr%dict_get_Ok _]%runM_lift_Ok.
  apply runM_bind_ext. intros k ? _. destruct (String.eqb k "unknown"); [done|].
  apply runM_bind_ext. intros _ ? _. apply runM_bind_ext. intros ds ? _.
  apply runM_bind_ext. intros si ? [Hsi _]%runM_lift_Ok.
  apply runM_bind_ext. intros ps ? [Hps _]%runM_lift_Ok.
  specialize (Hc r Hr). unfold names_agree in Hc.
  destruct (r_sig r) as [sigitems|]; [|discriminate Hsi]. injection Hsi as ->.
  rw (normalize_agree ps (params_of_agree _ _ Hc Hps)). reflexivity.
Qed.

Lemma main_raw_agree t rawdat docdat l st :
  (∀ c r, rawdat !! c = Some r → names_agree B1 B2 r = true) →
  runM (main_raw (B := B1) t rawdat docdat l) st
    = runM (main_raw (B := B2) t rawdat docdat l) st.
Proof.
  intros Hd. unfold main_raw, main_loop_raw.
  do 2 (apply runM_bind_ext; intros _ ? _).
  apply for_each_ext. intros c st1 _. apply wrap_command_raw_agree, Hd.
Qed.

Lemma run_main_agree t w :
  world_agree B1 B2 w = true →
  run_main (B := B1) t w = run_main (B := B2) t w.
Proof.
  unfold world_agree, run_main.
  destruct (api_yaml w) as [[items ?]|]; cbn [readyaml pairs]; intros Hw;
    [|reflexivity].
  apply forallb_Forall in Hw.
  destruct (readyaml _ (doc_yaml w)) as [d|]; [|reflexivity].
  destruct (codecs_open w) as [w1|]; [|reflexivity].
  assert (run_sink (main_raw (B := B1) t (list_to_map items) d (keys items)) w1
          = run_sink (main_raw (B := B2) t (list_to_map items) d (keys items))
              w1) as ->; [|reflexivity].
  apply run_sink_ext. intros st. apply main_raw_agree.
  intros c r Hr%elem_of_list_to_map_2.
  by apply (proj1 (Forall_forall _ _) Hw (c, r)).
Qed.

(** C19. The file does not depend on the interpreter while the
    interpreters agree on the parameter names: two runs of the script
    that differ only in the class of [\s], on a world on whose parameter
    names the two classes agree, return or raise alike and leave the
    same world, output file and status stream included. *)
Theorem script_agree name w :
  world_agree B1 B2 w = true →
  script (B := B1) name w = script (B := B2) name w.
Proof. intros Hw. unfold script. by rewrite run_main_agree. Qed.

End interp.

Lemma script_agree_witness :
  script (B := py2_blank) "__main__" demo_world
    = script (B := py3_blank) "__main__" demo_world.
Proof. by apply script_agree. Defined.
