(* ===== verification/Machine.v ===== *)
(** * Machine: the loop of [main] as a transition system

    The loop of line 132 takes the command names one at a time; an
    iteration either returns (by falling off its end, or by the
    [continue] of line 136) and the loop goes on, or raises and the run
    is over with the commands after it never reached.  [step] is this as
    a relation on configurations: what is left to do, the sink, and
    whether the loop is running, has finished or has failed.  [step_fun]
    is the same as a function, and [run] iterates it.

    The relation is deterministic and every step shortens what is left,
    so that every run ends, after at most one step per command and one
    more, and the configuration it ends in carries the result and the
    sink of [Sink.for_each]; this much holds of any body and is the
    library of this file.  The theorems are about the body of the
    script: where the loop ends (finished, when every command can be
    wrapped or skipped; failed at the first command that cannot, with
    the later ones never taken), and the invariant of the status stream
    in every configuration on the way, proved by induction on the
    steps. *)

From stdpp Require Import relations.
From S2P Require Import Prelude Regex Extern Descriptor Sink.
From S2P Require Import Normalizer Composer Emitter Generator Raw.

Inductive Status : Type :=
| Running
| Done
| Failed (x : exn).

#[global] Instance Status_eq_dec : EqDecision Status.
Proof. solve_decision. Defined.

Record Config : Type := {
  status : Status;
  todo : list string;
  sink : Sink;
}.

(** The loop about to take the first name of [l]. *)
Definition init (l : list string) (st : Sink) : Config :=
  {| status := Running; todo := l; sink := st |}.

(** What a configuration in which the loop is over says of the run. *)
Definition outcome (σ : Config) : option (result unit * Sink) :=
  match status σ with
  | Running => None
  | Done => Some (Ok tt, sink σ)
  | Failed x => Some (Raise x, sink σ)
  end.

(** One step per command, and the step that leaves the loop. *)
Definition steps_left (σ : Config) : nat :=
  match status σ with
  | Running => S (length (todo σ))
  | _ => 0
  end.

Section machine.
Context (body : string → M unit).

Inductive step : relation Config :=
| step_next c l st st' :
    runM (body c) st = (Ok tt, st') →
    step {| status := Running; todo := c :: l; sink := st |}
         {| status := Running; todo := l; sink := st' |}
| step_raise c l st x st' :
    runM (body c) st = (Raise x, st') →
    step {| status := Running; todo := c :: l; sink := st |}
         {| status := Failed x; todo := l; sink := st' |}
| step_done st :
    step {| status := Running; todo := []; sink := st |}
         {| status := Done; todo := []; sink := st |}.

Definition step_fun (σ : Config) : option Config :=
  match status σ, todo σ with
  | Running, c :: l =>
      match runM (body c) (sink σ) with
      | (Ok _, st') => Some {| status := Running; todo := l; sink := st' |}
      | (Raise x, st') => Some {| status := Failed x; todo := l; sink := st' |}
      end
  | Running, [] => Some {| status := Done; todo := []; sink := sink σ |}
  | _, _ => None
  end.

Fixpoint run (fuel : nat) (σ : Config) : Config :=
  match fuel with
  | 0 => σ
  | S n =>
      match step_fun σ with
      | Some σ' => run n σ'
      | None => σ
      end
  end.

End machine.

(** The loop of the script: the body is the body of [Raw]. *)
Definition loop_step `{B : Blank} `{U : Utils} (apidat : gmap string RawEntry)
    (docdat : DocStore) : relation Config :=
  step (wrap_command_raw apidat docdat).

Definition loop_run `{B : Blank} `{U : Utils} (apidat : gmap string RawEntry)
    (docdat : DocStore) (l : list string) (st : Sink) : Config :=
  run (wrap_command_raw apidat docdat) (S (length l)) (init l st).

(** ** A run, step by step *)

Example loop_run_demo :
  outcome (loop_run (raw_of <$> scenario_apidat) scenario_docdat
             ["Foo"; "SetUnits"] sink_empty)
    = Some (exec (main_loop_raw (raw_of <$> scenario_apidat) scenario_docdat
                    ["Foo"; "SetUnits"])).
Proof. vm_compute. done. Qed.

(** The loop fails at the second of three commands; the third is left. *)
Definition failed_run : Config :=
  loop_run (<["N" := NoReturns]> (raw_of <$> scenario_apidat))
    (<["N" := []]> scenario_docdat) ["Foo"; "N"; "SetUnits"] sink_empty.

Example loop_run_fails :
  status failed_run = Failed (KeyError "returns") ∧
  todo failed_run = ["SetUnits"] ∧
  printed (sink failed_run) =
    ["... unknown command: Foo. SKIPPING"; "... wrapping N"].
Proof. vm_compute. done. Qed.

(** ** The transition system *)

Section machine_lemmas.
Context (body : string → M unit).
Implicit Types (σ : Config) (l : list string) (st : Sink).
Local Abbreviation step := (step body).
Local Abbreviation step_fun := (step_fun body).
Local Abbreviation run := (run body).

Lemma step_fun_spec σ σ' : step σ σ' ↔ step_fun σ = Some σ'.
Proof.
  split.
  - intros [c l st st' H|c l st x st' H|st]; rw /step_fun /= ?H //.
  - destruct σ as [[] [|c l] st]; rw /step_fun //=.
    + intros [= <-]. constructor.
    + destruct (runM (body c) st) as [[[]|x] st'] eqn:H; intros [= <-];
        by constructor.
Qed.

(** A configuration can step exactly while the loop is running. *)
Lemma red_step σ : red step σ ↔ status σ = Running.
Proof.
  split; [by intros [σ' []]|]. intros Hs.
  destruct (step_fun σ) as [σ'|] eqn:H; [exists σ'; by apply step_fun_spec|].
  destruct σ as [[] [|c l] st]; rw /step_fun /= in H; try done.
  by destruct (runM (body c) st) as [[[]|x] st'].
Qed.

Lemma nf_step σ : nf step σ ↔ status σ ≠ Running.
Proof. unfold nf. by rw red_step. Qed.

(** Every step uses up one of the steps that are left. *)
Lemma step_steps_left σ σ' : step σ σ' → S (steps_left σ') ≤ steps_left σ.
Proof. intros []; rw /steps_left /=; lia. Qed.

Lemma run_nf n σ : nf step σ → run n σ = σ.
Proof.
  intros H. destruct n as [|n]; [done|]. simpl.
  destruct (step_fun σ) as [σ'|] eqn:Hs; [|done].
  destruct H. exists σ'. by apply step_fun_spec.
Qed.

(** With fuel for the steps that are left, [run] takes them all. *)
Lemma run_bsteps n σ :
  steps_left σ ≤ n → bsteps step n σ (run n σ) ∧ nf step (run n σ).
Proof.
  revert σ. induction n as [|n IH]; intros σ Hn.
  - split; [constructor|]. apply nf_step. unfold steps_left in Hn. simpl.
    destruct (status σ); [lia|done..].
  - simpl. destruct (step_fun σ) as [σ'|] eqn:Hs.
    + apply step_fun_spec in Hs. pose proof (step_steps_left _ _ Hs).
      destruct (IH σ') as [? ?]; [lia|]. split; [|done].
      by eapply bsteps_l.
    + split; [constructor|]. intros [σ' H%step_fun_spec]. congruence.
Qed.

(** A run that has ended has ended where [run] ends. *)
Lemma rtc_nf_run n σ σ' :
  steps_left σ ≤ n → rtc step σ σ' → nf step σ' → σ' = run n σ.
Proof.
  intros Hn Hr Hnf. revert n Hn.
  induction Hr as [σ|σ σ1 σ' H1 Hr IH]; intros n Hn.
  - by rw run_nf.
  - pose proof (step_steps_left _ _ H1). destruct n as [|n]; [lia|].
    simpl. apply step_fun_spec in H1. rw H1. apply IH; [done|lia].
Qed.

(** The result and the sink of the monadic loop, read off the
    configuration the machine ends in. *)
Lemma outcome_run l st :
  outcome (run (S (length l)) (init l st)) = Some (runM (for_each l body) st).
Proof.
  revert st. induction l as [|c l IH]; intros st; [done|].
  rw for_each_cons runM_bind. cbn [length]. unfold init in *.
  rw [run _ _]/= {1}/step_fun /=.
  destruct (runM (body c) st) as [[[]|x] st']; [apply IH|].
  done.
Qed.

(** The first step of a run, by what the body does. *)
Lemma run_cons_Ok n c l st st' :
  runM (body c) st = (Ok tt, st') →
  run (S n) (init (c :: l) st) = run n (init l st').
Proof. intros H. by rw /= /step_fun /= H. Qed.

Lemma run_cons_Raise n c l st x st' :
  runM (body c) st = (Raise x, st') →
  run (S n) (init (c :: l) st)
    = {| status := Failed x; todo := l; sink := st' |}.
Proof. intros H. rw /= /step_fun /= H. by apply run_nf, nf_step. Qed.

(** A body that returns exactly on the commands [ok] accepts, from any
    sink: the loop takes the commands up to the first that [ok] refuses,
    or all of them. *)
Lemma run_ends (ok : string → bool) l st :
  (∀ c st, (runM (body c) st).1 = Ok tt ↔ ok c = true) →
  match status (run (S (length l)) (init l st)) with
  | Running => False
  | Done => todo (run (S (length l)) (init l st)) = [] ∧ forallb ok l = true
  | Failed _ =>
      ∃ l1 c, l = l1 ++ c :: todo (run (S (length l)) (init l st)) ∧
        forallb ok l1 = true ∧ ok c = false
  end.
Proof.
  intros Hok. revert st. induction l as [|c l IH]; intros st; [done|].
  cbn [length]. pose proof (Hok c st) as Hc.
  destruct (runM (body c) st) as [[[]|x] st'] eqn:Hr; simpl in Hc.
  - rw (run_cons_Ok _ _ _ _ _ Hr) /= (proj1 Hc eq_refl). specialize (IH st').
    destruct (status _); [done..|].
    destruct IH as (l1 & c' & Hl & Hl1 & Hc').
    exists (c :: l1), c'. by rw /= -Hl Hl1 (proj1 Hc eq_refl).
  - rw (run_cons_Raise _ _ _ _ _ _ Hr) /=. exists [], c. split_and!; [done..|].
    destruct (ok c); [|done]. discriminate (proj2 Hc eq_refl).
Qed.

End machine_lemmas.

(** ** The loop of the script *)

Section loop.
Context `{B : Blank} `{U : Utils}.
Implicit Types (rawdat : gmap string RawEntry) (docdat : DocStore).
Implicit Types (σ : Config) (l : list string) (st : Sink).

Lemma loop_run_bsteps rawdat docdat l st :
  bsteps (loop_step rawdat docdat) (S (length l)) (init l st)
    (loop_run rawdat docdat l st) ∧
  nf (loop_step rawdat docdat) (loop_run rawdat docdat l st).
Proof. by apply run_bsteps. Qed.

(** One step of the loop keeps the invariant of the progress log. *)
Lemma loop_step_log rawdat docdat l st σ σ' :
  loop_step rawdat docdat σ σ' →
  (∃ l1, l = l1 ++ todo σ ∧
     printed (sink σ) = printed st ++ flat_map (raw_log_line rawdat) l1 ∧
     written st `prefix_of` written (sink σ)) →
  ∃ l1, l = l1 ++ todo σ' ∧
    printed (sink σ') = printed st ++ flat_map (raw_log_line rawdat) l1 ∧
    written st `prefix_of` written (sink σ').
Proof.
  intros Hs (l1 & Hl & Hp & Hw).
  destruct Hs as [c l' st1 st2 H|c l' st1 x st2 H|st1]; cbn [todo sink] in *;
    [| |by exists l1].
  all: exists (l1 ++ [c]).
  all: pose proof (wrap_command_raw_printed rawdat docdat c st1) as Hc.
  all: pose proof (appends_written (wrap_command_raw rawdat docdat c) st1) as Hx.
  all: rw H in Hc, Hx; cbn [snd] in Hc, Hx.
  all: split_and!; [by rw -assoc| |by etrans].
  all: by rw Hc Hp flat_map_app /= app_nil_r assoc.
Qed.

(** On complete dicts the body returns exactly on the commands that can
    be wrapped or skipped. *)
Lemma wrap_command_raw_returns apidat docdat c st :
  (runM (wrap_command_raw (raw_of <$> apidat) docdat c) st).1 = Ok tt ↔
  command_ok apidat docdat c = true.
Proof. rw runM_wrap_raw_of. apply wrap_command_returns. Qed.

(** C17. The loop ends, and where.  On a store of complete dicts the
    loop reaches a configuration in which it is over, and every run that
    is over is in that configuration.  There the loop has finished, with
    no command left, when every command can be wrapped or skipped; it has
    failed when one cannot, the first such command being the last one
    taken and the commands after it still to do.  The result and the
    sink of that configuration are those of [main_loop_raw]. *)
Theorem loop_ends apidat docdat l st :
  ∃ σ, rtc (loop_step (raw_of <$> apidat) docdat) (init l st) σ ∧
    (∀ σ', rtc (loop_step (raw_of <$> apidat) docdat) (init l st) σ' →
       nf (loop_step (raw_of <$> apidat) docdat) σ' → σ' = σ) ∧
    outcome σ = Some (runM (main_loop_raw (raw_of <$> apidat) docdat l) st) ∧
    match status σ with
    | Running => False
    | Done => todo σ = [] ∧ forallb (command_ok apidat docdat) l = true
    | Failed _ =>
        ∃ l1 c, l = l1 ++ c :: todo σ ∧
          forallb (command_ok apidat docdat) l1 = true ∧
          command_ok apidat docdat c = false
    end.
Proof.
  exists (loop_run (raw_of <$> apidat) docdat l st).
  destruct (loop_run_bsteps (raw_of <$> apidat) docdat l st) as [Hb Hnf].
  split_and!.
  - by eapply rtc_bsteps_2.
  - intros σ' Hr Hn. by apply rtc_nf_run.
  - apply outcome_run.
  - apply run_ends, wrap_command_raw_returns.
Qed.

(** C16. Invariant of the loop, in every configuration it reaches,
    finished, failed or on its way: the commands split into those the
    loop has taken and those left to do; the status stream has received
    one progress line for each command taken that has a kind, in their
    order, and nothing else; and what the file held at the start is still
    at its start. *)
Theorem loop_progress_log rawdat docdat l st σ :
  rtc (loop_step rawdat docdat) (init l st) σ →
  ∃ l1, l = l1 ++ todo σ ∧
    printed (sink σ) = printed st ++ flat_map (raw_log_line rawdat) l1 ∧
    written st `prefix_of` written (sink σ).
Proof.
  revert σ. apply rtc_ind_r.
  - exists []. by rw /= app_nil_r.
  - intros σ1 σ2 _ Hs IH. by eapply loop_step_log.
Qed.

End loop.

Lemma failed_run_rtc :
  rtc (loop_step (<["N" := NoReturns]> (raw_of <$> scenario_apidat))
         (<["N" := []]> scenario_docdat))
    (init ["Foo"; "N"; "SetUnits"] sink_empty) failed_run.
Proof. unfold failed_run. eapply rtc_bsteps_2, loop_run_bsteps. Qed.

Lemma loop_progress_log_witness :
  ∃ l1, ["Foo"; "N"; "SetUnits"] = l1 ++ todo failed_run ∧
    printed (sink failed_run) =
      printed sink_empty ++
      flat_map
        (raw_log_line (<["N" := NoReturns]> (raw_of <$> scenario_apidat))) l1 ∧
    written sink_empty `prefix_of` written (sink failed_run).
Proof. exact (loop_progress_log _ _ _ _ _ failed_run_rtc). Defined.
