(* ===== verification/WrapperSpec.v ===== *)
(** * WrapperSpec: the wrapper of a command as a structured value

    The specification of the generator, independent of the order in which
    the script builds and writes its strings.  A descriptor whose
    signature items and [returns] have the arity the data model states is
    read as a typed [Command]; [wrapper_of] decides what its wrapper
    holds (the arguments of the header with their default policy, the
    normalized parameters, the shape of the return value, the body
    template); [render] turns that value into text.  The refinement
    theorems state that the text the script writes for such a command is
    the rendering of its wrapper, and under which conditions on the
    parameter names. *)

From S2P Require Import Prelude Regex Extern Descriptor Sink.
From S2P Require Import Normalizer Composer Emitter Generator.

(** ** Kinds *)

Inductive Kind : Type :=
| Function
| Subroutine
| Datastruct
| Unknown
| Other.

#[global] Instance Kind_eq_dec : EqDecision Kind.
Proof. solve_decision. Defined.

(** The kind of a descriptor, from its [cmdtype]. *)
Definition kind_of (e : ApiEntry) : Kind :=
  if is_unknown e then Unknown
  else if is_function e then Function
  else if is_subroutine e then Subroutine
  else if is_datastruct e then Datastruct
  else Other.

(** ** Typed commands *)

Record Command : Type := {
  c_name : string;
  c_kind : Kind;
  c_tag : string;
  c_descr : string;
  c_sig : list (string * string);
  c_ret : option (string * string);
}.

(** The typed reading of a descriptor: defined when every signature item
    is a pair and [returns] is empty or a pair. *)
Definition command_of (cmdname : string) (e : ApiEntry) : option Command :=
  if wf_entry e then
    Some {| c_name := cmdname;
            c_kind := kind_of e;
            c_tag := cmdtype e;
            c_descr := descr e;
            c_sig := sig_pairs e;
            c_ret := match returns e with
                     | [] => None
                     | r => Some (sig_pair r)
                     end |}
  else None.

(** ** The wrapper of a command *)

Record NParam : Type := {
  np_name : string;
  np_array : bool;
  np_type : string;
}.

Section wrapper.
Context `{B : Blank}.

Definition normalize_param (p : string * string) : NParam :=
  {| np_name := PARMAT_sub p.1;
     np_array := PARMAT_search p.1;
     np_type := p.2 |}.

(** The shape of the value a wrapper documents as returned. *)
Inductive RetShape : Type :=
| RetNone
| RetOne (v : string * string)
| RetList (vs : list (string * string))
| RetRecord (name : string).

(** The values a subroutine returns: the explicit return first, then
    every parameter of the signature. *)
Definition returned (cmd : Command) : list (string * string) :=
  option_list (c_ret cmd) ++ c_sig cmd.

Definition ret_shape (cmd : Command) : RetShape :=
  match c_kind cmd with
  | Function =>
      match c_ret cmd with
      | Some v => RetOne v
      | None => RetNone
      end
  | Subroutine =>
      match returned cmd with
      | [] => RetNone
      | [v] => RetOne v
      | vs => RetList vs
      end
  | Datastruct => RetRecord (c_name cmd)
  | Unknown | Other => RetNone
  end.

(** The two templates of the body. *)
Inductive Body : Type :=
| BodyRecord (name : string) (fields : list string)
| BodyStub (name : string) (args : list string).

Record Wrapper : Type := {
  w_name : string;
  w_args : list (string * bool);
  w_tag : string;
  w_partial : bool;
  w_descr : string;
  w_params : list NParam;
  w_ret : RetShape;
  w_doc : Doc;
  w_body : Body;
}.

(** The decision procedure: what the wrapper of a command holds.  Every
    parameter of a data structure is optional, every parameter of another
    kind required; a data structure is built as a record, every other
    kind calls its stub. *)
Definition wrapper_of (cmd : Command) (doc : Doc) : Wrapper :=
  let ps := normalize_param <$> c_sig cmd in
  let partial := bool_decide (c_kind cmd = Datastruct) in
  {| w_name := c_name cmd;
     w_args := (λ p, (np_name p, partial)) <$> ps;
     w_tag := str_upper (c_tag cmd);
     w_partial := partial;
     w_descr := c_descr cmd;
     w_params := ps;
     w_ret := ret_shape cmd;
     w_doc := doc;
     w_body := if partial then BodyRecord (c_name cmd) (np_name <$> ps)
               else BodyStub (c_name cmd) (np_name <$> ps) |}.

(** The names for which the script and the specification agree: no
    stripped name is the receiver's, and a single parameter does not
    strip to the empty name. *)
Definition safe_names (cmd : Command) : bool :=
  forallb (λ p, negb (String.eqb (PARMAT_sub p.1) "self")) (c_sig cmd)
  && negb (bool_decide ((PARMAT_sub ∘ fst) <$> c_sig cmd = [""])).

End wrapper.

(** ** Rendering *)

Section render.
Context `{B : Blank} `{U : Utils}.

Definition render_arg (a : string * bool) : string :=
  if a.2 then a.1 +:+ "=None" else a.1.

Definition render_header (w : Wrapper) : string :=
  I1 +:+ "def " +:+ w_name w +:+ "("
     +:+ wrap_longlines (str_join ", " ("self" :: (render_arg <$> w_args w)))
           (Some 50) (" " *: 12)
     +:+ "):" +:+ nl.

Definition render_descr (w : Wrapper) : string :=
  "Wrapper for FRED " +:+ w_name w +:+ " " +:+ w_tag w +:+ "." +:+ nl
  +:+ I2 +:+ (if w_partial w
              then "Does not require all parameters to be set when invoked."
              else "Requires all parameters to be set when invoked.") +:+ nl
  +:+ nl +:+ I2 +:+ wrap_longlines (w_descr w) None I2.

Definition render_param (p : NParam) : string :=
  I2 +:+ np_name p +:+ ": "
     +:+ (if np_array p then "Array-like of " else "")
     +:+ vb2pytype (np_type p) "repr" +:+ nl.

Definition render_params (ps : list NParam) : string :=
  match ps with
  | [] => ""
  | _ => I2 +:+ "Parameters" +:+ nl +:+ I2 +:+ "----------" +:+ nl
           +:+ str_concat (render_param <$> ps)
  end.

Definition render_pair (v : string * string) : string :=
  v.1 +:+ ": " +:+ vb2pytype v.2 "repr".

Definition render_ret (r : RetShape) : string :=
  match r with
  | RetNone => ""
  | RetOne v => rethdg +:+ I2 +:+ render_pair v +:+ nl
  | RetList vs =>
      rethdg +:+ I2 +:+ "[" +:+ str_join ", " (render_pair <$> vs) +:+ "]"
        +:+ nl
  | RetRecord name =>
      rethdg +:+ I2 +:+ "datastruct: <com_record " +:+ name +:+ ">" +:+ nl
  end.

Definition render_doc (w : Wrapper) : string :=
  I2 +:+ "r" +:+ dq +:+ dq +:+ dq +:+ nl
  +:+ I2 +:+ "Python API documentation:" +:+ nl
  +:+ I2 +:+ "=========================" +:+ nl
  +:+ I2 +:+ render_descr w +:+ nl
  +:+ nl
  +:+ render_params (w_params w)
  +:+ render_ret (w_ret w)
  +:+ nl
  +:+ I2 +:+ "FRED documentation:" +:+ nl
  +:+ I2 +:+ "===================" +:+ nl
  +:+ fmt_docstr (w_doc w) I2
  +:+ I2 +:+ dq +:+ dq +:+ dq +:+ nl.

Definition render_field (f : string) : string :=
  I2 +:+ "if " +:+ f +:+ " is not None:" +:+ nl
  +:+ I2 +:+ I1 +:+ "setattr(dstruct, " +:+ dq +:+ f +:+ dq +:+ ", " +:+ f
  +:+ ")" +:+ nl.

Definition render_call_args (args : list string) : string :=
  match args with
  | [] => "None"
  | _ => wrap_longlines (str_join ", " args) (Some 50) (" " *: 12)
  end.

Definition render_body (b : Body) : string :=
  match b with
  | BodyRecord name fields =>
      I2 +:+ "dstruct = w32.Record(" +:+ dq +:+ name +:+ dq
         +:+ ", self._dobj)" +:+ nl
      +:+ str_concat (render_field <$> fields)
      +:+ I2 +:+ "return dstruct" +:+ nl
  | BodyStub name args =>
      I2 +:+ "lib = self._dobj.CreateLib(r" +:+ dq
         +:+ os_path_join STUBDIR (name +:+ ".frs") +:+ dq +:+ ")" +:+ nl
      +:+ I2 +:+ "return lib.libfunct(" +:+ render_call_args args +:+ ")"
      +:+ nl
  end.

(** The text of a wrapper: the separator, the header, the docstring and
    the body. *)
Definition render (w : Wrapper) : string :=
  separator +:+ render_header w +:+ render_doc w +:+ render_body (w_body w).

(** The wrappers of a run, in the order of the command names: one per
    command that has a typed descriptor, is not skipped and has a
    documentation block. *)
Definition wrappers (apidat : ApiStore) (docdat : DocStore)
    (cmdnames : list string) : list Wrapper :=
  omap (λ c,
    e ← apidat !! c;
    doc ← docdat !! c;
    cmd ← command_of c e;
    if decide (c_kind cmd = Unknown) then None
    else Some (wrapper_of cmd doc)) cmdnames.

(** The commands of a run that the specification covers: skipped, or
    typed, documented and with safe names. *)
Definition spec_ok (apidat : ApiStore) (docdat : DocStore)
    (cmdname : string) : bool :=
  match apidat !! cmdname with
  | None => false
  | Some e =>
      is_unknown e ||
      match command_of cmdname e, docdat !! cmdname with
      | Some cmd, Some _ => safe_names cmd
      | _, _ => false
      end
  end.

End render.

(** ** Two descriptors outside the safe names *)

(** A data structure with a field whose stripped name is [self]: the
    script writes the field without default, the specification with one. *)
Definition SelfField : ApiEntry :=
  {| cmdtype := "datastruct"; descr := ""; returns := [];
     sig := [["self()"; "Long"]] |}.

(** A subroutine whose only parameter strips to the empty name: the
    script passes the placeholder, the specification the (empty) name. *)
Definition EmptyName : ApiEntry :=
  {| cmdtype := "subroutine"; descr := ""; returns := [];
     sig := [["()"; "Long"]] |}.

(** ** Concrete runs *)

Example kind_of_scenarios :
  kind_of <$> [GetUnits; SetUnits; T_ENTITY; Foo]
    = [Function; Subroutine; Datastruct; Unknown].
Proof. done. Qed.

Example ret_shape_scenarios :
  ret_shape <$> omap (command_of "c") [GetUnits; SetUnits; T_ENTITY; GetTextPosition]
    = [RetOne ("Units", "String"); RetOne ("Units", "String");
       RetRecord "c"; RetList [("x", "Long"); ("pts()", "Double")]].
Proof. done. Qed.

Example render_T_ENTITY :
  render <$> (wrappers scenario_apidat scenario_docdat ["T_ENTITY"])
    = [file_text (exec (wrap_command scenario_apidat scenario_docdat
                          "T_ENTITY")).2].
Proof. vm_compute. done. Qed.

Example render_scenarios :
  str_concat (render <$> wrappers scenario_apidat scenario_docdat
                           scenario_cmdnames)
    = str_concat (tail (written (exec (main "now" scenario_apidat
                                         scenario_docdat scenario_cmdnames)).2)).
Proof. vm_compute. done. Qed.

Example SelfField_not_safe :
  (safe_names <$> command_of "S" SelfField) = Some false ∧
  (λ cmd, render_header (wrapper_of cmd [])) <$> command_of "S" SelfField
    = Some (I1 +:+ "def S(self, self=None):" +:+ nl) ∧
  written (exec (wrap_command {["S" := SelfField]} {["S" := []]} "S")).2 !! 1
    = Some (I1 +:+ "def S(self, self):" +:+ nl).
Proof. vm_compute. done. Qed.

Example EmptyName_not_safe :
  (safe_names <$> command_of "E" EmptyName) = Some false ∧
  (λ cmd, render_body (w_body (wrapper_of cmd []))) <$> command_of "E" EmptyName
    = Some (I2 +:+ "lib = self._dobj.CreateLib(r" +:+ dq +:+ "stubs/E.frs"
              +:+ dq +:+ ")" +:+ nl
            +:+ I2 +:+ "return lib.libfunct()" +:+ nl) ∧
  last (written (exec (wrap_command {["E" := EmptyName]} {["E" := []]} "E")).2)
    = Some (I2 +:+ "return lib.libfunct(None)" +:+ nl).
Proof. vm_compute. done. Qed.

(** ** Kinds and the tests of the script *)

Section kinds.
Context `{B : Blank}.
Implicit Types e : ApiEntry.

(** The four tests of the script on [cmdtype] exclude one another, and
    [kind_of] names the one that holds. *)
Lemma kind_of_spec e :
  is_unknown e = bool_decide (kind_of e = Unknown) ∧
  is_function e = bool_decide (kind_of e = Function) ∧
  is_subroutine e = bool_decide (kind_of e = Subroutine) ∧
  is_datastruct e = bool_decide (kind_of e = Datastruct).
Proof.
  unfold kind_of, is_unknown, is_function, is_subroutine, is_datastruct.
  destruct (String.eqb_spec (cmdtype e) "unknown") as [->|_]; [done|].
  destruct (String.eqb_spec (cmdtype e) "function") as [->|_]; [done|].
  destruct (String.eqb_spec (cmdtype e) "subroutine") as [->|_]; [done|].
  by destruct (String.eqb_spec (cmdtype e) "datastruct").
Qed.

Lemma is_datastruct_kind e : is_datastruct e = bool_decide (kind_of e = Datastruct).
Proof. apply kind_of_spec. Qed.

Lemma is_function_kind e : is_function e = bool_decide (kind_of e = Function).
Proof. apply kind_of_spec. Qed.

Lemma is_subroutine_kind e : is_subroutine e = bool_decide (kind_of e = Subroutine).
Proof. apply kind_of_spec. Qed.

Lemma is_unknown_kind e : is_unknown e = bool_decide (kind_of e = Unknown).
Proof. apply kind_of_spec. Qed.

(** What a typed command remembers of its descriptor. *)
Lemma command_of_Some cmdname e cmd :
  command_of cmdname e = Some cmd ↔
  wf_entry e = true ∧
  cmd = {| c_name := cmdname; c_kind := kind_of e; c_tag := cmdtype e;
           c_descr := descr e; c_sig := sig_pairs e;
           c_ret := match returns e with [] => None | r => Some (sig_pair r) end |}.
Proof. unfold command_of. destruct (wf_entry e); naive_solver. Qed.

Lemma command_of_is_Some cmdname e :
  is_Some (command_of cmdname e) ↔ wf_entry e = true.
Proof. unfold command_of. destruct (wf_entry e); by rw -?not_eq_None_Some. Qed.

Lemma command_of_fields cmdname e cmd :
  command_of cmdname e = Some cmd →
  c_name cmd = cmdname ∧ c_kind cmd = kind_of e.
Proof. by intros [_ ->]%command_of_Some. Qed.

Lemma wrapper_names cmd :
  np_name <$> (normalize_param <$> c_sig cmd)
    = (PARMAT_sub ∘ fst) <$> c_sig cmd.
Proof. by rw -list_fmap_compose. Qed.

(** The values [sigits] holds, read as pairs, are the returned values of
    the typed command. *)
Lemma sigits_of_returned cmdname e cmd :
  command_of cmdname e = Some cmd → sig_pair <$> sigits_of e = returned cmd.
Proof.
  intros [_ ->]%command_of_Some. unfold sigits_of, returned, sig_pairs. simpl.
  rw fmap_app. f_equal; [by destruct (returns e)|by destruct (sig e)].
Qed.

Lemma sigits_of_nonempty e :
  Nat.ltb 0 (length (sig e)) || Nat.ltb 0 (length (returns e))
    = Nat.ltb 0 (length (sigits_of e)).
Proof. unfold sigits_of. by destruct (sig e), (returns e). Qed.

End kinds.

(** ** The parts of a wrapper *)

Section parts.
Context `{B : Blank} `{U : Utils}.
Implicit Types (e : ApiEntry) (cmd : Command) (doc : Doc) (c : string).

Lemma param_line_render it :
  param_line it = render_param (normalize_param (sig_pair it)).
Proof. done. Qed.

(** The parameter section. *)
Lemma parameters_render c e cmd :
  command_of c e = Some cmd →
  str_concat (parameters_chunks (sig e))
    = render_params (normalize_param <$> c_sig cmd).
Proof.
  intros [_ ->]%command_of_Some. unfold sig_pairs. simpl.
  destruct (sig e) as [|it l]; [done|].
  rw /parameters_chunks /render_params -!list_fmap_compose.
  by str_simpl.
Qed.

(** The description. *)
Lemma descstr_render c e cmd doc :
  command_of c e = Some cmd →
  descstr_of c e = render_descr (wrapper_of cmd doc).
Proof.
  intros [_ ->]%command_of_Some.
  rw /descstr_of /render_descr /= is_datastruct_kind.
  case_bool_decide; by str_simpl.
Qed.

(** The return section of a subroutine, from the shape of [sigits]. *)
Lemma retstr_subroutine_shape e :
  forallb wf_sigitem (sigits_of e) = true →
  retstr_subroutine e =
    Ok (render_ret
          match sig_pair <$> sigits_of e with
          | [] => RetNone
          | [v] => RetOne v
          | vs => RetList vs
          end).
Proof.
  intros Hwf. rw /retstr_subroutine sigits_of_nonempty rstr_of_wf //.
  change (λ it, fmt_pair (sig_pair it).1 (sig_pair it).2)
    with (render_pair ∘ sig_pair).
  rw list_fmap_compose. by destruct (sigits_of e) as [|it1 [|it2 l]].
Qed.

(** The return section. *)
Lemma retstr_render c e cmd :
  command_of c e = Some cmd →
  retstr_of c e = Ok (render_ret (ret_shape cmd)).
Proof.
  intros Hcmd. pose proof (sigits_of_returned _ _ _ Hcmd) as Hret.
  apply command_of_Some in Hcmd as [Hwf ->].
  rw /retstr_of /ret_shape /= is_function_kind is_subroutine_kind
    is_datastruct_kind.
  destruct (kind_of e) eqn:Hk; simpl; try done.
  - apply andb_true_iff in Hwf as [_ Hr]. unfold retstr_function.
    apply wf_returns_spec in Hr as [->|(n & t & ->)]; [done|].
    by rw bool_decide_eq_true_2.
  - rw retstr_subroutine_shape; [|by rw Hret].
    apply wf_entry_cmd_ok in Hwf. apply andb_true_iff in Hwf as [_ Hwf].
    by rw /ret_wf is_function_kind is_subroutine_kind Hk
      -forallb_sigits_of in Hwf.
Qed.

End parts.

(** ** The header and the body *)

Section header_body.
Context `{B : Blank} `{U : Utils}.
Implicit Types (e : ApiEntry) (cmd : Command) (doc : Doc) (c : string).

Lemma safe_names_spec cmd :
  safe_names cmd = true ↔
  Forall (λ p, PARMAT_sub p.1 ≠ "self") (c_sig cmd) ∧
  (PARMAT_sub ∘ fst) <$> c_sig cmd ≠ [""].
Proof.
  rw /safe_names andb_true_iff negb_true_iff bool_decide_eq_false forallb_Forall.
  f_equiv. apply Forall_iff. intros p. rw negb_true_iff.
  by destruct (String.eqb_spec (PARMAT_sub p.1) "self").
Qed.

(** The stripped names, as [paramlist] holds them after the receiver. *)
Lemma paramlist_for_names c e cmd :
  command_of c e = Some cmd →
  paramlist_for e = "self" :: ((PARMAT_sub ∘ fst) <$> c_sig cmd).
Proof.
  intros [_ ->]%command_of_Some.
  by rw /paramlist_for /sig_pairs /= -!list_fmap_compose.
Qed.

(** The argument list of the header, when no stripped name is the
    receiver's. *)
Lemma arglist_render c e cmd doc :
  command_of c e = Some cmd →
  Forall (λ p, PARMAT_sub p.1 ≠ "self") (c_sig cmd) →
  arglist_of e (paramlist_for e)
    = "self" :: (render_arg <$> w_args (wrapper_of cmd doc)).
Proof.
  intros Hcmd Hsafe. rw (paramlist_for_names _ _ _ Hcmd).
  apply command_of_Some in Hcmd as [_ ->]. simpl in *.
  revert Hsafe. generalize (sig_pairs e). intros ps Hsafe.
  rw /arglist_of andb_false_r -!list_fmap_compose. f_equal.
  apply Forall_fmap_ext, (Forall_impl _ _ _ Hsafe). intros p Hp. simpl.
  rw /render_arg /= is_datastruct_kind.
  destruct (String.eqb_spec (PARMAT_sub p.1) "self"); [done|].
  by rw andb_true_r.
Qed.

Lemma setattr_render f : str_concat (setattr_chunks f) = render_field f.
Proof. rw /setattr_chunks /render_field. by str_simpl. Qed.

Lemma setattr_loop_render fields :
  str_concat (flat_map setattr_chunks fields)
    = str_concat (render_field <$> fields).
Proof.
  induction fields as [|f l IH]; [done|].
  change (flat_map setattr_chunks (f :: l))
    with (setattr_chunks f ++ flat_map setattr_chunks l).
  by rw str_concat_app fmap_cons str_concat_cons IH setattr_render.
Qed.

Context `{!UtilsLaws U}.

(** The arguments of the stub call, when a single parameter does not
    strip to the empty name. *)
Lemma paramstr_render names :
  names ≠ [""] → paramstr_of ("self" :: names) = render_call_args names.
Proof.
  intros Hn. rw paramstr_of_eq /=. destruct names as [|n l]; [done|].
  by rw decide_False; [intros [|]|].
Qed.

(** The body. *)
Lemma body_render c e cmd doc :
  command_of c e = Some cmd →
  (PARMAT_sub ∘ fst) <$> c_sig cmd ≠ [""] →
  str_concat (body_chunks e c (paramlist_for e))
    = render_body (w_body (wrapper_of cmd doc)).
Proof.
  intros Hcmd Hn. destruct (command_of_fields _ _ _ Hcmd) as [Hname Hkind].
  rw (paramlist_for_names _ _ _ Hcmd) /body_chunks is_datastruct_kind -Hkind.
  rw /wrapper_of. cbn [w_body]. rw wrapper_names Hname.
  case_bool_decide; cbn [tail render_body].
  - rw str_concat_cons str_concat_app setattr_loop_render. by str_simpl.
  - rw paramstr_render // /stubpath_of. by str_simpl.
Qed.

(** The text of the chunks of a wrapper is the rendering of the wrapper
    of the typed command. *)
Lemma wrapper_chunks_render c e cmd doc :
  command_of c e = Some cmd → safe_names cmd = true →
  str_concat (wrapper_chunks c e doc) = render (wrapper_of cmd doc).
Proof.
  intros Hcmd [Hself Hnil]%safe_names_spec.
  rw /wrapper_chunks !str_concat_app (body_render _ _ _ doc Hcmd Hnil).
  rw (parameters_render _ _ _ Hcmd) (arglist_render _ _ _ doc Hcmd Hself).
  rw /ret_section (retstr_render _ _ _ Hcmd) (descstr_render _ _ _ doc Hcmd).
  destruct (command_of_fields _ _ _ Hcmd) as [Hname _].
  rw /render /render_header /render_doc.
  change (w_name (wrapper_of cmd doc)) with (c_name cmd). rw Hname.
  by str_simpl.
Qed.

End header_body.

(** ** Refinement *)

Section refinement.
Context `{B : Blank} `{U : Utils} `{!UtilsLaws U}.
Implicit Types (apidat : ApiStore) (docdat : DocStore) (e : ApiEntry).
Implicit Types (cmd : Command) (doc : Doc) (c : string) (st : Sink).

(** C15. The return section the script composes for a typed command is
    the rendering of the shape the specification assigns to it: nothing
    or one pair for a function, nothing, one bare pair or a bracketed
    list (explicit return first, then the parameters in order) for a
    subroutine, the record tag for a data structure. *)
Theorem retstr_of_refines c e cmd :
  command_of c e = Some cmd →
  retstr_of c e = Ok (render_ret (ret_shape cmd)).
Proof. apply retstr_render. Qed.

Lemma runM_wrap_render apidat docdat c e doc cmd st :
  apidat !! c = Some e → docdat !! c = Some doc →
  command_of c e = Some cmd → c_kind cmd ≠ Unknown → safe_names cmd = true →
  runM (wrap_command apidat docdat c) st =
    (Ok tt, sink_print (sink_write st (wrapper_chunks c e doc))
              ["... wrapping " +:+ c]) ∧
  str_concat (wrapper_chunks c e doc) = render (wrapper_of cmd doc).
Proof.
  intros He Hd Hcmd Hk Hsafe. split; [|by apply wrapper_chunks_render].
  destruct (command_of_fields _ _ _ Hcmd) as [_ Hkind].
  apply command_of_Some in Hcmd as [Hwf _].
  apply runM_wrap_ok; [done| |by apply wf_entry_cmd_ok|done].
  rw is_unknown_kind -Hkind. by apply bool_decide_eq_false.
Qed.

(** C13. Refinement, for one command: when the descriptor is typed, its
    kind is not unknown, it has a documentation block and its stripped
    names are safe, the script returns without raising and what it
    appends to the file is the rendering of the wrapper the decision
    procedure assigns to the command. *)
Theorem wrap_command_refines apidat docdat c e doc cmd st :
  apidat !! c = Some e → docdat !! c = Some doc →
  command_of c e = Some cmd → c_kind cmd ≠ Unknown → safe_names cmd = true →
  (runM (wrap_command apidat docdat c) st).1 = Ok tt ∧
  file_text (runM (wrap_command apidat docdat c) st).2
    = file_text st +:+ render (wrapper_of cmd doc).
Proof.
  intros He Hd Hcmd Hk Hsafe.
  destruct (runM_wrap_render _ _ _ _ _ _ st He Hd Hcmd Hk Hsafe) as [-> <-].
  by rw file_text_print file_text_write.
Qed.

Lemma spec_ok_command_ok apidat docdat c :
  spec_ok apidat docdat c = true → command_ok apidat docdat c = true.
Proof.
  unfold spec_ok, command_ok. destruct (apidat !! c) as [e|]; [|done].
  destruct (is_unknown e); [done|]. simpl.
  destruct (command_of c e) as [cmd|] eqn:Hcmd; [|done].
  apply command_of_Some in Hcmd as [->%wf_entry_cmd_ok _].
  by destruct (docdat !! c).
Qed.

Lemma wrappers_one apidat docdat c e doc cmd :
  apidat !! c = Some e → docdat !! c = Some doc →
  command_of c e = Some cmd →
  wrappers apidat docdat [c]
    = if is_unknown e then [] else [wrapper_of cmd doc].
Proof.
  intros He Hd Hcmd. destruct (command_of_fields _ _ _ Hcmd) as [_ Hk].
  rw /wrappers /= He /= Hd /= Hcmd /= is_unknown_kind -Hk.
  by case_bool_decide; case_decide.
Qed.

Lemma wrappers_none apidat docdat c :
  apidat !! c ≫= (λ e, docdat !! c ≫= λ _, command_of c e) = None →
  wrappers apidat docdat [c] = [].
Proof.
  rw /wrappers /=. destruct (apidat !! c) as [e|]; [|done]. simpl.
  destruct (docdat !! c); [|done]. simpl. by intros ->.
Qed.

(** What a covered command writes is the rendering of its wrapper, or
    nothing when it is skipped. *)
Lemma command_chunks_render apidat docdat c :
  spec_ok apidat docdat c = true →
  str_concat (command_chunks apidat docdat c)
    = str_concat (render <$> wrappers apidat docdat [c]).
Proof.
  unfold spec_ok, command_chunks.
  destruct (apidat !! c) as [e|] eqn:He; [|done].
  destruct (docdat !! c) as [doc|] eqn:Hd;
    destruct (command_of c e) as [cmd|] eqn:Hcmd;
    rw ?orb_false_r ?(wrappers_one _ _ _ _ _ _ He Hd Hcmd)
       ?wrappers_none ?He ?Hd ?Hcmd //; try by intros ->.
  destruct (is_unknown e); [done|]. intros Hsafe.
  by rw (wrapper_chunks_render _ _ _ doc Hcmd Hsafe) str_concat_singleton.
Qed.

Lemma wrappers_cons apidat docdat c l :
  wrappers apidat docdat (c :: l)
    = wrappers apidat docdat [c] ++ wrappers apidat docdat l.
Proof. unfold wrappers. simpl. by destruct (_ ≫= _). Qed.

Lemma main_loop_render apidat docdat l :
  forallb (spec_ok apidat docdat) l = true →
  str_concat (flat_map (command_chunks apidat docdat) l)
    = str_concat (render <$> wrappers apidat docdat l).
Proof.
  induction l as [|c l IH]; [done|]. intros [Hc Hl]%andb_true_iff.
  change (flat_map (command_chunks apidat docdat) (c :: l))
    with (command_chunks apidat docdat c
          ++ flat_map (command_chunks apidat docdat) l).
  by rw wrappers_cons fmap_app !str_concat_app IH // command_chunks_render.
Qed.

Lemma main_render t apidat docdat l :
  forallb (spec_ok apidat docdat) l = true →
  (exec (main t apidat docdat l)).1 = Ok tt ∧
  file_text (exec (main t apidat docdat l)).2
    = CLASTR t +:+ str_concat (render <$> wrappers apidat docdat l).
Proof.
  intros Hl. assert (forallb (command_ok apidat docdat) l = true) as Hok.
  { apply forallb_Forall. apply forallb_Forall in Hl.
    eapply Forall_impl; [done|]. apply spec_ok_command_ok. }
  by rw main_exec /exec main_loop_ok // -main_loop_render.
Qed.

(** C14. Refinement, for the run: on stores whose listed commands are
    all covered by the specification, [main] returns without raising and
    the file is the class header followed by the renderings of the
    wrappers of the commands that are not skipped, in the order of the
    list. *)
Theorem main_refines t apidat docdat l :
  forallb (spec_ok apidat docdat) l = true →
  (exec (main t apidat docdat l)).1 = Ok tt ∧
  file_text (exec (main t apidat docdat l)).2
    = CLASTR t +:+ str_concat (render <$> wrappers apidat docdat l).
Proof. apply main_render. Qed.

(** ** The names of the wrappers *)

(** Every wrapper carries the name of the command it was made for. *)
Lemma wrappers_names apidat docdat l :
  w_name <$> wrappers apidat docdat l `sublist_of` l.
Proof.
  induction l as [|c l IH]; [done|]. rw wrappers_cons fmap_app.
  change (c :: l) with ([c] ++ l). apply sublist_app; [|done].
  unfold wrappers. simpl. destruct (apidat !! c) as [e|]; [|by constructor].
  simpl. destruct (docdat !! c); [|by constructor]. simpl.
  destruct (command_of c e) as [cmd|] eqn:Hcmd; [|by constructor]. simpl.
  destruct (command_of_fields _ _ _ Hcmd) as [<- _].
  case_decide; by repeat constructor.
Qed.

(** When the command names are the keys of the store, each once, the
    wrappers of the run have names of their own. *)
Lemma wrappers_unique apidat docdat l :
  keys_of apidat l → NoDup (w_name <$> wrappers apidat docdat l).
Proof.
  intros [Hl _]. pose proof (wrappers_names apidat docdat l) as Hsub.
  by eapply sublist_NoDup.
Qed.

End refinement.

Lemma retstr_of_refines_witness :
  retstr_of "GetTextPosition" GetTextPosition =
    Ok (render_ret (RetList [("x", "Long"); ("pts()", "Double")])).
Proof.
  by apply (retstr_of_refines "GetTextPosition" GetTextPosition
              {| c_name := "GetTextPosition"; c_kind := Subroutine;
                 c_tag := "subroutine"; c_descr := "Gets the text position.";
                 c_sig := [("x", "Long"); ("pts()", "Double")];
                 c_ret := None |}).
Defined.

Lemma wrap_command_refines_witness :
  (runM (wrap_command scenario_apidat scenario_docdat "T_ENTITY") sink_empty).1
    = Ok tt ∧
  file_text
    (runM (wrap_command scenario_apidat scenario_docdat "T_ENTITY")
       sink_empty).2
    = file_text sink_empty +:+
      render (wrapper_of
                {| c_name := "T_ENTITY"; c_kind := Datastruct;
                   c_tag := "datastruct"; c_descr := "An entity.";
                   c_sig := [("Idnum", "Long"); ("Name", "String")];
                   c_ret := None |} []).
Proof. by apply (wrap_command_refines _ _ _ T_ENTITY). Defined.

Lemma main_refines_witness :
  (exec (main "now" scenario_apidat scenario_docdat scenario_cmdnames)).1
    = Ok tt ∧
  file_text (exec (main "now" scenario_apidat scenario_docdat
                     scenario_cmdnames)).2
    = CLASTR "now" +:+
      str_concat (render <$> wrappers scenario_apidat scenario_docdat
                               scenario_cmdnames).
Proof. by apply main_refines. Defined.
