(* ===== verification/Top.v ===== *)
(** * Top: the script against its specification

    The theorems of the components, composed: [Script] runs [Raw.main_raw]
    on the files, [Raw] runs as [Generator] on complete dicts, and
    [WrapperSpec] reads the text [Generator] writes as the rendering of
    the wrappers of the specification.  The theorem of this file is about
    the program as it is started: the module loaded as [__main__], on
    input files that hold what the specification expects, leaves an output
    file whose text is the class header, stamped with the time the module
    was loaded, followed by the renderings of the wrappers, and closes
    it. *)

From S2P Require Import Prelude Regex Extern Descriptor Sink Encoding.
From S2P Require Import Normalizer Composer Emitter Generator Raw Script.
From S2P Require Import WrapperSpec.

(** The text of the output file, if there is one. *)
Definition pyapi_text (w : World) : option string := str_concat <$> pyapi w.

(** Its bytes on disk: each chunk was encoded when [fid.write] was
    called with it. *)
Definition pyapi_bytes (w : World) : option string := fid_bytes <$> pyapi w.

Section top.
Context `{B : Blank} `{UL : UtilsLaws} `{G : Glovars}.

(** The wrappers the specification assigns to the dict [l] of
    descriptors, in the order of its keys. *)
Definition spec_wrappers (l : list (string * ApiEntry)) (docdat : DocStore)
    : list Wrapper :=
  wrappers (list_to_map l) docdat (keys l).

(** The input files hold what the specification expects: a dict of
    complete descriptors, with the items [l], and documentation [docdat]
    such that every command is skipped or typed, documented and with
    safe names; and the output can be opened. *)
Definition inputs_ok (w : World) (l : list (string * ApiEntry))
    (docdat : DocStore) : Prop :=
  pairs <$> api_yaml w = Some (prod_map id raw_of <$> l) ∧
  doc_yaml w = Some docdat ∧ writable w = true ∧
  forallb (spec_ok (list_to_map l) docdat) (keys l) = true.

End top.

(** ** Lemmas *)

Section top_lemmas.
Context `{B : Blank} `{UL : UtilsLaws} `{G : Glovars}.
Implicit Types (w : World) (l : list (string * ApiEntry)) (docdat : DocStore).

(** The keys of a dict read from a file are the keys of the store. *)
Lemma keys_of_list_to_map l :
  NoDup (keys l) → keys_of (list_to_map l) (keys l).
Proof.
  intros Hl. split; [done|]. intros c. unfold keys.
  destruct (list_to_map l !! c) as [e|] eqn:Hc.
  - split; [by eexists|]. intros _.
    apply elem_of_list_to_map_2 in Hc. by apply (list_elem_of_fmap_2 fst) in Hc.
  - split; [|by intros [? ?]]. intros Hin.
    by apply not_elem_of_list_to_map in Hc.
Qed.

(** The bytes on disk are the encoding of the text, and the text itself
    when it is ASCII. *)
Lemma pyapi_bytes_text w : pyapi_bytes w = utf8_encode <$> pyapi_text w.
Proof.
  unfold pyapi_bytes, pyapi_text. destruct (pyapi w) as [l|]; [|done].
  by rw /= fid_bytes_text.
Qed.

Lemma pyapi_bytes_decode w :
  pyapi_bytes w ≫= utf8_decode = pyapi_text w.
Proof.
  rw pyapi_bytes_text. destruct (pyapi_text w) as [t|]; [|done].
  apply utf8_decode_encode.
Qed.

(** The items of a dict have distinct keys. *)
Lemma inputs_ok_NoDup w l docdat : inputs_ok w l docdat → NoDup (keys l).
Proof.
  intros ([d [_ Hp]]%fmap_Some & _). rw -keys_raw Hp. apply pydict_NoDup.
Qed.

(** The run of [main] on inputs the specification covers. *)
Lemma run_main_render t w l docdat :
  inputs_ok w l docdat →
  (run_main t w).1 = Ok tt ∧
  pyapi_text (run_main t w).2
    = Some (CLASTR t +:+ str_concat (render <$> spec_wrappers l docdat)) ∧
  fid_open (run_main t w).2 = false.
Proof.
  intros ([d [Ha Hp]]%fmap_Some & Hd & Hw & Hl).
  rw (run_main_run t w _ docdat Ha Hd Hw) -Hp list_to_map_raw keys_raw.
  rw /exec runM_main_raw_of -/(exec _). cbv zeta.
  destruct (main_render t _ _ _ Hl) as [Hr Ht].
  by rw Hr /pyapi_text /= -/(file_text _) Ht.
Qed.

(** C11. The program against its specification.  Started as the program,
    on input files that hold a dict of complete descriptors and the
    documentation, with every command skipped or typed, documented and
    with safe names, the script returns without raising, closes the
    output file, and leaves in it the class header with the time of
    loading followed by the renderings of the wrappers of the
    specification, in the order of the keys; no two of these wrappers
    have the same name. *)
Theorem script_refines w l docdat :
  inputs_ok w l docdat →
  (script "__main__" w).1 = Ok tt ∧
  pyapi_text (script "__main__" w).2
    = Some (CLASTR (TIMENOW w)
              +:+ str_concat (render <$> spec_wrappers l docdat)) ∧
  fid_open (script "__main__" w).2 = false ∧
  NoDup (w_name <$> spec_wrappers l docdat).
Proof.
  intros Hin. destruct (run_main_render (TIMENOW w) w l docdat Hin)
    as (Hr & Ht & Hc).
  split_and!; [done..|].
  by eapply wrappers_unique, keys_of_list_to_map, inputs_ok_NoDup.
Qed.

(** C20. The bytes on disk.  After a run on input files that hold what
    the specification expects, the output file holds the encoding of the
    class header followed by the encodings of the renderings of the
    wrappers, in the order of the keys and with nothing of an earlier run
    before or after them; read back with a strict UTF-8 decoder, the file
    is the text of the specification. *)
Theorem script_bytes w l docdat :
  inputs_ok w l docdat →
  pyapi_bytes (script "__main__" w).2
    = Some (utf8_encode (CLASTR (TIMENOW w))
            +:+ str_concat (utf8_encode ∘ render <$> spec_wrappers l docdat)) ∧
  pyapi_bytes (script "__main__" w).2 ≫= utf8_decode
    = Some (CLASTR (TIMENOW w)
            +:+ str_concat (render <$> spec_wrappers l docdat)).
Proof.
  intros Hin. destruct (run_main_render (TIMENOW w) w l docdat Hin)
    as (_ & Ht & _).
  change (script "__main__" w) with (run_main (TIMENOW w) w).
  split; [|by rw pyapi_bytes_decode].
  by rw pyapi_bytes_text Ht /= utf8_encode_app utf8_encode_concat
    -list_fmap_compose.
Qed.

End top_lemmas.

Lemma demo_inputs_ok :
  inputs_ok demo_world
    [("GetUnits", GetUnits); ("Foo", Foo); ("SetUnits", SetUnits)]
    scenario_docdat.
Proof.
  by split_and!.
Qed.

Lemma script_refines_witness :
  (script "__main__" demo_world).1 = Ok tt ∧
  pyapi_text (script "__main__" demo_world).2
    = Some (CLASTR (TIMENOW demo_world)
              +:+ str_concat
                    (render <$> spec_wrappers
                       [("GetUnits", GetUnits); ("Foo", Foo);
                        ("SetUnits", SetUnits)] scenario_docdat)) ∧
  fid_open (script "__main__" demo_world).2 = false ∧
  NoDup (w_name <$> spec_wrappers
           [("GetUnits", GetUnits); ("Foo", Foo); ("SetUnits", SetUnits)]
           scenario_docdat).
Proof. exact (script_refines _ _ _ demo_inputs_ok). Defined.

Lemma script_bytes_witness :
  pyapi_bytes (script "__main__" demo_world).2
    = Some (utf8_encode (CLASTR (TIMENOW demo_world))
            +:+ str_concat
                  (utf8_encode ∘ render <$> spec_wrappers
                     [("GetUnits", GetUnits); ("Foo", Foo);
                      ("SetUnits", SetUnits)] scenario_docdat)) ∧
  pyapi_bytes (script "__main__" demo_world).2 ≫= utf8_decode
    = Some (CLASTR (TIMENOW demo_world)
            +:+ str_concat
                  (render <$> spec_wrappers
                     [("GetUnits", GetUnits); ("Foo", Foo);
                      ("SetUnits", SetUnits)] scenario_docdat)).
Proof. exact (script_bytes _ _ _ demo_inputs_ok). Defined.
