(* ===== verification/Conformance.v ===== *)
(** * Conformance: runs of the script, recorded

    The texts below are what [script03_apiwrapgen.py] itself wrote and
    printed when its [main] was run on the stores of this file, with
    [utils_parse], [glovars] and [os.path.join] replaced by functions that
    behave as the reference instance [ref_utils] and with the timestamp
    set to [now].  Each example states that the model computes the same
    outcome, the same file (after the class header) and the same status
    lines.  The stores cover the four kinds and a fifth one, array-like
    names with blanks and with nested parentheses, a field that strips to
    [self], a name that strips to nothing, a subroutine with an explicit
    return, a signature item that is not a pair, a [returns] of one
    element, and a missing documentation block.

    The second part records runs of the script as a program: the file
    loaded under the name [__main__] or imported, with the clock stopped,
    on input files that are readable or not, that hold complete dicts or
    dicts with a key missing, and on an output path that holds the file
    of an earlier run, nothing, or something that cannot be opened.  Each
    example states that [Script.script] computes the same outcome, the
    same text of the output file, the same status lines and the same
    answer to whether [fid] was left open.  One run has text outside
    ASCII and compares the bytes on disk; one run has parameter names
    with the blanks [U+00A0] and [U+001F] before the marker, which the
    pattern of Python 3 strips and the pattern of Python 2 keeps, so that
    it fixes the class of blanks of the recorded interpreter
    ([Regex.py3_blank]); one run has a kind with letters outside ASCII,
    which [str.upper] maps as [Prelude.str_upper] does; one run replaces
    the
    collaborators by functions that show their arguments, so that it
    compares what the script passes at every call of [utils] and
    [os.path.join]. *)

From stdpp Require Import pretty.
From S2P Require Import Prelude Regex Extern Descriptor Sink Encoding.
From S2P Require Import Normalizer Composer Emitter Generator Raw Script.
From S2P Require Import WrapperSpec Top.


(** ** The stores and what the script wrote *)

Definition kinds_apidat : ApiStore :=
  list_to_map [
     ("GetUnits", {| cmdtype := "function"; descr := "Gets the units."; returns := ["Units"; "String"]; sig := [] |}); 
     ("Foo", {| cmdtype := "unknown"; descr := ""; returns := []; sig := [] |}); 
     ("SetUnits", {| cmdtype := "subroutine"; descr := "Sets the units."; returns := []; sig := [["Units"; "String"]] |}); 
     ("T_ENTITY", {| cmdtype := "datastruct"; descr := "An entity."; returns := []; sig := [["Idnum"; "Long"]; ["Name"; "String"]] |})].

Definition kinds_docdat : DocStore :=
  list_to_map [
     ("GetUnits", [("Description", "Returns the units.")]); 
     ("SetUnits", []); 
     ("T_ENTITY", [])].

Definition kinds_cmdnames : list string :=
  ["GetUnits"; "Foo"; "SetUnits"; "T_ENTITY"].

Definition kinds_run : result unit * Sink :=
  exec (main "now" kinds_apidat kinds_docdat kinds_cmdnames).

Definition kinds_text : string :=
  "    # =-=-=-=-=-=-=-=-=-=-=-=-=-=-=-=-=-=-=-=-=-=-=-=-=-=-=-=-=-=-=-=-=-=-=-=-=
    def GetUnits(self):
        r" +:+ dq +:+ dq +:+ dq +:+ "
        Python API documentation:
        =========================
        Wrapper for FRED GetUnits FUNCTION.
        Requires all parameters to be set when invoked.

        Gets the units.


        Returns
        -------
        Units: str

        FRED documentation:
        ===================
        Description
        Returns the units.
        " +:+ dq +:+ dq +:+ dq +:+ "
        lib = self._dobj.CreateLib(r" +:+ dq +:+ "stubs/GetUnits.frs" +:+ dq +:+ ")
        return lib.libfunct(None)
    # =-=-=-=-=-=-=-=-=-=-=-=-=-=-=-=-=-=-=-=-=-=-=-=-=-=-=-=-=-=-=-=-=-=-=-=-=
    def SetUnits(self, Units):
        r" +:+ dq +:+ dq +:+ dq +:+ "
        Python API documentation:
        =========================
        Wrapper for FRED SetUnits SUBROUTINE.
        Requires all parameters to be set when invoked.

        Sets the units.

        Parameters
        ----------
        Units: str

        Returns
        -------
        Units: str

        FRED documentation:
        ===================
        " +:+ dq +:+ dq +:+ dq +:+ "
        lib = self._dobj.CreateLib(r" +:+ dq +:+ "stubs/SetUnits.frs" +:+ dq +:+ ")
        return lib.libfunct(Units)
    # =-=-=-=-=-=-=-=-=-=-=-=-=-=-=-=-=-=-=-=-=-=-=-=-=-=-=-=-=-=-=-=-=-=-=-=-=
    def T_ENTITY(self, Idnum=None, Name=None):
        r" +:+ dq +:+ dq +:+ dq +:+ "
        Python API documentation:
        =========================
        Wrapper for FRED T_ENTITY DATASTRUCT.
        Does not require all parameters to be set when invoked.

        An entity.

        Parameters
        ----------
        Idnum: int
        Name: str

        Returns
        -------
        datastruct: <com_record T_ENTITY>

        FRED documentation:
        ===================
        " +:+ dq +:+ dq +:+ dq +:+ "
        dstruct = w32.Record(" +:+ dq +:+ "T_ENTITY" +:+ dq +:+ ", self._dobj)
        if Idnum is not None:
            setattr(dstruct, " +:+ dq +:+ "Idnum" +:+ dq +:+ ", Idnum)
        if Name is not None:
            setattr(dstruct, " +:+ dq +:+ "Name" +:+ dq +:+ ", Name)
        return dstruct
".

Definition kinds_log : string :=
  "
Wrapping commands in python...
... wrapping GetUnits
... unknown command: Foo. SKIPPING
... wrapping SetUnits
... wrapping T_ENTITY
".

Definition more_apidat : ApiStore :=
  list_to_map [
     ("GetTextPosition", {| cmdtype := "subroutine"; descr := "Gets the text position."; returns := []; sig := [["x"; "Long"]; ["pts()"; "Double"]] |}); 
     ("S", {| cmdtype := "datastruct"; descr := ""; returns := []; sig := [["self()"; "Long"]] |}); 
     ("E", {| cmdtype := "subroutine"; descr := ""; returns := []; sig := [["()"; "Long"]] |}); 
     ("R", {| cmdtype := "subroutine"; descr := "r"; returns := ["ret"; "Long"]; sig := [["a ( )"; "Double"]; ["f(())"; "T_X"]] |}); 
     ("K", {| cmdtype := "macro"; descr := "other kind"; returns := []; sig := [["a"; "Long"]] |}); 
     ("F0", {| cmdtype := "function"; descr := "no return"; returns := []; sig := [["a"; "Long"]] |})].

Definition more_docdat : DocStore :=
  list_to_map [
     ("GetTextPosition", [("H", "text of GetTextPosition")]); 
     ("S", [("H", "text of S")]); 
     ("E", [("H", "text of E")]); 
     ("R", [("H", "text of R")]); 
     ("K", [("H", "text of K")]); 
     ("F0", [("H", "text of F0")])].

Definition more_cmdnames : list string :=
  ["GetTextPosition"; "S"; "E"; "R"; "K"; "F0"].

Definition more_run : result unit * Sink :=
  exec (main "now" more_apidat more_docdat more_cmdnames).

Definition more_text : string :=
  "    # =-=-=-=-=-=-=-=-=-=-=-=-=-=-=-=-=-=-=-=-=-=-=-=-=-=-=-=-=-=-=-=-=-=-=-=-=
    def GetTextPosition(self, x, pts):
        r" +:+ dq +:+ dq +:+ dq +:+ "
        Python API documentation:
        =========================
        Wrapper for FRED GetTextPosition SUBROUTINE.
        Requires all parameters to be set when invoked.

        Gets the text position.

        Parameters
        ----------
        x: int
        pts: Array-like of float

        Returns
        -------
        [x: int, pts(): float]

        FRED documentation:
        ===================
        H
        text of GetTextPosition
        " +:+ dq +:+ dq +:+ dq +:+ "
        lib = self._dobj.CreateLib(r" +:+ dq +:+ "stubs/GetTextPosition.frs" +:+ dq +:+ ")
        return lib.libfunct(x, pts)
    # =-=-=-=-=-=-=-=-=-=-=-=-=-=-=-=-=-=-=-=-=-=-=-=-=-=-=-=-=-=-=-=-=-=-=-=-=
    def S(self, self):
        r" +:+ dq +:+ dq +:+ dq +:+ "
        Python API documentation:
        =========================
        Wrapper for FRED S DATASTRUCT.
        Does not require all parameters to be set when invoked.

        

        Parameters
        ----------
        self: Array-like of int

        Returns
        -------
        datastruct: <com_record S>

        FRED documentation:
        ===================
        H
        text of S
        " +:+ dq +:+ dq +:+ dq +:+ "
        dstruct = w32.Record(" +:+ dq +:+ "S" +:+ dq +:+ ", self._dobj)
        if self is not None:
            setattr(dstruct, " +:+ dq +:+ "self" +:+ dq +:+ ", self)
        return dstruct
    # =-=-=-=-=-=-=-=-=-=-=-=-=-=-=-=-=-=-=-=-=-=-=-=-=-=-=-=-=-=-=-=-=-=-=-=-=
    def E(self, ):
        r" +:+ dq +:+ dq +:+ dq +:+ "
        Python API documentation:
        =========================
        Wrapper for FRED E SUBROUTINE.
        Requires all parameters to be set when invoked.

        

        Parameters
        ----------
        : Array-like of int

        Returns
        -------
        (): int

        FRED documentation:
        ===================
        H
        text of E
        " +:+ dq +:+ dq +:+ dq +:+ "
        lib = self._dobj.CreateLib(r" +:+ dq +:+ "stubs/E.frs" +:+ dq +:+ ")
        return lib.libfunct(None)
    # =-=-=-=-=-=-=-=-=-=-=-=-=-=-=-=-=-=-=-=-=-=-=-=-=-=-=-=-=-=-=-=-=-=-=-=-=
    def R(self, a, f()):
        r" +:+ dq +:+ dq +:+ dq +:+ "
        Python API documentation:
        =========================
        Wrapper for FRED R SUBROUTINE.
        Requires all parameters to be set when invoked.

        r

        Parameters
        ----------
        a: Array-like of float
        f(): Array-like of T_X

        Returns
        -------
        [ret: int, a ( ): float, f(()): T_X]

        FRED documentation:
        ===================
        H
        text of R
        " +:+ dq +:+ dq +:+ dq +:+ "
        lib = self._dobj.CreateLib(r" +:+ dq +:+ "stubs/R.frs" +:+ dq +:+ ")
        return lib.libfunct(a, f())
    # =-=-=-=-=-=-=-=-=-=-=-=-=-=-=-=-=-=-=-=-=-=-=-=-=-=-=-=-=-=-=-=-=-=-=-=-=
    def K(self, a):
        r" +:+ dq +:+ dq +:+ dq +:+ "
        Python API documentation:
        =========================
        Wrapper for FRED K MACRO.
        Requires all parameters to be set when invoked.

        other kind

        Parameters
        ----------
        a: int

        FRED documentation:
        ===================
        H
        text of K
        " +:+ dq +:+ dq +:+ dq +:+ "
        lib = self._dobj.CreateLib(r" +:+ dq +:+ "stubs/K.frs" +:+ dq +:+ ")
        return lib.libfunct(a)
    # =-=-=-=-=-=-=-=-=-=-=-=-=-=-=-=-=-=-=-=-=-=-=-=-=-=-=-=-=-=-=-=-=-=-=-=-=
    def F0(self, a):
        r" +:+ dq +:+ dq +:+ dq +:+ "
        Python API documentation:
        =========================
        Wrapper for FRED F0 FUNCTION.
        Requires all parameters to be set when invoked.

        no return

        Parameters
        ----------
        a: int

        FRED documentation:
        ===================
        H
        text of F0
        " +:+ dq +:+ dq +:+ dq +:+ "
        lib = self._dobj.CreateLib(r" +:+ dq +:+ "stubs/F0.frs" +:+ dq +:+ ")
        return lib.libfunct(a)
".

Definition more_log : string :=
  "
Wrapping commands in python...
... wrapping GetTextPosition
... wrapping S
... wrapping E
... wrapping R
... wrapping K
... wrapping F0
".

Definition badsig_apidat : ApiStore :=
  list_to_map [
     ("A", {| cmdtype := "subroutine"; descr := ""; returns := []; sig := [["x"; "Long"]] |}); 
     ("B", {| cmdtype := "subroutine"; descr := ""; returns := []; sig := [["x"; "Long"]; ["y"]; ["z"; "Long"]] |}); 
     ("C", {| cmdtype := "subroutine"; descr := ""; returns := []; sig := [] |})].

Definition badsig_docdat : DocStore :=
  list_to_map [
     ("A", []); 
     ("B", []); 
     ("C", [])].

Definition badsig_cmdnames : list string :=
  ["A"; "B"; "C"].

Definition badsig_run : result unit * Sink :=
  exec (main "now" badsig_apidat badsig_docdat badsig_cmdnames).

Definition badsig_text : string :=
  "    # =-=-=-=-=-=-=-=-=-=-=-=-=-=-=-=-=-=-=-=-=-=-=-=-=-=-=-=-=-=-=-=-=-=-=-=-=
    def A(self, x):
        r" +:+ dq +:+ dq +:+ dq +:+ "
        Python API documentation:
        =========================
        Wrapper for FRED A SUBROUTINE.
        Requires all parameters to be set when invoked.

        

        Parameters
        ----------
        x: int

        Returns
        -------
        x: int

        FRED documentation:
        ===================
        " +:+ dq +:+ dq +:+ dq +:+ "
        lib = self._dobj.CreateLib(r" +:+ dq +:+ "stubs/A.frs" +:+ dq +:+ ")
        return lib.libfunct(x)
".

Definition badsig_log : string :=
  "
Wrapping commands in python...
... wrapping A
... wrapping B
".

Definition badret_apidat : ApiStore :=
  list_to_map [
     ("A", {| cmdtype := "function"; descr := ""; returns := ["Units"]; sig := [] |})].

Definition badret_docdat : DocStore :=
  list_to_map [
     ("A", [])].

Definition badret_cmdnames : list string :=
  ["A"].

Definition badret_run : result unit * Sink :=
  exec (main "now" badret_apidat badret_docdat badret_cmdnames).

Definition badret_text : string :=
  "".

Definition badret_log : string :=
  "
Wrapping commands in python...
... wrapping A
".

Definition nodoc_apidat : ApiStore :=
  list_to_map [
     ("A", {| cmdtype := "subroutine"; descr := ""; returns := []; sig := [["x"; "Long"]] |}); 
     ("B", {| cmdtype := "subroutine"; descr := ""; returns := []; sig := [] |})].

Definition nodoc_docdat : DocStore :=
  list_to_map [
     ("B", [])].

Definition nodoc_cmdnames : list string :=
  ["A"; "B"].

Definition nodoc_run : result unit * Sink :=
  exec (main "now" nodoc_apidat nodoc_docdat nodoc_cmdnames).

Definition nodoc_text : string :=
  "".

Definition nodoc_log : string :=
  "
Wrapping commands in python...
... wrapping A
".

(** ** The model agrees *)

Example kinds_result : kinds_run.1 = Ok tt.
Proof. vm_compute. reflexivity. Qed.

Example kinds_file :
  written kinds_run.2 !! 0 = Some (CLASTR "now") ∧
  str_concat (tail (written kinds_run.2)) = kinds_text.
Proof. vm_compute. done. Qed.

Example kinds_printed :
  str_concat ((λ l, l +:+ nl) <$> printed kinds_run.2) = kinds_log.
Proof. vm_compute. reflexivity. Qed.

Example more_result : more_run.1 = Ok tt.
Proof. vm_compute. reflexivity. Qed.

Example more_file :
  written more_run.2 !! 0 = Some (CLASTR "now") ∧
  str_concat (tail (written more_run.2)) = more_text.
Proof. vm_compute. done. Qed.

Example more_printed :
  str_concat ((λ l, l +:+ nl) <$> printed more_run.2) = more_log.
Proof. vm_compute. reflexivity. Qed.

Example badsig_result : badsig_run.1 = Raise (ValueError 1).
Proof. vm_compute. reflexivity. Qed.

Example badsig_file :
  written badsig_run.2 !! 0 = Some (CLASTR "now") ∧
  str_concat (tail (written badsig_run.2)) = badsig_text.
Proof. vm_compute. done. Qed.

Example badsig_printed :
  str_concat ((λ l, l +:+ nl) <$> printed badsig_run.2) = badsig_log.
Proof. vm_compute. reflexivity. Qed.

Example badret_result : badret_run.1 = Raise (ValueError 1).
Proof. vm_compute. reflexivity. Qed.

Example badret_file :
  written badret_run.2 !! 0 = Some (CLASTR "now") ∧
  str_concat (tail (written badret_run.2)) = badret_text.
Proof. vm_compute. done. Qed.

Example badret_printed :
  str_concat ((λ l, l +:+ nl) <$> printed badret_run.2) = badret_log.
Proof. vm_compute. reflexivity. Qed.

Example nodoc_result : nodoc_run.1 = Raise (KeyError "A").
Proof. vm_compute. reflexivity. Qed.

Example nodoc_file :
  written nodoc_run.2 !! 0 = Some (CLASTR "now") ∧
  str_concat (tail (written nodoc_run.2)) = nodoc_text.
Proof. vm_compute. done. Qed.

Example nodoc_printed :
  str_concat ((λ l, l +:+ nl) <$> printed nodoc_run.2) = nodoc_log.
Proof. vm_compute. reflexivity. Qed.

(** ** Collaborators that show their arguments

    An instance of [Utils] whose functions return their arguments, marked:
    a run with it shows what the script passes at each call. *)

Definition probe_utils : Utils := {|
  vb2pytype t r := "<" +:+ t +:+ "|" +:+ r +:+ ">";
  wrap_longlines text ncols indent :=
    "[" +:+ text +:+ "|"
      +:+ match ncols with Some n => pretty n | None => "default" end
      +:+ "|" +:+ indent +:+ "]";
  fmt_docstr doc indent :=
    "{" +:+ indent +:+ ":"
      +:+ str_concat ((λ '(h, t), h +:+ "=" +:+ t +:+ ";") <$> doc) +:+ "}";
  STUBDIR := "probe";
  os_path_join a b := "(" +:+ a +:+ "," +:+ b +:+ ")";
|}.

(** ** The script as a program: the worlds and what the script left *)

Definition fresh_world : World :=
  {| api_yaml := Some (pydict_of [
       ("GetUnits",
        {| r_cmdtype := Some "function"; r_descr := Some "Gets the units.";
        r_returns := Some ["Units"; "String"];
        r_sig := Some [] |}); 
       ("Foo",
        {| r_cmdtype := Some "unknown"; r_descr := Some "";
        r_returns := Some [];
        r_sig := Some [] |}); 
       ("SetUnits",
        {| r_cmdtype := Some "subroutine"; r_descr := Some "Sets the units.";
        r_returns := Some [];
        r_sig := Some [["Units"; "String"]] |})]);
     doc_yaml := Some (list_to_map [
       ("GetUnits", [("Description", "Returns the units.")]); 
       ("SetUnits", [])]);
     pyapi := Some ["# the wrappers of an earlier run
"];
     writable := true; fid_open := false; stdout := [];
     clock := "2017-03-01 12:00:00" |}.

Definition fresh_after : result unit * World :=
  script "__main__" fresh_world.

Definition fresh_body : string :=
  "    # =-=-=-=-=-=-=-=-=-=-=-=-=-=-=-=-=-=-=-=-=-=-=-=-=-=-=-=-=-=-=-=-=-=-=-=-=
    def GetUnits(self):
        r" +:+ dq +:+ dq +:+ dq +:+ "
        Python API documentation:
        =========================
        Wrapper for FRED GetUnits FUNCTION.
        Requires all parameters to be set when invoked.

        Gets the units.


        Returns
        -------
        Units: str

        FRED documentation:
        ===================
        Description
        Returns the units.
        " +:+ dq +:+ dq +:+ dq +:+ "
        lib = self._dobj.CreateLib(r" +:+ dq +:+ "stubs/GetUnits.frs" +:+ dq +:+ ")
        return lib.libfunct(None)
    # =-=-=-=-=-=-=-=-=-=-=-=-=-=-=-=-=-=-=-=-=-=-=-=-=-=-=-=-=-=-=-=-=-=-=-=-=
    def SetUnits(self, Units):
        r" +:+ dq +:+ dq +:+ dq +:+ "
        Python API documentation:
        =========================
        Wrapper for FRED SetUnits SUBROUTINE.
        Requires all parameters to be set when invoked.

        Sets the units.

        Parameters
        ----------
        Units: str

        Returns
        -------
        Units: str

        FRED documentation:
        ===================
        " +:+ dq +:+ dq +:+ dq +:+ "
        lib = self._dobj.CreateLib(r" +:+ dq +:+ "stubs/SetUnits.frs" +:+ dq +:+ ")
        return lib.libfunct(Units)
".

Definition fresh_log : string :=
  "
Wrapping commands in python...
... wrapping GetUnits
... unknown command: Foo. SKIPPING
... wrapping SetUnits
".

Definition first_world : World :=
  {| api_yaml := Some (pydict_of [
       ("GetUnits",
        {| r_cmdtype := Some "function"; r_descr := Some "Gets the units.";
        r_returns := Some ["Units"; "String"];
        r_sig := Some [] |}); 
       ("Foo",
        {| r_cmdtype := Some "unknown"; r_descr := Some "";
        r_returns := Some [];
        r_sig := Some [] |}); 
       ("SetUnits",
        {| r_cmdtype := Some "subroutine"; r_descr := Some "Sets the units.";
        r_returns := Some [];
        r_sig := Some [["Units"; "String"]] |})]);
     doc_yaml := Some (list_to_map [
       ("GetUnits", [("Description", "Returns the units.")]); 
       ("SetUnits", [])]);
     pyapi := None;
     writable := true; fid_open := false; stdout := [];
     clock := "2017-03-01 12:00:00" |}.

Definition first_after : result unit * World :=
  script "__main__" first_world.

Definition first_body : string :=
  "    # =-=-=-=-=-=-=-=-=-=-=-=-=-=-=-=-=-=-=-=-=-=-=-=-=-=-=-=-=-=-=-=-=-=-=-=-=
    def GetUnits(self):
        r" +:+ dq +:+ dq +:+ dq +:+ "
        Python API documentation:
        =========================
        Wrapper for FRED GetUnits FUNCTION.
        Requires all parameters to be set when invoked.

        Gets the units.


        Returns
        -------
        Units: str

        FRED documentation:
        ===================
        Description
        Returns the units.
        " +:+ dq +:+ dq +:+ dq +:+ "
        lib = self._dobj.CreateLib(r" +:+ dq +:+ "stubs/GetUnits.frs" +:+ dq +:+ ")
        return lib.libfunct(None)
    # =-=-=-=-=-=-=-=-=-=-=-=-=-=-=-=-=-=-=-=-=-=-=-=-=-=-=-=-=-=-=-=-=-=-=-=-=
    def SetUnits(self, Units):
        r" +:+ dq +:+ dq +:+ dq +:+ "
        Python API documentation:
        =========================
        Wrapper for FRED SetUnits SUBROUTINE.
        Requires all parameters to be set when invoked.

        Sets the units.

        Parameters
        ----------
        Units: str

        Returns
        -------
        Units: str

        FRED documentation:
        ===================
        " +:+ dq +:+ dq +:+ dq +:+ "
        lib = self._dobj.CreateLib(r" +:+ dq +:+ "stubs/SetUnits.frs" +:+ dq +:+ ")
        return lib.libfunct(Units)
".

Definition first_log : string :=
  "
Wrapping commands in python...
... wrapping GetUnits
... unknown command: Foo. SKIPPING
... wrapping SetUnits
".

Definition imported_world : World :=
  {| api_yaml := Some (pydict_of [
       ("GetUnits",
        {| r_cmdtype := Some "function"; r_descr := Some "Gets the units.";
        r_returns := Some ["Units"; "String"];
        r_sig := Some [] |}); 
       ("Foo",
        {| r_cmdtype := Some "unknown"; r_descr := Some "";
        r_returns := Some [];
        r_sig := Some [] |}); 
       ("SetUnits",
        {| r_cmdtype := Some "subroutine"; r_descr := Some "Sets the units.";
        r_returns := Some [];
        r_sig := Some [["Units"; "String"]] |})]);
     doc_yaml := Some (list_to_map [
       ("GetUnits", [("Description", "Returns the units.")]); 
       ("SetUnits", [])]);
     pyapi := Some ["# the wrappers of an earlier run
"];
     writable := true; fid_open := false; stdout := [];
     clock := "2017-03-01 12:00:00" |}.

Definition imported_after : result unit * World :=
  script "script03_apiwrapgen" imported_world.

Definition imported_log : string :=
  "".

Definition noapi_world : World :=
  {| api_yaml := None;
     doc_yaml := Some (list_to_map [
       ("GetUnits", [("Description", "Returns the units.")]); 
       ("SetUnits", [])]);
     pyapi := Some ["# the wrappers of an earlier run
"];
     writable := true; fid_open := false; stdout := [];
     clock := "2017-03-01 12:00:00" |}.

Definition noapi_after : result unit * World :=
  script "__main__" noapi_world.

Definition noapi_log : string :=
  "".

Definition nodocs_world : World :=
  {| api_yaml := Some (pydict_of [
       ("GetUnits",
        {| r_cmdtype := Some "function"; r_descr := Some "Gets the units.";
        r_returns := Some ["Units"; "String"];
        r_sig := Some [] |}); 
       ("Foo",
        {| r_cmdtype := Some "unknown"; r_descr := Some "";
        r_returns := Some [];
        r_sig := Some [] |}); 
       ("SetUnits",
        {| r_cmdtype := Some "subroutine"; r_descr := Some "Sets the units.";
        r_returns := Some [];
        r_sig := Some [["Units"; "String"]] |})]);
     doc_yaml := None;
     pyapi := Some ["# the wrappers of an earlier run
"];
     writable := true; fid_open := false; stdout := [];
     clock := "2017-03-01 12:00:00" |}.

Definition nodocs_after : result unit * World :=
  script "__main__" nodocs_world.

Definition nodocs_log : string :=
  "".

Definition noboth_world : World :=
  {| api_yaml := None;
     doc_yaml := None;
     pyapi := None;
     writable := true; fid_open := false; stdout := [];
     clock := "2017-03-01 12:00:00" |}.

Definition noboth_after : result unit * World :=
  script "__main__" noboth_world.

Definition noboth_log : string :=
  "".

Definition blocked_world : World :=
  {| api_yaml := Some (pydict_of [
       ("GetUnits",
        {| r_cmdtype := Some "function"; r_descr := Some "Gets the units.";
        r_returns := Some ["Units"; "String"];
        r_sig := Some [] |}); 
       ("Foo",
        {| r_cmdtype := Some "unknown"; r_descr := Some "";
        r_returns := Some [];
        r_sig := Some [] |}); 
       ("SetUnits",
        {| r_cmdtype := Some "subroutine"; r_descr := Some "Sets the units.";
        r_returns := Some [];
        r_sig := Some [["Units"; "String"]] |})]);
     doc_yaml := Some (list_to_map [
       ("GetUnits", [("Description", "Returns the units.")]); 
       ("SetUnits", [])]);
     pyapi := None;
     writable := false; fid_open := false; stdout := [];
     clock := "2017-03-01 12:00:00" |}.

Definition blocked_after : result unit * World :=
  script "__main__" blocked_world.

Definition blocked_log : string :=
  "".

Definition noreturns_world : World :=
  {| api_yaml := Some (pydict_of [
       ("GetUnits",
        {| r_cmdtype := Some "function"; r_descr := Some "Gets the units.";
        r_returns := Some ["Units"; "String"];
        r_sig := Some [] |}); 
       ("N",
        {| r_cmdtype := Some "subroutine"; r_descr := Some "d";
        r_returns := None;
        r_sig := Some [["x"; "Long"]] |}); 
       ("SetUnits",
        {| r_cmdtype := Some "subroutine"; r_descr := Some "Sets the units.";
        r_returns := Some [];
        r_sig := Some [["Units"; "String"]] |})]);
     doc_yaml := Some (list_to_map [
       ("GetUnits", []); 
       ("N", []); 
       ("SetUnits", [])]);
     pyapi := Some ["# the wrappers of an earlier run
"];
     writable := true; fid_open := false; stdout := [];
     clock := "2017-03-01 12:00:00" |}.

Definition noreturns_after : result unit * World :=
  script "__main__" noreturns_world.

Definition noreturns_body : string :=
  "    # =-=-=-=-=-=-=-=-=-=-=-=-=-=-=-=-=-=-=-=-=-=-=-=-=-=-=-=-=-=-=-=-=-=-=-=-=
    def GetUnits(self):
        r" +:+ dq +:+ dq +:+ dq +:+ "
        Python API documentation:
        =========================
        Wrapper for FRED GetUnits FUNCTION.
        Requires all parameters to be set when invoked.

        Gets the units.


        Returns
        -------
        Units: str

        FRED documentation:
        ===================
        " +:+ dq +:+ dq +:+ dq +:+ "
        lib = self._dobj.CreateLib(r" +:+ dq +:+ "stubs/GetUnits.frs" +:+ dq +:+ ")
        return lib.libfunct(None)
".

Definition noreturns_log : string :=
  "
Wrapping commands in python...
... wrapping GetUnits
... wrapping N
".

Definition nodescr_world : World :=
  {| api_yaml := Some (pydict_of [
       ("D",
        {| r_cmdtype := Some "function"; r_descr := None;
        r_returns := Some [];
        r_sig := Some [] |})]);
     doc_yaml := Some (list_to_map [
       ("D", [])]);
     pyapi := Some ["# the wrappers of an earlier run
"];
     writable := true; fid_open := false; stdout := [];
     clock := "2017-03-01 12:00:00" |}.

Definition nodescr_after : result unit * World :=
  script "__main__" nodescr_world.

Definition nodescr_body : string :=
  "".

Definition nodescr_log : string :=
  "
Wrapping commands in python...
... wrapping D
".

Definition nosig_world : World :=
  {| api_yaml := Some (pydict_of [
       ("S",
        {| r_cmdtype := Some "datastruct"; r_descr := Some "d";
        r_returns := Some [];
        r_sig := None |})]);
     doc_yaml := Some (list_to_map [
       ("S", [])]);
     pyapi := Some ["# the wrappers of an earlier run
"];
     writable := true; fid_open := false; stdout := [];
     clock := "2017-03-01 12:00:00" |}.

Definition nosig_after : result unit * World :=
  script "__main__" nosig_world.

Definition nosig_body : string :=
  "".

Definition nosig_log : string :=
  "
Wrapping commands in python...
... wrapping S
".

Definition nokind_world : World :=
  {| api_yaml := Some (pydict_of [
       ("GetUnits",
        {| r_cmdtype := Some "function"; r_descr := Some "Gets the units.";
        r_returns := Some ["Units"; "String"];
        r_sig := Some [] |}); 
       ("K",
        {| r_cmdtype := None; r_descr := Some "d";
        r_returns := Some [];
        r_sig := Some [] |})]);
     doc_yaml := Some (list_to_map [
       ("GetUnits", [("Description", "Returns the units.")]); 
       ("SetUnits", [])]);
     pyapi := Some ["# the wrappers of an earlier run
"];
     writable := true; fid_open := false; stdout := [];
     clock := "2017-03-01 12:00:00" |}.

Definition nokind_after : result unit * World :=
  script "__main__" nokind_world.

Definition nokind_body : string :=
  "    # =-=-=-=-=-=-=-=-=-=-=-=-=-=-=-=-=-=-=-=-=-=-=-=-=-=-=-=-=-=-=-=-=-=-=-=-=
    def GetUnits(self):
        r" +:+ dq +:+ dq +:+ dq +:+ "
        Python API documentation:
        =========================
        Wrapper for FRED GetUnits FUNCTION.
        Requires all parameters to be set when invoked.

        Gets the units.


        Returns
        -------
        Units: str

        FRED documentation:
        ===================
        Description
        Returns the units.
        " +:+ dq +:+ dq +:+ dq +:+ "
        lib = self._dobj.CreateLib(r" +:+ dq +:+ "stubs/GetUnits.frs" +:+ dq +:+ ")
        return lib.libfunct(None)
".

Definition nokind_log : string :=
  "
Wrapping commands in python...
... wrapping GetUnits
".

Definition bare_world : World :=
  {| api_yaml := Some (pydict_of [
       ("U",
        {| r_cmdtype := Some "unknown"; r_descr := None;
        r_returns := None;
        r_sig := None |}); 
       ("GetUnits",
        {| r_cmdtype := Some "function"; r_descr := Some "Gets the units.";
        r_returns := Some ["Units"; "String"];
        r_sig := Some [] |})]);
     doc_yaml := Some (list_to_map [
       ("GetUnits", [("Description", "Returns the units.")]); 
       ("SetUnits", [])]);
     pyapi := Some ["# the wrappers of an earlier run
"];
     writable := true; fid_open := false; stdout := [];
     clock := "2017-03-01 12:00:00" |}.

Definition bare_after : result unit * World :=
  script "__main__" bare_world.

Definition bare_body : string :=
  "    # =-=-=-=-=-=-=-=-=-=-=-=-=-=-=-=-=-=-=-=-=-=-=-=-=-=-=-=-=-=-=-=-=-=-=-=-=
    def GetUnits(self):
        r" +:+ dq +:+ dq +:+ dq +:+ "
        Python API documentation:
        =========================
        Wrapper for FRED GetUnits FUNCTION.
        Requires all parameters to be set when invoked.

        Gets the units.


        Returns
        -------
        Units: str

        FRED documentation:
        ===================
        Description
        Returns the units.
        " +:+ dq +:+ dq +:+ dq +:+ "
        lib = self._dobj.CreateLib(r" +:+ dq +:+ "stubs/GetUnits.frs" +:+ dq +:+ ")
        return lib.libfunct(None)
".

Definition bare_log : string :=
  "
Wrapping commands in python...
... unknown command: U. SKIPPING
... wrapping GetUnits
".

Definition late_world : World :=
  {| api_yaml := Some (pydict_of [
       ("L",
        {| r_cmdtype := Some "subroutine"; r_descr := Some "d";
        r_returns := None;
        r_sig := Some [["x"]] |})]);
     doc_yaml := Some (list_to_map [
       ("L", [])]);
     pyapi := Some ["# the wrappers of an earlier run
"];
     writable := true; fid_open := false; stdout := [];
     clock := "2017-03-01 12:00:00" |}.

Definition late_after : result unit * World :=
  script "__main__" late_world.

Definition late_body : string :=
  "".

Definition late_log : string :=
  "
Wrapping commands in python...
... wrapping L
".

Definition undocumented_world : World :=
  {| api_yaml := Some (pydict_of [
       ("L",
        {| r_cmdtype := Some "subroutine"; r_descr := Some "d";
        r_returns := None;
        r_sig := Some [] |})]);
     doc_yaml := Some (list_to_map []);
     pyapi := Some ["# the wrappers of an earlier run
"];
     writable := true; fid_open := false; stdout := [];
     clock := "2017-03-01 12:00:00" |}.

Definition undocumented_after : result unit * World :=
  script "__main__" undocumented_world.

Definition undocumented_body : string :=
  "".

Definition undocumented_log : string :=
  "
Wrapping commands in python...
... wrapping L
".

Definition latin_world : World :=
  {| api_yaml := Some (pydict_of [
       ("GetUnits",
        {| r_cmdtype := Some "function"; r_descr := Some ("Gibt die L" +:+ uni 228 +:+ "ngeneinheit zur" +:+ uni 252 +:+ "ck (" +:+ uni 181 +:+ "m, " +:+ uni 197 +:+ ").");
        r_returns := Some ["Units"; "String"];
        r_sig := Some [] |}); 
       ("SetSize",
        {| r_cmdtype := Some "subroutine"; r_descr := Some ("Gr" +:+ uni 246 +:+ uni 223 +:+ "e " +:+ uni 215 +:+ " 2");
        r_returns := Some [];
        r_sig := Some [["size"; "Double"]] |})]);
     doc_yaml := Some (list_to_map [
       ("GetUnits", [("Beschreibung", ("na" +:+ uni 239 +:+ "ve caf" +:+ uni 233 +:+ ", 50" +:+ uni 160 +:+ "%"))]); 
       ("SetSize", [])]);
     pyapi := Some ["# the wrappers of an earlier run
"];
     writable := true; fid_open := false; stdout := [];
     clock := "2017-03-01 12:00:00" |}.

Definition latin_after : result unit * World :=
  script "__main__" latin_world.

Definition latin_body : string :=
  "    # =-=-=-=-=-=-=-=-=-=-=-=-=-=-=-=-=-=-=-=-=-=-=-=-=-=-=-=-=-=-=-=-=-=-=-=-=
    def GetUnits(self):
        r" +:+ dq +:+ dq +:+ dq +:+ "
        Python API documentation:
        =========================
        Wrapper for FRED GetUnits FUNCTION.
        Requires all parameters to be set when invoked.

        Gibt die L" +:+ uni 228 +:+ "ngeneinheit zur" +:+ uni 252 +:+ "ck (" +:+ uni 181 +:+ "m, " +:+ uni 197 +:+ ").


        Returns
        -------
        Units: str

        FRED documentation:
        ===================
        Beschreibung
        na" +:+ uni 239 +:+ "ve caf" +:+ uni 233 +:+ ", 50" +:+ uni 160 +:+ "%
        " +:+ dq +:+ dq +:+ dq +:+ "
        lib = self._dobj.CreateLib(r" +:+ dq +:+ "stubs/GetUnits.frs" +:+ dq +:+ ")
        return lib.libfunct(None)
    # =-=-=-=-=-=-=-=-=-=-=-=-=-=-=-=-=-=-=-=-=-=-=-=-=-=-=-=-=-=-=-=-=-=-=-=-=
    def SetSize(self, size):
        r" +:+ dq +:+ dq +:+ dq +:+ "
        Python API documentation:
        =========================
        Wrapper for FRED SetSize SUBROUTINE.
        Requires all parameters to be set when invoked.

        Gr" +:+ uni 246 +:+ uni 223 +:+ "e " +:+ uni 215 +:+ " 2

        Parameters
        ----------
        size: float

        Returns
        -------
        size: float

        FRED documentation:
        ===================
        " +:+ dq +:+ dq +:+ dq +:+ "
        lib = self._dobj.CreateLib(r" +:+ dq +:+ "stubs/SetSize.frs" +:+ dq +:+ ")
        return lib.libfunct(size)
".

Definition latin_log : string :=
  "
Wrapping commands in python...
... wrapping GetUnits
... wrapping SetSize
".

Definition latin_bytes : string :=
  "    # =-=-=-=-=-=-=-=-=-=-=-=-=-=-=-=-=-=-=-=-=-=-=-=-=-=-=-=-=-=-=-=-=-=-=-=-=
    def GetUnits(self):
        r" +:+ dq +:+ dq +:+ dq +:+ "
        Python API documentation:
        =========================
        Wrapper for FRED GetUnits FUNCTION.
        Requires all parameters to be set when invoked.

        Gibt die L" +:+ uni 195 +:+ uni 164 +:+ "ngeneinheit zur" +:+ uni 195 +:+ uni 188 +:+ "ck (" +:+ uni 194 +:+ uni 181 +:+ "m, " +:+ uni 195 +:+ uni 133 +:+ ").


        Returns
        -------
        Units: str

        FRED documentation:
        ===================
        Beschreibung
        na" +:+ uni 195 +:+ uni 175 +:+ "ve caf" +:+ uni 195 +:+ uni 169 +:+ ", 50" +:+ uni 194 +:+ uni 160 +:+ "%
        " +:+ dq +:+ dq +:+ dq +:+ "
        lib = self._dobj.CreateLib(r" +:+ dq +:+ "stubs/GetUnits.frs" +:+ dq +:+ ")
        return lib.libfunct(None)
    # =-=-=-=-=-=-=-=-=-=-=-=-=-=-=-=-=-=-=-=-=-=-=-=-=-=-=-=-=-=-=-=-=-=-=-=-=
    def SetSize(self, size):
        r" +:+ dq +:+ dq +:+ dq +:+ "
        Python API documentation:
        =========================
        Wrapper for FRED SetSize SUBROUTINE.
        Requires all parameters to be set when invoked.

        Gr" +:+ uni 195 +:+ uni 182 +:+ uni 195 +:+ uni 159 +:+ "e " +:+ uni 195 +:+ uni 151 +:+ " 2

        Parameters
        ----------
        size: float

        Returns
        -------
        size: float

        FRED documentation:
        ===================
        " +:+ dq +:+ dq +:+ dq +:+ "
        lib = self._dobj.CreateLib(r" +:+ dq +:+ "stubs/SetSize.frs" +:+ dq +:+ ")
        return lib.libfunct(size)
".

Definition blanks_world : World :=
  {| api_yaml := Some (pydict_of [
       ("Move",
        {| r_cmdtype := Some "subroutine"; r_descr := Some "Moves.";
        r_returns := Some [];
        r_sig := Some [[("pts" +:+ uni 160 +:+ "()"); "Double"]; [("n" +:+ uni 31 +:+ "( )"); "Long"]] |})]);
     doc_yaml := Some (list_to_map [
       ("Move", [])]);
     pyapi := Some ["# the wrappers of an earlier run
"];
     writable := true; fid_open := false; stdout := [];
     clock := "2017-03-01 12:00:00" |}.

Definition blanks_after : result unit * World :=
  script "__main__" blanks_world.

Definition blanks_body : string :=
  "    # =-=-=-=-=-=-=-=-=-=-=-=-=-=-=-=-=-=-=-=-=-=-=-=-=-=-=-=-=-=-=-=-=-=-=-=-=
    def Move(self, pts, n):
        r" +:+ dq +:+ dq +:+ dq +:+ "
        Python API documentation:
        =========================
        Wrapper for FRED Move SUBROUTINE.
        Requires all parameters to be set when invoked.

        Moves.

        Parameters
        ----------
        pts: Array-like of float
        n: Array-like of int

        Returns
        -------
        [pts" +:+ uni 160 +:+ "(): float, n" +:+ uni 31 +:+ "( ): int]

        FRED documentation:
        ===================
        " +:+ dq +:+ dq +:+ dq +:+ "
        lib = self._dobj.CreateLib(r" +:+ dq +:+ "stubs/Move.frs" +:+ dq +:+ ")
        return lib.libfunct(pts, n)
".

Definition blanks_log : string :=
  "
Wrapping commands in python...
... wrapping Move
".

Definition blanks_bytes : string :=
  "    # =-=-=-=-=-=-=-=-=-=-=-=-=-=-=-=-=-=-=-=-=-=-=-=-=-=-=-=-=-=-=-=-=-=-=-=-=
    def Move(self, pts, n):
        r" +:+ dq +:+ dq +:+ dq +:+ "
        Python API documentation:
        =========================
        Wrapper for FRED Move SUBROUTINE.
        Requires all parameters to be set when invoked.

        Moves.

        Parameters
        ----------
        pts: Array-like of float
        n: Array-like of int

        Returns
        -------
        [pts" +:+ uni 194 +:+ uni 160 +:+ "(): float, n" +:+ uni 31 +:+ "( ): int]

        FRED documentation:
        ===================
        " +:+ dq +:+ dq +:+ dq +:+ "
        lib = self._dobj.CreateLib(r" +:+ dq +:+ "stubs/Move.frs" +:+ dq +:+ ")
        return lib.libfunct(pts, n)
".

Definition upper_world : World :=
  {| api_yaml := Some (pydict_of [
       ("Mesure",
        {| r_cmdtype := Some ("m" +:+ uni 233 +:+ "thode " +:+ uni 223 +:+ uni 247 +:+ uni 224 +:+ uni 254); r_descr := Some "Mesure.";
        r_returns := Some [];
        r_sig := Some [] |})]);
     doc_yaml := Some (list_to_map [
       ("Mesure", [])]);
     pyapi := Some ["# the wrappers of an earlier run
"];
     writable := true; fid_open := false; stdout := [];
     clock := "2017-03-01 12:00:00" |}.

Definition upper_after : result unit * World :=
  script "__main__" upper_world.

Definition upper_body : string :=
  "    # =-=-=-=-=-=-=-=-=-=-=-=-=-=-=-=-=-=-=-=-=-=-=-=-=-=-=-=-=-=-=-=-=-=-=-=-=
    def Mesure(self):
        r" +:+ dq +:+ dq +:+ dq +:+ "
        Python API documentation:
        =========================
        Wrapper for FRED Mesure M" +:+ uni 201 +:+ "THODE SS" +:+ uni 247 +:+ uni 192 +:+ uni 222 +:+ ".
        Requires all parameters to be set when invoked.

        Mesure.


        FRED documentation:
        ===================
        " +:+ dq +:+ dq +:+ dq +:+ "
        lib = self._dobj.CreateLib(r" +:+ dq +:+ "stubs/Mesure.frs" +:+ dq +:+ ")
        return lib.libfunct(None)
".

Definition upper_log : string :=
  "
Wrapping commands in python...
... wrapping Mesure
".

Definition upper_bytes : string :=
  "    # =-=-=-=-=-=-=-=-=-=-=-=-=-=-=-=-=-=-=-=-=-=-=-=-=-=-=-=-=-=-=-=-=-=-=-=-=
    def Mesure(self):
        r" +:+ dq +:+ dq +:+ dq +:+ "
        Python API documentation:
        =========================
        Wrapper for FRED Mesure M" +:+ uni 195 +:+ uni 137 +:+ "THODE SS" +:+ uni 195 +:+ uni 183 +:+ uni 195 +:+ uni 128 +:+ uni 195 +:+ uni 158 +:+ ".
        Requires all parameters to be set when invoked.

        Mesure.


        FRED documentation:
        ===================
        " +:+ dq +:+ dq +:+ dq +:+ "
        lib = self._dobj.CreateLib(r" +:+ dq +:+ "stubs/Mesure.frs" +:+ dq +:+ ")
        return lib.libfunct(None)
".

Definition probe_world : World :=
  {| api_yaml := Some (pydict_of [
       ("GetUnits",
        {| r_cmdtype := Some "function"; r_descr := Some "Gets the units.";
        r_returns := Some ["Units"; "String"];
        r_sig := Some [] |}); 
       ("Move",
        {| r_cmdtype := Some "subroutine"; r_descr := Some "Moves.";
        r_returns := Some ["ok"; "Boolean"];
        r_sig := Some [["node"; "Long"]; ["pts ()"; "Double"]] |}); 
       ("T_ENTITY",
        {| r_cmdtype := Some "datastruct"; r_descr := Some "An entity.";
        r_returns := Some [];
        r_sig := Some [["Idnum"; "Long"]; ["Name"; "String"]] |}); 
       ("Clear",
        {| r_cmdtype := Some "subroutine"; r_descr := Some "";
        r_returns := Some [];
        r_sig := Some [] |})]);
     doc_yaml := Some (list_to_map [
       ("GetUnits", [("Description", "Returns the units."); ("See also", "SetUnits")]); 
       ("Move", []); 
       ("T_ENTITY", [("Fields", "two")]); 
       ("Clear", [])]);
     pyapi := Some ["# the wrappers of an earlier run
"];
     writable := true; fid_open := false; stdout := [];
     clock := "2017-03-01 12:00:00" |}.

Definition probe_after : result unit * World :=
  script (U := probe_utils) "__main__" probe_world.

Definition probe_body : string :=
  "    # =-=-=-=-=-=-=-=-=-=-=-=-=-=-=-=-=-=-=-=-=-=-=-=-=-=-=-=-=-=-=-=-=-=-=-=-=
    def GetUnits([self|50|            ]):
        r" +:+ dq +:+ dq +:+ dq +:+ "
        Python API documentation:
        =========================
        Wrapper for FRED GetUnits FUNCTION.
        Requires all parameters to be set when invoked.

        [Gets the units.|default|        ]


        Returns
        -------
        Units: <String|repr>

        FRED documentation:
        ===================
{        :Description=Returns the units.;See also=SetUnits;}        " +:+ dq +:+ dq +:+ dq +:+ "
        lib = self._dobj.CreateLib(r" +:+ dq +:+ "(probe,GetUnits.frs)" +:+ dq +:+ ")
        return lib.libfunct([|50|            ])
    # =-=-=-=-=-=-=-=-=-=-=-=-=-=-=-=-=-=-=-=-=-=-=-=-=-=-=-=-=-=-=-=-=-=-=-=-=
    def Move([self, node, pts|50|            ]):
        r" +:+ dq +:+ dq +:+ dq +:+ "
        Python API documentation:
        =========================
        Wrapper for FRED Move SUBROUTINE.
        Requires all parameters to be set when invoked.

        [Moves.|default|        ]

        Parameters
        ----------
        node: <Long|repr>
        pts: Array-like of <Double|repr>

        Returns
        -------
        [ok: <Boolean|repr>, node: <Long|repr>, pts (): <Double|repr>]

        FRED documentation:
        ===================
{        :}        " +:+ dq +:+ dq +:+ dq +:+ "
        lib = self._dobj.CreateLib(r" +:+ dq +:+ "(probe,Move.frs)" +:+ dq +:+ ")
        return lib.libfunct([node, pts|50|            ])
    # =-=-=-=-=-=-=-=-=-=-=-=-=-=-=-=-=-=-=-=-=-=-=-=-=-=-=-=-=-=-=-=-=-=-=-=-=
    def T_ENTITY([self, Idnum=None, Name=None|50|            ]):
        r" +:+ dq +:+ dq +:+ dq +:+ "
        Python API documentation:
        =========================
        Wrapper for FRED T_ENTITY DATASTRUCT.
        Does not require all parameters to be set when invoked.

        [An entity.|default|        ]

        Parameters
        ----------
        Idnum: <Long|repr>
        Name: <String|repr>

        Returns
        -------
        datastruct: <com_record T_ENTITY>

        FRED documentation:
        ===================
{        :Fields=two;}        " +:+ dq +:+ dq +:+ dq +:+ "
        dstruct = w32.Record(" +:+ dq +:+ "T_ENTITY" +:+ dq +:+ ", self._dobj)
        if Idnum is not None:
            setattr(dstruct, " +:+ dq +:+ "Idnum" +:+ dq +:+ ", Idnum)
        if Name is not None:
            setattr(dstruct, " +:+ dq +:+ "Name" +:+ dq +:+ ", Name)
        return dstruct
    # =-=-=-=-=-=-=-=-=-=-=-=-=-=-=-=-=-=-=-=-=-=-=-=-=-=-=-=-=-=-=-=-=-=-=-=-=
    def Clear([self|50|            ]):
        r" +:+ dq +:+ dq +:+ dq +:+ "
        Python API documentation:
        =========================
        Wrapper for FRED Clear SUBROUTINE.
        Requires all parameters to be set when invoked.

        [|default|        ]


        FRED documentation:
        ===================
{        :}        " +:+ dq +:+ dq +:+ dq +:+ "
        lib = self._dobj.CreateLib(r" +:+ dq +:+ "(probe,Clear.frs)" +:+ dq +:+ ")
        return lib.libfunct([|50|            ])
".

Definition probe_log : string :=
  "
Wrapping commands in python...
... wrapping GetUnits
... wrapping Move
... wrapping T_ENTITY
... wrapping Clear
".

(** ** The model agrees on the runs of the program *)

Example fresh_outcome :
  fresh_after.1 = Ok tt ∧
  fid_open fresh_after.2 = false.
Proof. vm_compute. done. Qed.

Example fresh_artifact :
  pyapi_text fresh_after.2 = Some (CLASTR "2017-03-01 12:00:00" +:+ fresh_body).
Proof. vm_compute. reflexivity. Qed.

Example fresh_status :
  str_concat ((λ l, l +:+ nl) <$> stdout fresh_after.2) = fresh_log.
Proof. vm_compute. reflexivity. Qed.

Example first_outcome :
  first_after.1 = Ok tt ∧
  fid_open first_after.2 = false.
Proof. vm_compute. done. Qed.

Example first_artifact :
  pyapi_text first_after.2 = Some (CLASTR "2017-03-01 12:00:00" +:+ first_body).
Proof. vm_compute. reflexivity. Qed.

Example first_status :
  str_concat ((λ l, l +:+ nl) <$> stdout first_after.2) = first_log.
Proof. vm_compute. reflexivity. Qed.

Example imported_outcome :
  imported_after.1 = Ok tt ∧
  fid_open imported_after.2 = false.
Proof. vm_compute. done. Qed.

Example imported_artifact :
  pyapi_text imported_after.2 = Some ("# the wrappers of an earlier run
").
Proof. vm_compute. reflexivity. Qed.

Example imported_status :
  str_concat ((λ l, l +:+ nl) <$> stdout imported_after.2) = imported_log.
Proof. vm_compute. reflexivity. Qed.

Example noapi_outcome :
  noapi_after.1 = Raise (IOError "api.yaml") ∧
  fid_open noapi_after.2 = false.
Proof. vm_compute. done. Qed.

Example noapi_artifact :
  pyapi_text noapi_after.2 = Some ("# the wrappers of an earlier run
").
Proof. vm_compute. reflexivity. Qed.

Example noapi_status :
  str_concat ((λ l, l +:+ nl) <$> stdout noapi_after.2) = noapi_log.
Proof. vm_compute. reflexivity. Qed.

Example nodocs_outcome :
  nodocs_after.1 = Raise (IOError "doc.yaml") ∧
  fid_open nodocs_after.2 = false.
Proof. vm_compute. done. Qed.

Example nodocs_artifact :
  pyapi_text nodocs_after.2 = Some ("# the wrappers of an earlier run
").
Proof. vm_compute. reflexivity. Qed.

Example nodocs_status :
  str_concat ((λ l, l +:+ nl) <$> stdout nodocs_after.2) = nodocs_log.
Proof. vm_compute. reflexivity. Qed.

Example noboth_outcome :
  noboth_after.1 = Raise (IOError "api.yaml") ∧
  fid_open noboth_after.2 = false.
Proof. vm_compute. done. Qed.

Example noboth_artifact :
  pyapi_text noboth_after.2 = None.
Proof. vm_compute. reflexivity. Qed.

Example noboth_status :
  str_concat ((λ l, l +:+ nl) <$> stdout noboth_after.2) = noboth_log.
Proof. vm_compute. reflexivity. Qed.

Example blocked_outcome :
  blocked_after.1 = Raise (IOError "fred.py") ∧
  fid_open blocked_after.2 = false.
Proof. vm_compute. done. Qed.

Example blocked_artifact :
  pyapi_text blocked_after.2 = None.
Proof. vm_compute. reflexivity. Qed.

Example blocked_status :
  str_concat ((λ l, l +:+ nl) <$> stdout blocked_after.2) = blocked_log.
Proof. vm_compute. reflexivity. Qed.

Example noreturns_outcome :
  noreturns_after.1 = Raise (KeyError "returns") ∧
  fid_open noreturns_after.2 = true.
Proof. vm_compute. done. Qed.

Example noreturns_artifact :
  pyapi_text noreturns_after.2 = Some (CLASTR "2017-03-01 12:00:00" +:+ noreturns_body).
Proof. vm_compute. reflexivity. Qed.

Example noreturns_status :
  str_concat ((λ l, l +:+ nl) <$> stdout noreturns_after.2) = noreturns_log.
Proof. vm_compute. reflexivity. Qed.

Example nodescr_outcome :
  nodescr_after.1 = Raise (KeyError "descr") ∧
  fid_open nodescr_after.2 = true.
Proof. vm_compute. done. Qed.

Example nodescr_artifact :
  pyapi_text nodescr_after.2 = Some (CLASTR "2017-03-01 12:00:00" +:+ nodescr_body).
Proof. vm_compute. reflexivity. Qed.

Example nodescr_status :
  str_concat ((λ l, l +:+ nl) <$> stdout nodescr_after.2) = nodescr_log.
Proof. vm_compute. reflexivity. Qed.

Example nosig_outcome :
  nosig_after.1 = Raise (KeyError "sig") ∧
  fid_open nosig_after.2 = true.
Proof. vm_compute. done. Qed.

Example nosig_artifact :
  pyapi_text nosig_after.2 = Some (CLASTR "2017-03-01 12:00:00" +:+ nosig_body).
Proof. vm_compute. reflexivity. Qed.

Example nosig_status :
  str_concat ((λ l, l +:+ nl) <$> stdout nosig_after.2) = nosig_log.
Proof. vm_compute. reflexivity. Qed.

Example nokind_outcome :
  nokind_after.1 = Raise (KeyError "cmdtype") ∧
  fid_open nokind_after.2 = true.
Proof. vm_compute. done. Qed.

Example nokind_artifact :
  pyapi_text nokind_after.2 = Some (CLASTR "2017-03-01 12:00:00" +:+ nokind_body).
Proof. vm_compute. reflexivity. Qed.

Example nokind_status :
  str_concat ((λ l, l +:+ nl) <$> stdout nokind_after.2) = nokind_log.
Proof. vm_compute. reflexivity. Qed.

Example bare_outcome :
  bare_after.1 = Ok tt ∧
  fid_open bare_after.2 = false.
Proof. vm_compute. done. Qed.

Example bare_artifact :
  pyapi_text bare_after.2 = Some (CLASTR "2017-03-01 12:00:00" +:+ bare_body).
Proof. vm_compute. reflexivity. Qed.

Example bare_status :
  str_concat ((λ l, l +:+ nl) <$> stdout bare_after.2) = bare_log.
Proof. vm_compute. reflexivity. Qed.

Example late_outcome :
  late_after.1 = Raise (KeyError "returns") ∧
  fid_open late_after.2 = true.
Proof. vm_compute. done. Qed.

Example late_artifact :
  pyapi_text late_after.2 = Some (CLASTR "2017-03-01 12:00:00" +:+ late_body).
Proof. vm_compute. reflexivity. Qed.

Example late_status :
  str_concat ((λ l, l +:+ nl) <$> stdout late_after.2) = late_log.
Proof. vm_compute. reflexivity. Qed.

Example undocumented_outcome :
  undocumented_after.1 = Raise (KeyError "L") ∧
  fid_open undocumented_after.2 = true.
Proof. vm_compute. done. Qed.

Example undocumented_artifact :
  pyapi_text undocumented_after.2 = Some (CLASTR "2017-03-01 12:00:00" +:+ undocumented_body).
Proof. vm_compute. reflexivity. Qed.

Example undocumented_status :
  str_concat ((λ l, l +:+ nl) <$> stdout undocumented_after.2) = undocumented_log.
Proof. vm_compute. reflexivity. Qed.

Example latin_outcome :
  latin_after.1 = Ok tt ∧
  fid_open latin_after.2 = false.
Proof. vm_compute. done. Qed.

Example latin_artifact :
  pyapi_text latin_after.2 = Some (CLASTR "2017-03-01 12:00:00" +:+ latin_body).
Proof. vm_compute. reflexivity. Qed.

Example latin_on_disk :
  pyapi_bytes latin_after.2 = Some (CLASTR "2017-03-01 12:00:00" +:+ latin_bytes).
Proof. vm_compute. reflexivity. Qed.

Example latin_status :
  str_concat ((λ l, l +:+ nl) <$> stdout latin_after.2) = latin_log.
Proof. vm_compute. reflexivity. Qed.

Example blanks_outcome :
  blanks_after.1 = Ok tt ∧
  fid_open blanks_after.2 = false.
Proof. vm_compute. done. Qed.

Example blanks_artifact :
  pyapi_text blanks_after.2 = Some (CLASTR "2017-03-01 12:00:00" +:+ blanks_body).
Proof. vm_compute. reflexivity. Qed.

Example blanks_on_disk :
  pyapi_bytes blanks_after.2 = Some (CLASTR "2017-03-01 12:00:00" +:+ blanks_bytes).
Proof. vm_compute. reflexivity. Qed.

Example blanks_status :
  str_concat ((λ l, l +:+ nl) <$> stdout blanks_after.2) = blanks_log.
Proof. vm_compute. reflexivity. Qed.

Example upper_outcome :
  upper_after.1 = Ok tt ∧
  fid_open upper_after.2 = false.
Proof. vm_compute. done. Qed.

Example upper_artifact :
  pyapi_text upper_after.2 = Some (CLASTR "2017-03-01 12:00:00" +:+ upper_body).
Proof. vm_compute. reflexivity. Qed.

Example upper_on_disk :
  pyapi_bytes upper_after.2 = Some (CLASTR "2017-03-01 12:00:00" +:+ upper_bytes).
Proof. vm_compute. reflexivity. Qed.

Example upper_status :
  str_concat ((λ l, l +:+ nl) <$> stdout upper_after.2) = upper_log.
Proof. vm_compute. reflexivity. Qed.

Example probe_outcome :
  probe_after.1 = Ok tt ∧
  fid_open probe_after.2 = false.
Proof. vm_compute. done. Qed.

Example probe_artifact :
  pyapi_text probe_after.2 = Some (CLASTR "2017-03-01 12:00:00" +:+ probe_body).
Proof. vm_compute. reflexivity. Qed.

Example probe_status :
  str_concat ((λ l, l +:+ nl) <$> stdout probe_after.2) = probe_log.
Proof. vm_compute. reflexivity. Qed.
